(** * NOW game layer: pre-login suite, exits and movement, command bundles,
    worker-pool plugin

  A shallow embedding of the Python sources

  - [commands/prelogin.py]               (module [Prelogin])
  - [typeclasses/exits.py]               (module [Exits])
  - [NOWMU/NOW/commands/default_cmdsets.py] (module [Cmdsets])
  - [contrib/procpools/python_procpool_plugin.py] (module [Procpool])

  Python exceptions are made explicit with the result type [res];
  dictionaries are finite maps; the calls a function makes into the
  hosting framework are recorded, in order, in a trace of events. *)

From Stdlib Require Import ZArith Ascii String DecimalString.
From stdpp Require Import gmap strings list.

Local Open Scope string_scope.
Local Open Scope Z_scope.
Local Open Scope list_scope.

(** ** Python runtime conventions shared by all modules *)

Module Py.

(** The exception classes that the modelled code can raise. *)
Inductive Exn : Type :=
| KeyError (key : string)
| IndexError
| AttributeError (attr : string)
| ImportError (name : string)
| LookupError (codec : string)
| FrameworkError (what : string).

(** A computation either returns a value or raises. *)
Inductive res (A : Type) : Type :=
| Ok (a : A)
| Raise (e : Exn).
Arguments Ok {A} a.
Arguments Raise {A} e.

(** Truthiness of an optional integer: [None] and [0] are false. *)
Definition truthy_int (o : option Z) : bool :=
  match o with
  | Some z => negb (z =? 0)
  | None => false
  end.

(** Truthiness of an optional string: [None] and [''] are false. *)
Definition truthy_str (o : option string) : bool :=
  match o with
  | Some s => negb (String.eqb s "")
  | None => false
  end.

(** [str(n)] for an integer. *)
Definition str_of_int (z : Z) : string :=
  NilZero.string_of_int (Z.to_int z).

(** [str(e)] for an exception. *)
Definition exn_message (e : Exn) : string :=
match e with
| KeyError k => k
| IndexError => "list index out of range"
| AttributeError a => "object has no attribute '" +:+ a +:+ "'"
| ImportError n => "cannot import name " +:+ n
| LookupError c => "unknown encoding: " +:+ c
| FrameworkError w => w
end.

Definition hex_digit (n : Z) : ascii :=
default "0"%char (list_ascii_of_string "0123456789abcdef" !! Z.to_nat n).

Fixpoint hex_digits (width : nat) (n : Z) (acc : string) : string :=
match width with
| O => acc
| S w => hex_digits w (n / 16) (String (hex_digit (n mod 16)) acc)
end.

(** ['%016x' % n] for [0 <= n < 2^64]. *)
Definition hex16 (n : Z) : string := hex_digits 16 n "".

(** *** Strings (byte strings, ASCII case rules) *)

(** The newline character, as a string. *)
Definition nl : string := String (ascii_of_nat 10) "".

Definition lower_ascii (c : ascii) : ascii :=
let n := nat_of_ascii c in
if (65 <=? n)%nat && (n <=? 90)%nat then ascii_of_nat (n + 32) else c.

(** [s.lower()] *)
Fixpoint lower (s : string) : string :=
match s with
| EmptyString => EmptyString
| String c r => String (lower_ascii c) (lower r)
end.

(** The characters [str.strip()] removes. *)
Definition is_space (c : ascii) : bool :=
let n := nat_of_ascii c in
((9 <=? n)%nat && (n <=? 13)%nat) || (n =? 32)%nat.

Fixpoint lstrip (s : string) : string :=
match s with
| EmptyString => EmptyString
| String c r => if is_space c then lstrip r else s
end.

Fixpoint rstrip (s : string) : string :=
match s with
| EmptyString => EmptyString
| String c r =>
    let r' := rstrip r in
    if is_space c && String.eqb r' "" then "" else String c r'
end.

(** [s.strip()] *)
Definition strip (s : string) : string := rstrip (lstrip s).

(** A string that [rstrip] does not shorten: it is not empty and does not
    end in white space. *)
Definition ends_solid (s : string) : Prop := rstrip s = s ∧ s ≠ "".

(** [sep.join(parts)] *)
Definition join (sep : string) (parts : list string) : string :=
String.concat sep parts.

(** [s.split(sep)] for a one-character separator. *)
Fixpoint split (sep : ascii) (s : string) : list string :=
match s with
| EmptyString => [""]
| String c r =>
    if Ascii.eqb c sep then "" :: split sep r
    else match split sep r with
         | [] => [String c ""]
         | h :: t => String c h :: t
         end
end.

(** Does [c] occur in [s]? *)
Fixpoint occurs (c : ascii) (s : string) : bool :=
match s with
| EmptyString => false
| String d r => Ascii.eqb d c || occurs c r
end.

(** *** Stateful computations that may raise

    [M S A] threads a state of type [S]; the state reached when an
    exception is raised is kept, as Python keeps the mutations made
    before a [raise]. *)

Definition M (S A : Type) : Type := S -> res A * S.

Definition mret {S A} (a : A) : M S A := fun s => (Ok a, s).

Definition mbind' {S A B} (m : M S A) (k : A -> M S B) : M S B :=
fun s =>
  match m s with
  | (Ok a, s') => k a s'
  | (Raise e, s') => (Raise e, s')
  end.

Definition raise {S A} (e : Exn) : M S A := fun s => (Raise e, s).

Definition gets {S A} (f : S -> A) : M S A := fun s => (Ok (f s), s).

Definition modify {S} (f : S -> S) : M S unit := fun s => (Ok tt, f s).

(** Lift a pure, possibly raising, result. *)
Definition lift {S A} (r : res A) : M S A := fun s => (r, s).

(** [try: m  except Exception as e: h e] *)
Definition try_except {S A} (m : M S A) (h : Exn -> M S A) : M S A :=
fun s =>
  match m s with
  | (Ok a, s') => (Ok a, s')
  | (Raise e, s') => h e s'
  end.

(** *** Modules and command classes *)

(** A command class (or instance): where it is defined, its class name and
    the key it is invoked by. *)
Record Cmd : Type := { module_ : string; cls : string; key : string; aliases : list string }.

(** What a name at the top level of a module is bound to. *)
Inductive Binding : Type :=
| BCmd (c : Cmd)
| BOther.

(** [from <module> import n1, n2, ...]: every name has to be bound in the
    namespace of the module. *)
Fixpoint import_from (ns : gmap string Binding) (names : list string) : res (list Binding) :=
match names with
| [] => Ok []
| n :: rest =>
    match ns !! n with
    | Some b =>
        match import_from ns rest with
        | Ok bs => Ok (b :: bs)
        | Raise e => Raise e
        end
    | None => Raise (ImportError n)
    end
end.

End Py.

Import Py.

(** [M S] is a monad; sequencing uses stdpp's [x ← m; k]. *)
#[global] Instance M_ret {S} : MRet (M S) := fun _ a => mret a.
#[global] Instance M_bind {S} : MBind (M S) := fun _ _ k m => mbind' m k.

(** ** commands/prelogin.py *)

Module Prelogin.

(** [session.address] is either a plain host string or a
    [(host, port)] tuple. *)
Inductive Address : Type :=
| AddrStr (host : string)
| AddrTuple (host : string) (port : Z).

Record Session : Type := { address : Address }.

(** [_LATEST_FAILED_LOGINS = defaultdict(list)]: address -> timestamps.
    Timestamps are clock readings in seconds, kept as integers: the code
    only subtracts and compares them. *)
Abbreviation Storage := (gmap string (list Z)).

(** The list that [storage[address]] denotes (a [defaultdict] reads a
    missing key as the empty list). *)
Definition fails (storage : Storage) (addr : string) : list Z :=
  default [] (storage !! addr).

(** [storage[address]] on a [defaultdict(list)]: a missing key is
    inserted with a fresh empty list before it is returned. *)
Definition getitem (storage : Storage) (addr : string) : list Z * Storage :=
  match storage !! addr with
  | Some l => (l, storage)
  | None => ([], <[addr := []]> storage)
  end.

(** The key under which a session is throttled:
    [address[0]] when the address is a tuple. *)
Definition address_key (session : Session) : string :=
  match address session with
  | AddrStr host => host
  | AddrTuple host _ => host
  end.

(** [_throttle(session, maxlim, timeout, storage)].  [now] is the first
    reading of [time.time()], [now'] the second one (taken only in
    record mode).  Returns the throttle flag and the updated storage. *)
Definition _throttle (session : Session) (maxlim timeout : option Z)
    (now now' : Z) (storage : Storage) : res (bool * Storage) :=
  let address := address_key session in
  if truthy_int maxlim && truthy_int timeout then
    (* checking mode *)
    let '(latest_fails, storage) := getitem storage address in
    if bool_decide (latest_fails ≠ [])
       && (default 0 maxlim <=? Z.of_nat (length latest_fails)) then
      match last latest_fails with
      | None => Raise IndexError
      | Some newest =>
          if now - newest <? default 0 timeout then
            (* too soon - timeout in play *)
            Ok (true, storage)
          else
            (* timeout has passed. Reset faillist *)
            Ok (false, <[address := []]> storage)
      end
    else Ok (false, storage)
  else
    (* store the time of the latest fail *)
    let '(latest_fails, storage) := getitem storage address in
    Ok (false, <[address := latest_fails ++ [now']]> storage).

(** The check that [CmdUnconnectedConnect.func] and [create_normal_account]
    make on every authentication attempt:
    [_throttle(session, maxlim=5, timeout=5 * 60)]. *)
Definition login_throttled (session : Session) (now : Z) (storage : Storage)
    : res (bool * Storage) :=
_throttle session (Some 5) (Some (5 * 60)) now now storage.

(** *** Sessions, accounts and characters *)

(** A value of [session.protocol_flags]. *)
Inductive Flag : Type :=
| FStr (s : string)
| FBool (b : bool).

Definition truthy_flag (o : option Flag) : bool :=
match o with
| Some (FStr s) => negb (String.eqb s "")
| Some (FBool b) => b
| None => false
end.

(** ['%s' % flag] *)
Definition fmt_flag (o : option Flag) : string :=
match o with
| Some (FStr s) => s
| Some (FBool true) => "True"
| Some (FBool false) => "False"
| None => "None"
end.

(** A location of the game world, as far as this module looks at it. *)
Record Place : Type := { place_id : Z; place_key : string }.

Record Account : Type := {
  acc_id : Z;
  username : string;
  FIRST_LOGIN : bool;
  _playable_characters : list Z;
  _last_puppet : option Z
}.

Record Character : Type := {
  id : Z;
  key : string;
  home : option Place;
  location : option Place;
  home_room : option Place;        (* ndb.home_room *)
  desc_brief : option string;      (* db.desc_brief *)
  locks : list string              (* the lock rules, in the order they were set *)
}.

(** What the code does to the world outside its own objects. *)
Inductive Event : Type :=
| SessionMsg (text : string)
| Disconnect (reason : string)
| PortalSync
| LogTrace
| LogErr (text : string)
| Print (text : string)
| CharMoveTo (cid : Z) (dest : Place).

Record State : Type := {
  protocol_flags : gmap string Flag;
  AccountDB : list Account;
  ObjectDB : list Character;
  trace : list Event
}.

Definition emit (e : Event) : M State unit :=
modify (fun st =>
  {| protocol_flags := protocol_flags st; AccountDB := AccountDB st;
     ObjectDB := ObjectDB st; trace := trace st ++ [e] |}).

Definition set_flag (k : string) (v : Flag) : M State unit :=
modify (fun st =>
  {| protocol_flags := <[k := v]> (protocol_flags st); AccountDB := AccountDB st;
     ObjectDB := ObjectDB st; trace := trace st |}).

Definition find_account (pid : Z) (st : State) : option Account :=
List.find (fun a => acc_id a =? pid) (AccountDB st).

Definition find_character (cid : Z) (st : State) : option Character :=
List.find (fun c => id c =? cid) (ObjectDB st).

Definition get_account (pid : Z) : M State Account :=
fun st =>
  match find_account pid st with
  | Some a => (Ok a, st)
  | None => (Raise (FrameworkError "no such account"), st)
  end.

Definition get_character (cid : Z) : M State Character :=
fun st =>
  match find_character cid st with
  | Some c => (Ok c, st)
  | None => (Raise (FrameworkError "no such object"), st)
  end.

(** Mutation of an account object, found by its id. *)
Definition update_account (pid : Z) (f : Account -> Account) : M State unit :=
modify (fun st =>
  {| protocol_flags := protocol_flags st;
     AccountDB := map (fun a => if acc_id a =? pid then f a else a) (AccountDB st);
     ObjectDB := ObjectDB st; trace := trace st |}).

(** Mutation of a character object, found by its id. *)
Definition update_character (cid : Z) (f : Character -> Character) : M State unit :=
modify (fun st =>
  {| protocol_flags := protocol_flags st; AccountDB := AccountDB st;
     ObjectDB := map (fun c => if id c =? cid then f c else c) (ObjectDB st);
     trace := trace st |}).

Definition add_account (a : Account) : M State unit :=
modify (fun st =>
  {| protocol_flags := protocol_flags st; AccountDB := AccountDB st ++ [a];
     ObjectDB := ObjectDB st; trace := trace st |}).

Definition add_character (c : Character) : M State unit :=
modify (fun st =>
  {| protocol_flags := protocol_flags st; AccountDB := AccountDB st;
     ObjectDB := ObjectDB st ++ [c]; trace := trace st |}).

(** The state after further events. *)
Definition with_trace (st : State) (events : list Event) : State :=
{| protocol_flags := protocol_flags st; AccountDB := AccountDB st;
   ObjectDB := ObjectDB st; trace := trace st ++ events |}.

(** The state after the [ENCODING] flag was set and further events. *)
Definition with_encoding (st : State) (encoding : string) (events : list Event) : State :=
{| protocol_flags := <["ENCODING" := FStr encoding]> (protocol_flags st);
   AccountDB := AccountDB st; ObjectDB := ObjectDB st; trace := trace st ++ events |}.

(** [django.conf.settings], the names this module reads. *)
Record Settings : Type := {
  GUEST_ENABLED : bool;
  GUEST_LIST : list string;
  GUEST_HOME : Z;
  PERMISSION_GUEST_DEFAULT : list string;
  BASE_CHARACTER_TYPECLASS : string;
  BASE_GUEST_TYPECLASS : string;
  ENCODINGS : list string
}.

(** The framework calls whose outcome this module only observes. *)
Record Framework : Type := {
  (* does Python's codec registry know the name? *)
  codec_known : string -> bool;
  (* [bans and any(tup[2].match(session.address) ...)] *)
  address_banned : Session -> bool;
  (* [getrandbits(64)] *)
  getrandbits64 : Z;
  (* [ObjectDB.objects.get_id] *)
  get_id : Z -> option Place;
  (* [create.create_account(name, email, password, permissions, typeclass)] *)
  create_account :
    State -> string -> option string -> string -> list string -> option string -> res Account;
  (* [create.create_object(typeclass, key, home, permissions)] *)
  create_object :
    State -> string -> string -> option Place -> list string -> res Character;
  (* the public channel exists and [pchannel.connect(account)] succeeded *)
  channel_connect : Account -> bool;
  (* outcome of [character.move_to(place)] *)
  move_to_ok : Character -> Place -> bool
}.

(** The database assigns ids in increasing order. *)
Definition fresh_id (ids : list Z) : Z := 1 + foldr Z.max 0 ids.

(** [AccountDB.objects.filter(username__iexact=name).count()].  A query for
    [None] is an [IS NULL] test, and no stored username is null. *)
Definition count_iexact (db : list Account) (name : option string) : nat :=
match name with
| None => 0%nat
| Some n => length (List.filter (fun a => String.eqb (lower (username a)) (lower n)) db)
end.

(** The [for name in settings.GUEST_LIST] loop of [create_guest_account];
    [accountname] is the variable of that name, [None] on entry, and
    [count q] is [AccountDB.objects.filter(username__iexact=q).count()]. *)
Fixpoint find_guest_name (count : option string -> nat) (accountname : option string)
    (names : list string) : option string :=
match names with
| [] => accountname
| name :: rest =>
    if (count accountname =? 0)%nat then Some name (* break *)
    else find_guest_name count accountname rest
end.

(** The lock string built by [_create_character]. *)
Definition new_locks (cid pid : Z) : string :=
join ";"
  [ "puppet:id(" +:+ str_of_int cid +:+ ") or pid(" +:+ str_of_int pid +:+ ") or perm(immortal)";
    "edit:id(" +:+ str_of_int cid +:+ ") or pid(" +:+ str_of_int pid +:+ ") or perm(wizard)";
    "control:id(" +:+ str_of_int cid +:+ ") or pid(" +:+ str_of_int pid +:+ ") or perm(immortal)" ].

(** Modelled from the spec: the lock handler of the framework is not part of
    the sources; [locks.add(lockstring)] sets one lock rule per
    [;]-separated part of the string. *)
Definition locks_add (lockstring : string) (c : Character) : Character :=
{| id := id c; key := key c; home := home c; location := location c;
   home_room := home_room c; desc_brief := desc_brief c;
   locks := locks c ++ split ";" lockstring |}.

Definition set_home (h : option Place) (c : Character) : Character :=
{| id := id c; key := key c; home := h; location := location c;
   home_room := home_room c; desc_brief := desc_brief c; locks := locks c |}.

Definition set_location (l : option Place) (c : Character) : Character :=
{| id := id c; key := key c; home := home c; location := l;
   home_room := home_room c; desc_brief := desc_brief c; locks := locks c |}.

Definition set_desc_brief (d : option string) (c : Character) : Character :=
{| id := id c; key := key c; home := home c; location := location c;
   home_room := home_room c; desc_brief := d; locks := locks c |}.

Definition set_id (i : Z) (c : Character) : Character :=
{| id := i; key := key c; home := home c; location := location c;
   home_room := home_room c; desc_brief := desc_brief c; locks := locks c |}.

Definition set_acc_id (i : Z) (a : Account) : Account :=
{| acc_id := i; username := username a; FIRST_LOGIN := FIRST_LOGIN a;
   _playable_characters := _playable_characters a; _last_puppet := _last_puppet a |}.

Definition set_FIRST_LOGIN (b : bool) (a : Account) : Account :=
{| acc_id := acc_id a; username := username a; FIRST_LOGIN := b;
   _playable_characters := _playable_characters a; _last_puppet := _last_puppet a |}.

Definition append_playable (cid : Z) (a : Account) : Account :=
{| acc_id := acc_id a; username := username a; FIRST_LOGIN := FIRST_LOGIN a;
   _playable_characters := _playable_characters a ++ [cid];
   _last_puppet := _last_puppet a |}.

Definition set_last_puppet (cid : Z) (a : Account) : Account :=
{| acc_id := acc_id a; username := username a; FIRST_LOGIN := FIRST_LOGIN a;
   _playable_characters := _playable_characters a; _last_puppet := Some cid |}.

(** A command instance of the pre-login suite ([self.caller] is the session). *)
Record Command : Type := {
  session : option Session;
  switches : list string;
  args : string
}.

Section Functions.

Context (fw : Framework) (settings : Settings).

(** The database row of a newly created account or object gets the next id. *)
Definition insert_account (a : Account) : M State Account :=
db ← gets AccountDB;
let a' := set_acc_id (fresh_id (acc_id <$> db)) a in
add_account a';;
mret a'.

Definition insert_character (c : Character) : M State Character :=
db ← gets ObjectDB;
let c' := set_id (fresh_id (id <$> db)) c in
add_character c';;
mret c'.

(** [_create_account(session, accountname, password, permissions, typeclass, email)];
    [None] stands for the [False] the function returns on failure.  The
    account's key is its username. *)
Definition _create_account (accountname password : string) (permissions : list string)
    (typeclass email : option string) : M State (option Z) :=
created ← try_except
  (row ← (fun st =>
       (create_account fw st accountname email password permissions typeclass, st));
   new_account ← insert_account row;
   mret (Some new_account))
  (fun e =>
     emit (SessionMsg ("There was an error creating the Account:" +:+ nl +:+ exn_message e
                       +:+ nl +:+ " If this problem persists, contact an admin."));;
     emit LogTrace;;
     mret None);
match created with
| None => mret None
| Some new_account =>
    let pid := acc_id new_account in
    update_account pid (set_FIRST_LOGIN true);;
    (if negb (channel_connect fw new_account) then
       emit (LogErr ("New account '" +:+ username new_account
                     +:+ "' could not connect to public channel!"))
     else mret tt);;
    mret (Some pid)
end.

(** The [try] block of [_create_character]. *)
Definition _create_character_body (pid : Z) (typeclass : string) (home : option Place)
    (permissions : list string) : M State unit :=
new_account ← get_account pid;
row ← (fun st =>
    (create_object fw st typeclass (username new_account) home permissions, st));
new_character ← insert_character row;
let cid := id new_character in
update_account pid (append_playable cid);;
(match home_room new_character with
 | Some room =>
     update_character cid (set_home (Some room));;
     emit (CharMoveTo cid room);;
     (if move_to_ok fw new_character room then
        update_character cid (set_location (Some room))
      else mret tt)
 | None => mret tt
 end);;
new_character ← get_character cid;
new_account ← get_account pid;
emit (Print ("New character " +:+ key new_character +:+ " created with account "
             +:+ username new_account +:+ "."));;
home_key ← match new_character.(Prelogin.home) with
           | Some h => mret (place_key h)
           | None => raise (AttributeError "key")
           end;
emit (Print ("New character " +:+ key new_character +:+ " home set to " +:+ home_key +:+ "."));;
let pid := acc_id new_account in
update_character cid (locks_add (new_locks cid pid));;
new_character ← get_character cid;
(if negb (truthy_str (desc_brief new_character)) then
   update_character cid (set_desc_brief (Some "It looks like a new creature on the block."))
 else mret tt);;
update_account pid (set_last_puppet cid).

(** [_create_character(session, new_account, typeclass, home, permissions)] *)
Definition _create_character (pid : Z) (typeclass : string) (home : option Place)
    (permissions : list string) : M State unit :=
try_except (_create_character_body pid typeclass home permissions)
  (fun e =>
     emit (SessionMsg ("There was an error creating the Character:" +:+ nl +:+ exn_message e
                       +:+ nl +:+ " If this problem persists, contact an admin."));;
     emit LogTrace).

(** [create_guest_account(session)] *)
Definition create_guest_account (session : Session) : M State (bool * option Z) :=
if negb (GUEST_ENABLED settings) then mret (false, None)
else if address_banned fw session then
  emit (SessionMsg ("|rYou have been banned and cannot continue from here." +:+ nl
                    +:+ "If you feel this ban is in error, please email an admin.|x"));;
  emit (Disconnect "Good bye! Disconnecting.");;
  mret (true, None)
else
  try_except
    (db ← gets AccountDB;
     let accountname := find_guest_name (count_iexact db) None (GUEST_LIST settings) in
     if negb (truthy_str accountname) then
       emit (SessionMsg "All guest accounts are in use. Please try again later.");;
       mret (true, None)
     else
       let accountname := default "" accountname in
       let password := hex16 (getrandbits64 fw) in
       let home := get_id fw (GUEST_HOME settings) in
       let permissions := PERMISSION_GUEST_DEFAULT settings in
       let typeclass := BASE_CHARACTER_TYPECLASS settings in
       let ptypeclass := BASE_GUEST_TYPECLASS settings in
       new_account ← _create_account accountname password permissions (Some ptypeclass) None;
       (match new_account with
        | Some pid => _create_character pid typeclass home permissions
        | None => mret tt
        end);;
       mret (true, new_account))
    (fun e =>
       emit (SessionMsg "An error occurred. Please e-mail an admin if the problem persists.");;
       emit LogTrace;;
       raise e).

(** [utils.to_str(utils.to_unicode('test-string'), encoding=encoding)]:
    raises [LookupError] for a codec that Python does not know. *)
Definition to_str_test (encoding : string) : M State unit :=
if codec_known fw encoding then mret tt else raise (LookupError encoding).

(** [CmdUnconnectedEncoding.func] *)
Definition CmdUnconnectedEncoding_func (self : Command) : M State unit :=
match session self with
| None => mret tt
| Some _ =>
    '(string, sync) ←
      (if bool_decide ("clear" ∈ switches self) then
         (* remove customization *)
         old_encoding ← gets (fun st => protocol_flags st !! "ENCODING");
         let string :=
           if truthy_flag old_encoding then
             "Your custom text encoding ('" +:+ fmt_flag old_encoding +:+ "') was cleared."
           else "No custom encoding was set." in
         set_flag "ENCODING" (FStr "utf-8");;
         mret (string, true)
       else if String.eqb (args self) "" then
         (* just list the encodings supported *)
         pencoding ← gets (fun st => protocol_flags st !! "ENCODING");
         let string := "" in
         let string :=
           if truthy_flag pencoding then
             string +:+ "Default encoding: |g" +:+ fmt_flag pencoding
                    +:+ "|n (change with |w@encoding <encoding>|n)"
           else string in
         let encodings := ENCODINGS settings in
         let string :=
           if bool_decide (encodings ≠ []) then
             string +:+ nl +:+ "Server's alternative encodings (tested in this order):"
                    +:+ nl +:+ "   |g" +:+ join ", " encodings +:+ "|n"
           else string in
         let string := if String.eqb string "" then "No encodings found." else string in
         mret (string, false)
       else
         (* change encoding *)
         old_encoding ← gets (fun st => protocol_flags st !! "ENCODING");
         let encoding := args self in
         checked ← try_except
           (to_str_test encoding;; mret true)
           (fun e => match e with
                     | LookupError _ => mret false
                     | _ => raise e
                     end);
         if negb checked then
           (* except LookupError *)
           mret ("|rThe encoding '|w" +:+ encoding
                 +:+ "|r' is invalid. Keeping the previous encoding '|w"
                 +:+ fmt_flag old_encoding +:+ "|r'.|n", false)
         else
           set_flag "ENCODING" (FStr encoding);;
           mret ("Your custom text encoding was changed from '|w" +:+ fmt_flag old_encoding
                 +:+ "|n' to '|w" +:+ encoding +:+ "|n'.", true));
    (if (sync : bool) then emit PortalSync else mret tt);;
    emit (SessionMsg (strip string))
end.

End Functions.

End Prelogin.

(** ** typeclasses/exits.py *)

Module Exits.

(** Objects are referred to by their database id. *)
Abbreviation ObjRef := Z.

(** The Python values that attributes and variables of this module hold. *)
Inductive Val : Type :=
| VNone
| VBool (b : bool)
| VInt (z : Z)
| VStr (s : string)
| VRef (r : ObjRef)
| VDeferred (handle : Z).

#[global] Instance Val_eq_dec : EqDecision Val.
Proof. solve_decision. Defined.

Definition truthy (v : Val) : bool :=
match v with
| VNone => false
| VBool b => b
| VInt z => negb (z =? 0)
| VStr s => negb (String.eqb s "")
| VRef _ => true
| VDeferred _ => true
end.

(** [a or b] *)
Definition py_or (a b : Val) : Val := if truthy a then a else b.

(** ['%s' % v] *)
Definition str_of_val (v : Val) : string :=
match v with
| VNone => "None"
| VBool true => "True"
| VBool false => "False"
| VInt z => str_of_int z
| VStr s => s
| VRef r => "#" +:+ str_of_int r
| VDeferred h => "<Deferred " +:+ str_of_int h +:+ ">"
end.

Definition ref_val (o : option ObjRef) : Val :=
match o with
| Some r => VRef r
| None => VNone
end.

(** [MOVE_DELAY = dict(stroll=16, walk=8, run=4, sprint=2, scamper=1)] *)
Definition MOVE_DELAY : gmap string Z :=
list_to_map [("stroll", 16); ("walk", 8); ("run", 4); ("sprint", 2); ("scamper", 1)].

(** [SPEED_DESCS = dict(stroll='strolling', ...)] *)
Definition SPEED_DESCS : gmap string string :=
list_to_map [("stroll", "strolling"); ("walk", "walking"); ("run", "running");
             ("sprint", "sprinting"); ("scamper", "scampering")].

(** Lookup of an arbitrary value in a dictionary with string keys:
    only a string can be equal to a key. *)
Definition dict_lookup {A} (d : gmap string A) (k : Val) : option A :=
match k with
| VStr s => d !! s
| _ => None
end.

(** [d[k]]: raises [KeyError] on a missing key. *)
Definition dict_getitem {S A} (d : gmap string A) (k : Val) : M S A :=
match dict_lookup d k with
| Some a => mret a
| None => raise (KeyError (str_of_val k))
end.

(** [d.get(k, dflt)] *)
Definition dict_get {A} (d : gmap string A) (k : Val) (dflt : A) : A :=
default dflt (dict_lookup d k).

(** An object of the game: a character, a room or an exit. *)
Record Obj : Type := {
  key : string;
  STYLE : string;
  location : option ObjRef;
  destination : option ObjRef;
  home : option ObjRef;
  db : gmap string Val;       (* persistent attributes *)
  ndb : gmap string Val       (* transient attributes *)
}.

(** [obj.db.name] and [obj.ndb.name]: an unset attribute reads as [None]. *)
Definition db_get (o : Obj) (name : string) : Val := default VNone (db o !! name).
Definition ndb_get (o : Obj) (name : string) : Val := default VNone (ndb o !! name).

(** The calls into the framework, in the order the code makes them. *)
Inductive Event : Type :=
| Msg (to : ObjRef) (text : string)
| MsgContents (room : ObjRef) (text : string) (exclude : ObjRef)
| MoveTo (who : ObjRef) (dest : Val) (use_destination : bool) (ok : bool)
| FailedTraverse (exit who : ObjRef)
| ExecuteCmd (who : ObjRef) (cmd : string)
| Cancel (handle : Z)
| Delay (seconds : Z) (handle : Z).

Record World : Type := {
  objs : gmap ObjRef Obj;
  trace : list Event;
  next_handle : Z
}.

Definition emit (e : Event) : M World unit :=
modify (fun w => {| objs := objs w; trace := trace w ++ [e]; next_handle := next_handle w |}).

Definition get_obj (r : ObjRef) : M World Obj :=
fun w =>
  match objs w !! r with
  | Some o => (Ok o, w)
  | None => (Raise (FrameworkError "no such object"), w)
  end.

Definition update_obj (r : ObjRef) (f : Obj -> Obj) : M World unit :=
modify (fun w => {| objs := alter f r (objs w); trace := trace w; next_handle := next_handle w |}).

Definition set_location (l : option ObjRef) (o : Obj) : Obj :=
{| key := key o; STYLE := STYLE o; location := l; destination := destination o;
   home := home o; db := db o; ndb := ndb o |}.

Definition set_db (name : string) (v : Val) (o : Obj) : Obj :=
{| key := key o; STYLE := STYLE o; location := location o; destination := destination o;
   home := home o; db := <[name := v]> (db o); ndb := ndb o |}.

Definition set_ndb (name : string) (v : Val) (o : Obj) : Obj :=
{| key := key o; STYLE := STYLE o; location := location o; destination := destination o;
   home := home o; db := db o; ndb := <[name := v]> (ndb o) |}.

(** [obj.nattributes.remove(name)] *)
Definition remove_ndb (name : string) (o : Obj) : Obj :=
{| key := key o; STYLE := STYLE o; location := location o; destination := destination o;
   home := home o; db := db o; ndb := delete name (ndb o) |}.

(** [v.destination] for a value that may be [None]. *)
Definition destination_of (v : Val) : M World (option ObjRef) :=
match v with
| VRef r => o ← get_obj r; mret (destination o)
| _ => raise (AttributeError "destination")
end.

(** The framework calls whose outcome this module only observes. *)
Record Framework : Type := {
  (* outcome of [who.move_to(dest)] *)
  move_to_ok : World -> ObjRef -> Val -> bool;
  (* outcome of [who.at_before_move(dest)] *)
  at_before_move : World -> ObjRef -> ObjRef -> bool;
  (* [obj.get_display_name(caller.sessions)] *)
  get_display_name : gmap ObjRef Obj -> ObjRef -> string
}.

(** The world after further events. *)
Definition with_events (w : World) (events : list Event) : World :=
{| objs := objs w; trace := trace w ++ events; next_handle := next_handle w |}.

(** The five named speeds. *)
Definition named_speeds : list string := ["stroll"; "walk"; "run"; "sprint"; "scamper"].

(** [obj.<attr>] for the data attributes of an object.  The objects of the
    framework carry no attribute [caller] (commands do), and the [Exit]
    class of this module defines none; such a name raises. *)
Definition getattr (o : Obj) (attr : string) : res Val :=
if String.eqb attr "key" then Ok (VStr (key o))
else if String.eqb attr "name" then Ok (VStr (key o))
else if String.eqb attr "STYLE" then Ok (VStr (STYLE o))
else if String.eqb attr "STYLE_PATH" then Ok (VStr "|252")
else if String.eqb attr "location" then Ok (ref_val (location o))
else if String.eqb attr "destination" then Ok (ref_val (destination o))
else if String.eqb attr "home" then Ok (ref_val (home o))
else Raise (AttributeError attr).



Section Functions.

Context (fw : Framework).

(** [obj.msg(text)] *)
Definition msg (to : ObjRef) (text : string) : M World unit := emit (Msg to text).

(** [v.msg(text)] for a value [v] *)
Definition msg_val (to : Val) (text : string) : M World unit :=
match to with
| VRef r => msg r text
| _ => raise (AttributeError "msg")
end.

(** [who.move_to(dest, use_destination=...)]: the framework decides whether
    the move succeeds; a successful move relocates the object, to the
    destination of [dest] if that is asked for and there is one. *)
Definition move_to (who : ObjRef) (dest : Val) (use_destination : bool) : M World bool :=
w ← gets (fun w => w);
let ok := move_to_ok fw w who dest in
emit (MoveTo who dest use_destination ok);;
(if ok then
   match dest with
   | VRef d =>
       let target :=
         if use_destination then default d (objs w !! d ≫= destination) else d in
       update_obj who (set_location (Some target))
   | _ => mret tt
   end
 else mret tt);;
mret ok.

(** [utils.delay(seconds, callback=...)]: returns the handle of the deferred. *)
Definition delay (seconds : Z) : M World Z :=
h ← gets next_handle;
modify (fun w => {| objs := objs w; trace := trace w; next_handle := h + 1 |});;
emit (Delay seconds h);;
mret h.

(** [Exit.at_after_traverse(traveller, source_loc)] *)
Definition at_after_traverse (self traveller : ObjRef) (source_loc : Val) : M World unit :=
update_obj traveller (set_ndb "last_location" source_loc);;
d ← destination_of source_loc;
if negb (bool_decide (is_Some d)) then update_obj traveller (set_db "last_room" source_loc)
else mret tt.

(** The closure [move_callback] that [Exit.at_traverse] hands to
    [utils.delay]; it runs when the delay has passed. *)
Definition move_callback (self traversing_object target_location : ObjRef) : M World unit :=
trav ← get_obj traversing_object;
let source_location := ref_val (location trav) in
moved ← move_to traversing_object (VRef target_location) true;
if (moved : bool) then
  update_obj traversing_object (remove_ndb "currently_moving");;
  at_after_traverse self traversing_object source_location
else
  exit ← get_obj self;
  if truthy (db_get exit "err_traverse") then
    (* if exit has a better error message, use it. *)
    caller ← lift (getattr exit "caller");
    msg_val caller (str_of_val (db_get exit "err_traverse"))
  else
    (* No shorthand error message. Call hook. *)
    emit (FailedTraverse self traversing_object).

(** [Exit.at_traverse(traversing_object, target_location)] *)
Definition at_traverse (self traversing_object target_location : ObjRef) : M World Val :=
trav ← get_obj traversing_object;
if truthy (ndb_get trav "currently_moving") then
  target ← get_obj target_location;
  msg traversing_object
      ("You are already moving toward " +:+ STYLE target +:+ key target +:+ "|n.");;
  mret VNone
else
  exit ← get_obj self;
  let is_path := py_or (db_get exit "is_path") (VBool false) in
  let source_location := ref_val (location trav) in
  let move_speed := py_or (db_get trav "move_speed") (VStr "walk") in
  let move_delay := dict_get MOVE_DELAY move_speed 8 in
  w ← gets (fun w => w);
  if negb (at_before_move fw w traversing_object target_location) then mret (VBool false)
  else if negb (truthy is_path) then
    success ← move_to traversing_object (VRef self) true;
    (if (success : bool) then at_after_traverse self traversing_object source_location
     else mret tt);;
    mret (VBool success)
  else
    trav ← get_obj traversing_object;
    if bool_decide (location trav = Some target_location) then mret (VBool true)
    else
      msg traversing_object
          ("You start moving " +:+ key exit +:+ " at a " +:+ str_of_val move_speed +:+ ".");;
      entered ← (if bool_decide (location trav ≠ Some self) then
                   success ← move_to traversing_object (VRef self) false;
                   if (success : bool) then
                     at_after_traverse self traversing_object source_location;; mret true
                   else mret false
                 else mret true);
      if negb entered then mret (VBool false)
      else
        deferred ← delay move_delay;
        update_obj traversing_object (set_ndb "currently_moving" (VDeferred deferred));;
        mret VNone.

(** [CmdSpeed.func] *)
Definition CmdSpeed_func (caller : ObjRef) (args : string) : M World unit :=
let speed := strip (lower args) in
if String.eqb args "" then
  c ← get_obj caller;
  let speed := py_or (db_get c "move_speed") (VInt 8) in
  label ← dict_getitem SPEED_DESCS speed;
  msg caller ("You are set to move by " +:+ label +:+ ".")
else if negb (bool_decide (is_Some (SPEED_DESCS !! speed))) then
  msg caller "Usage: speed stroll||walk||run||sprint||scamper"
else
  c ← get_obj caller;
  if bool_decide (db_get c "move_speed" = VStr speed) then
    label ← dict_getitem SPEED_DESCS (VStr speed);
    msg caller ("You are already set to move by " +:+ label +:+ ".")
  else
    update_obj caller (set_db "move_speed" (VStr speed));;
    label ← dict_getitem SPEED_DESCS (VStr speed);
    msg caller ("You will now move by " +:+ label +:+ ".").

(** [CmdStop.func] *)
Definition CmdStop_func (caller : ObjRef) : M World unit :=
c ← get_obj caller;
let currently_moving := ndb_get c "currently_moving" in
if truthy currently_moving then
  (match currently_moving with
   | VDeferred h => emit (Cancel h)
   | _ => raise (AttributeError "cancel")
   end);;
  update_obj caller (remove_ndb "currently_moving");;
  msg caller "You stop moving."
else msg caller "You are not moving.".

(** [CmdContinue.func] *)
Definition CmdContinue_func (caller : ObjRef) : M World unit :=
c ← get_obj caller;
let start := ref_val (location c) in
destination ← destination_of start;
match destination, location c with
| Some destination, Some here =>
    if truthy (ndb_get c "currently_moving") then
      d ← get_obj destination;
      msg caller ("You are already moving toward " +:+ STYLE d +:+ key d +:+ "|n.")
    else
      names ← gets (fun w => get_display_name fw (objs w));
      emit (MsgContents here
              (names caller +:+ " is going to " +:+ names destination +:+ ".") caller);;
      label ← dict_getitem SPEED_DESCS (db_get c "move_speed");
      msg caller ("You begin " +:+ label +:+ " toward " +:+ names destination +:+ ".");;
      moved ← move_to caller (VRef destination) true;
      if (moved : bool) then at_after_traverse here caller start else mret tt
| _, _ => msg caller "You have not yet decided which way to go."
end.


End Functions.

Definition exits_cmd (cls key : string) (aliases : list string) : Cmd :=
{| module_ := "typeclasses.exits"; cls := cls; Py.key := key; aliases := aliases |}.

(** The names bound at the top level of [typeclasses/exits.py]: its imports,
    its two tables, the [Exit] class and its four command classes. *)
Definition module_namespace : gmap string Binding :=
list_to_map
  [ ("DefaultExit", BOther); ("utils", BOther); ("Command", BOther);
    ("lazy_property", BOther); ("TraitHandler", BOther); ("EffectHandler", BOther);
    ("MOVE_DELAY", BOther); ("Exit", BOther); ("SPEED_DESCS", BOther);
    ("CmdSpeed", BCmd (exits_cmd "CmdSpeed" "speed" []));
    ("CmdStop", BCmd (exits_cmd "CmdStop" "stop" []));
    ("CmdContinue", BCmd (exits_cmd "CmdContinue" "continue" ["move"; "go"]));
    ("CmdBack", BCmd (exits_cmd "CmdBack" "back" ["return"; "u-turn"])) ].

End Exits.

(** ** NOWMU/NOW/commands/default_cmdsets.py *)

Module Cmdsets.

(** A command bundle is the list of the commands it holds. *)
Abbreviation CmdSet := (list Cmd).

Definition same_key (a b : Cmd) : bool := String.eqb (key a) (key b).

(** Modelled from the spec: the command-set class of the framework is not
    part of the sources.  Within a bundle, a command added later with the
    same invocation key supersedes the earlier one. *)
Definition add (c : Cmd) (cs : CmdSet) : CmdSet :=
List.filter (fun old => negb (same_key c old)) cs ++ [c].

(** Modelled from the spec: a removal takes the command of that key out of
    the bundle, and is ignored when there is none. *)
Definition remove (c : Cmd) (cs : CmdSet) : CmdSet :=
List.filter (fun old => negb (same_key c old)) cs.

Definition default_cmd (cls key : string) : Cmd :=
{| module_ := "evennia.default_cmds"; cls := cls; Py.key := key; aliases := [] |}.

(** Modelled from the spec: [evennia.default_cmds] is not part of the
    sources; these are its permission-display, get and drop commands. *)
Definition default_CmdAccess : Cmd := default_cmd "CmdAccess" "access".
Definition default_CmdGet : Cmd := default_cmd "CmdGet" "get".
Definition default_CmdDrop : Cmd := default_cmd "CmdDrop" "drop".

Definition direction_cmd (cls key : string) : Cmd :=
{| module_ := "commands.exitdirections"; cls := cls; Py.key := key; aliases := [] |}.

(** Modelled from the spec: [commands/exitdirections.py] is not part of the
    sources; it provides one movement shortcut for each of the compass keys
    NW, N, NE, E, SE, S, SW and W. *)
Definition CmdExitNorthwest : Cmd := direction_cmd "CmdExitNorthwest" "NW".
Definition CmdExitNorth : Cmd := direction_cmd "CmdExitNorth" "N".
Definition CmdExitNortheast : Cmd := direction_cmd "CmdExitNortheast" "NE".
Definition CmdExitEast : Cmd := direction_cmd "CmdExitEast" "E".
Definition CmdExitSoutheast : Cmd := direction_cmd "CmdExitSoutheast" "SE".
Definition CmdExitSouth : Cmd := direction_cmd "CmdExitSouth" "S".
Definition CmdExitSouthwest : Cmd := direction_cmd "CmdExitSouthwest" "SW".
Definition CmdExitWest : Cmd := direction_cmd "CmdExitWest" "W".

Definition compass_keys : list string := ["NW"; "N"; "NE"; "E"; "SE"; "S"; "SW"; "W"].

(** What this module takes from modules outside the sources: the default
    in-character bundle of the framework, and the keys of the commands of
    [commands/command.py]. *)
Record Unseen : Type := {
  default_CharacterCmdSet : CmdSet;
  key_CmdLook : string;
  key_CmdInventory : string;
  key_CmdPose : string;
  key_CmdSay : string;
  key_CmdOoc : string;
  key_CmdSpoof : string;
  key_CmdVerb : string
}.

Definition command_cmd (cls key : string) : Cmd :=
{| module_ := "commands.command"; cls := cls; Py.key := key; aliases := [] |}.

(** The commands bound by
    [from typeclasses.exits import CmdStop, CmdContinue, CmdBack, CmdSetSpeed]. *)
Record ExitsImports : Type := {
  CmdStop : Cmd;
  CmdContinue : Cmd;
  CmdBack : Cmd;
  CmdSetSpeed : Cmd
}.

(** [CharacterCmdSet.at_cmdset_creation], applied to the bundle that the
    [super()] call has populated.  (The source listing leaves out lines at
    three places of this method; they are not part of the model.) *)
Definition CharacterCmdSet_at_cmdset_creation (u : Unseen) (im : ExitsImports) : CmdSet :=
let self := default_CharacterCmdSet u in
let self := remove default_CmdAccess self in
let self := remove default_CmdGet self in
let self := remove default_CmdDrop self in
let self := add (command_cmd "CmdLook" (key_CmdLook u)) self in
let self := add (command_cmd "CmdInventory" (key_CmdInventory u)) self in
let self := add (command_cmd "CmdPose" (key_CmdPose u)) self in
let self := add (command_cmd "CmdSay" (key_CmdSay u)) self in
let self := add (command_cmd "CmdOoc" (key_CmdOoc u)) self in
let self := add (command_cmd "CmdSpoof" (key_CmdSpoof u)) self in
let self := add (command_cmd "CmdVerb" (key_CmdVerb u)) self in
let self := add (CmdStop im) self in
let self := add (CmdSetSpeed im) self in
let self := add (CmdContinue im) self in
let self := add (CmdBack im) self in
let self := add CmdExitNorthwest self in
let self := add CmdExitNorth self in
let self := add CmdExitNortheast self in
let self := add CmdExitEast self in
let self := add CmdExitSoutheast self in
let self := add CmdExitSouth self in
let self := add CmdExitSouthwest self in
let self := add CmdExitWest self in
self.

(** Loading the module and assembling the character bundle: the import
    from the exit module runs first, at module level. *)
Definition load_CharacterCmdSet (exits_ns : gmap string Binding) (u : Unseen) : res CmdSet :=
match import_from exits_ns ["CmdStop"; "CmdContinue"; "CmdBack"; "CmdSetSpeed"] with
| Ok [BCmd stop; BCmd continue; BCmd back; BCmd setspeed] =>
    Ok (CharacterCmdSet_at_cmdset_creation u
          {| CmdStop := stop; CmdContinue := continue; CmdBack := back;
             CmdSetSpeed := setspeed |})
| Ok _ => Raise (FrameworkError "not a command class")
| Raise e => Raise e
end.

(** How many commands of a bundle are bound to a key. *)
Definition bound_to (k : string) (cs : CmdSet) : nat :=
length (List.filter (fun c => String.eqb (key c) k) cs).

End Cmdsets.

(** ** contrib/procpools/python_procpool_plugin.py *)

Module Procpool.

(** The module-level tunables. *)
Record Config : Type := {
  PROCPOOL_ENABLED : bool;
  PROCPOOL_DEBUG : bool;
  PROCPOOL_MIN_NPROC : Z;
  PROCPOOL_MAX_NPROC : Z;
  PROCPOOL_TIMEOUT : Z;
  PROCPOOL_IDLETIME : Z;
  PROCPOOL_HOST : string;
  PROCPOOL_PORT : Z;
  PROCPOOL_INTERFACE : string;
  PROCPOOL_UID : option Z;
  PROCPOOL_GID : option Z;
  PROCPOOL_DIRECTORY : option string;
  SERVICE_NAME : string
}.

(** The values the module assigns. *)
Definition module_config : Config :=
{| PROCPOOL_ENABLED := true;
   PROCPOOL_DEBUG := true;
   PROCPOOL_MIN_NPROC := 5;
   PROCPOOL_MAX_NPROC := 20;
   PROCPOOL_TIMEOUT := 15;
   PROCPOOL_IDLETIME := 20;
   PROCPOOL_HOST := "localhost";
   PROCPOOL_PORT := 5001;
   PROCPOOL_INTERFACE := "0.0.0.0";
   PROCPOOL_UID := None;
   PROCPOOL_GID := None;
   PROCPOOL_DIRECTORY := None;
   SERVICE_NAME := "PythonProcPool" |}.

(** Arguments of the constructor calls.  An object is represented by the
    call that built it. *)
#[warnings="-register-all"] Inductive Arg : Type :=
| ANone
| AInt (z : Z)
| AStr (s : string)
| ATuple (items : list string)
| ADict (items : list (string * string))
| AClass (name : string)
| AObj (callee : string) (args : list Arg) (kwargs : list (string * Arg)).

Definition opt_int (o : option Z) : Arg :=
match o with Some z => AInt z | None => ANone end.

Definition opt_str (o : option string) : Arg :=
match o with Some s => AStr s | None => ANone end.

(** What the function reads from its environment. *)
Record Env : Type := {
  os_name : string;                       (* os.name *)
  os_pardir : string;                     (* os.pardir *)
  os_sep : string;                        (* separator used by os.path.join *)
  DATABASES_default_NAME : option string; (* settings.DATABASES.get('default', {}).get('NAME') *)
  DATABASE_NAME : string;                 (* settings.DATABASE_NAME *)
  BOOTSTRAP : string -> string            (* [BOOTSTRAP % s] of the pool library *)
}.

(** [os.path.join(a, b, ...)] on relative components. *)
Definition path_join (e : Env) (parts : list string) : string := join (os_sep e) parts.

(** A service registered with the server: the constructor call and the
    name given by [setName]. *)
Record Service : Type := { service : Arg; service_name : string }.

Inductive Event : Type :=
| Print (text : string)
| AddService (s : Service).

(** [start_plugin_services(server)]: what it prints and registers. *)
Definition start_plugin_services (cfg : Config) (e : Env) : list Event :=
if negb (PROCPOOL_ENABLED cfg) then []
else
  let apackages :=
    [ "twisted";
      path_join e [os_pardir e; "contrib"; "procpools"; "ampoule"];
      path_join e [os_pardir e; "ev"];
      path_join e [os_pardir e] ] in
  let aenv :=
    [ ("DJANGO_SETTINGS_MODULE", "settings");
      ("DATABASE_NAME",
       if truthy_str (DATABASES_default_NAME e) then default "" (DATABASES_default_NAME e)
       else DATABASE_NAME e) ] in
  let _BOOTSTRAP :=
    if PROCPOOL_DEBUG cfg then BOOTSTRAP e "log.startLogging(sys.stderr)"
    else BOOTSTRAP e "" in
  let procpool_starter :=
    AObj "ampoule_main.ProcessStarter" []
      [ ("packages", ATuple apackages);
        ("env", ADict aenv);
        ("path", opt_str (PROCPOOL_DIRECTORY cfg));
        ("uid", opt_int (PROCPOOL_UID cfg));
        ("gid", opt_int (PROCPOOL_GID cfg));
        ("bootstrap", AStr _BOOTSTRAP);
        ("childReactor", AStr (if String.eqb (os_name e) "nt" then "select" else "epoll")) ] in
  let procpool :=
    AObj "ampoule_pool.ProcessPool" []
      [ ("name", AStr (SERVICE_NAME cfg));
        ("min", AInt (PROCPOOL_MIN_NPROC cfg));
        ("max", AInt (PROCPOOL_MAX_NPROC cfg));
        ("recycleAfter", AInt 500);
        ("timeout", AInt (PROCPOOL_TIMEOUT cfg));
        ("ampChild", AClass "PythonProcPoolChild");
        ("starter", procpool_starter) ] in
  let procpool_service :=
    AObj "ampoule_service.AMPouleService"
      [ procpool; AClass "PythonProcPoolChild";
        AInt (PROCPOOL_PORT cfg); AStr (PROCPOOL_INTERFACE cfg) ] [] in
  [ Print ("  amp (Process Pool): " +:+ str_of_int (PROCPOOL_PORT cfg));
    AddService {| service := procpool_service; service_name := SERVICE_NAME cfg |} ].

(** The configuration with another idle-prune time. *)
Definition with_idletime (v : Z) (cfg : Config) : Config :=
{| PROCPOOL_ENABLED := PROCPOOL_ENABLED cfg;
   PROCPOOL_DEBUG := PROCPOOL_DEBUG cfg;
   PROCPOOL_MIN_NPROC := PROCPOOL_MIN_NPROC cfg;
   PROCPOOL_MAX_NPROC := PROCPOOL_MAX_NPROC cfg;
   PROCPOOL_TIMEOUT := PROCPOOL_TIMEOUT cfg;
   PROCPOOL_IDLETIME := v;
   PROCPOOL_HOST := PROCPOOL_HOST cfg;
   PROCPOOL_PORT := PROCPOOL_PORT cfg;
   PROCPOOL_INTERFACE := PROCPOOL_INTERFACE cfg;
   PROCPOOL_UID := PROCPOOL_UID cfg;
   PROCPOOL_GID := PROCPOOL_GID cfg;
   PROCPOOL_DIRECTORY := PROCPOOL_DIRECTORY cfg;
   SERVICE_NAME := SERVICE_NAME cfg |}.

(** The keyword arguments of a constructor call. *)
Definition kwargs_of (a : Arg) : list (string * Arg) :=
match a with
| AObj _ _ kw => kw
| _ => []
end.

Definition args_of (a : Arg) : list Arg :=
match a with
| AObj _ args _ => args
| _ => []
end.

End Procpool.

(** ** commands/prelogin.py, the commands of the login screen *)

Module Login.

Import Prelogin.

(** One entry of the [server_bans] list: the banned name ([tup[0]]) and
    the compiled address pattern ([tup[2]], which may be missing) with its
    [match]. *)
Record Ban : Type := { ban_name : string; ban_ipregex : option (Address -> bool) }.

(** [any(tup[0] == name.lower() for tup in bans)] *)
Definition name_banned (bans : list Ban) (name : string) : bool :=
existsb (fun tup => String.eqb (ban_name tup) (lower name)) bans.

(** [any(tup[2].match(session.address) for tup in bans if tup[2])] *)
Definition address_matches (bans : list Ban) (session : Session) : bool :=
existsb (fun tup => match ban_ipregex tup with
                    | Some re => re (address session)
                    | None => false
                    end) bans.

(** [bans and (any(... name ...) or any(... address ...))] *)
Definition banned (bans : list Ban) (name : string) (session : Session) : bool :=
bool_decide (bans ≠ []) && (name_banned bans name || address_matches bans session).

(** What the account and the session handler are asked to do. *)
Inductive Hook : Type :=
| AtFailedLogin (pid : Z)       (* account.at_failed_login(session) *)
| SessionLogin (pid : Z).       (* session.sessionhandler.login(session, account) *)

(** The server as the login commands see it: the session with the
    database, the module-level table of failed logins, and the hooks
    called. *)
Record Server : Type := {
  session_state : State;
  failed_logins : gmap string (list Z);
  hooks : list Hook
}.

(** The names read besides those of [Settings], and the framework calls of
    the login path. *)
Record Auth : Type := {
  (* [django.contrib.auth.authenticate(username, password)] *)
  authenticate : list Account -> string -> string -> option Account;
  (* [AccountDB.objects.get_account_from_name(name)] *)
  get_account_from_name : list Account -> string -> option Account;
  (* [ServerConfig.objects.conf('server_bans')] *)
  server_bans : list Ban;
  PERMISSION_ACCOUNT_DEFAULT : list string;
  DEFAULT_HOME : Z;
  MULTISESSION_MODE : Z
}.

(** Run a computation on the session and the database. *)
Definition on_session {A} (m : M State A) : M Server A :=
fun sv =>
  match m (session_state sv) with
  | (r, s') =>
      (r, {| session_state := s'; failed_logins := failed_logins sv; hooks := hooks sv |})
  end.

Definition hook (h : Hook) : M Server unit :=
modify (fun sv =>
  {| session_state := session_state sv; failed_logins := failed_logins sv;
     hooks := hooks sv ++ [h] |}).

(** A call of [_throttle] on the table of the module. *)
Definition throttle (session : Session) (maxlim timeout : option Z) (now now' : Z)
    : M Server bool :=
fun sv =>
  match _throttle session maxlim timeout now now' (failed_logins sv) with
  | Ok (throttles, storage) =>
      (Ok throttles,
       {| session_state := session_state sv; failed_logins := storage; hooks := hooks sv |})
  | Raise e => (Raise e, sv)
  end.

(** The table after one session has failed to log in at each of the given
    clock readings: one [_throttle(session)] call per reading. *)
Fixpoint record_failures (session : Session) (times : list Z)
    (storage : gmap string (list Z)) : gmap string (list Z) :=
match times with
| [] => storage
| t :: rest =>
    match _throttle session None None t t storage with
    | Ok (_, storage') => record_failures session rest storage'
    | Raise _ => storage
    end
end.

(** Whether a fail list is over the limit at the time [now]: it has
    [maxlim] entries or more and the newest is less than [timeout] old. *)
Definition over_limit (maxlim timeout now : Z) (l : list Z) : bool :=
match last l with
| Some newest => (maxlim <=? Z.of_nat (length l)) && (now - newest <? timeout)
| None => false
end.

(** One login attempt after the other, each with its name, its password and
    its three clock readings; what the attempts return is dropped. *)
Definition Attempt : Type := (string * string * (Z * Z * Z))%type.

(** The double quote. *)
Definition quote : ascii := ascii_of_nat 34.

(** The carriage return, as a string. *)
Definition cr : string := String (ascii_of_nat 13) "".

Fixpoint take_word (s : string) : string :=
match s with
| EmptyString => EmptyString
| String c r => if is_space c then EmptyString else String c (take_word r)
end.

Fixpoint drop_word (s : string) : string :=
match s with
| EmptyString => EmptyString
| String c r => if is_space c then s else drop_word r
end.

(** [s.split(None, 1)]: the first word and, if there is one, the rest
    without its leading white space. *)
Definition split_ws1 (s : string) : list string :=
let s := lstrip s in
if String.eqb s "" then []
else
  let rest := lstrip (drop_word s) in
  if String.eqb rest "" then [take_word s] else [take_word s; rest].

(** The stripped, non-blank parts of [args] between its double quotes:
    [[part.strip() for part in re.split(quote, args) if part.strip()]] *)
Definition quoted_parts (args : string) : list string :=
strip <$> List.filter (fun part => negb (String.eqb (strip part) "")) (split quote args).

Definition ban_notice : string :=
"|rYou have been banned and cannot continue from here." +:+ nl
+:+ "If you feel this ban is in error, please email an admin.|x".

Definition too_many_attempts : string :=
"|RYou made too many connection attempts. Try again in a few minutes.|n".

(** *** Account names and passwords *)










Section Commands.

Context (fw : Framework) (settings : Settings) (auth : Auth).

(** [session.msg(text)] *)
Definition say (text : string) : M Server unit := on_session (emit (SessionMsg text)).

(** [create_normal_account(session, name, password)].  [t_check] is the
    clock reading of the throttle check, [t_now] and [t_fail] are the two
    readings of the call that records a failure. *)
Definition create_normal_account (session : Session) (name password : string)
    (t_check t_now t_fail : Z) : M Server (option Account) :=
(* check for too many login errors too quick. *)
throttled ← throttle session (Some 5) (Some (5 * 60)) t_check t_check;
if (throttled : bool) then
  say too_many_attempts;;
  mret None
else
  (* Match account name and check password *)
  db ← gets (fun sv => AccountDB (session_state sv));
  match authenticate auth db name password with
  | None =>
      (* No accountname or password match *)
      say "Incorrect login information given.";;
      (* this just updates the throttle *)
      throttle session None None t_now t_fail;;
      (* calls account hook for a failed login if possible. *)
      db ← gets (fun sv => AccountDB (session_state sv));
      (match get_account_from_name auth db name with
       | Some account => hook (AtFailedLogin (acc_id account))
       | None => mret tt
       end);;
      mret None
  | Some account =>
      (* Check IP and/or name bans *)
      if banned (server_bans auth) (username account) session then
        say ban_notice;;
        on_session (emit (Disconnect "Good bye! Disconnecting."));;
        mret None
      else mret (Some account)
  end.

(** A run of login attempts of one session. *)
Fixpoint login_attempts (session : Session) (tries : list Attempt) : M Server unit :=
match tries with
| [] => mret tt
| (name, password, (t_check, t_now, t_fail)) :: rest =>
    create_normal_account session name password t_check t_now t_fail;;
    login_attempts session rest
end.

(** The last two statements of [CmdUnconnectedConnect.func]:
    [account = create_normal_account(session, name, password)] and, if
    there is an account, the login. *)
Definition connect_account (session : Session) (name password : string)
    (t_check t_now t_fail : Z) : M Server unit :=
account ← create_normal_account session name password t_check t_now t_fail;
match account with
| Some account => hook (SessionLogin (acc_id account))
| None => mret tt
end.

(** [CmdUnconnectedConnect.func]; [t_connect] is the clock reading of its
    own throttle check. *)
Definition CmdUnconnectedConnect_func (session : Session) (args : string)
    (t_connect t_check t_now t_fail : Z) : M Server unit :=
throttled ← throttle session (Some 5) (Some (5 * 60)) t_connect t_connect;
if (throttled : bool) then say too_many_attempts
else
  (* extract double quote parts *)
  let parts := quoted_parts args in
  '(parts, handled) ←
    (if (length parts =? 1)%nat then
       (* this was (hopefully) due to no double quotes being found, or a guest login *)
       let parts := split_ws1 (List.hd "" parts) in
       if (length parts =? 1)%nat && String.eqb (lower (List.hd "" parts)) "guest" then
         '(enabled, new_account) ← on_session (create_guest_account fw settings session);
         (match new_account with
          | Some pid => hook (SessionLogin pid)
          | None => mret tt
          end);;
         mret (parts, (enabled : bool))
       else mret (parts, false)
     else mret (parts, false));
  if (handled : bool) then mret tt
  else
    match parts with
    | [name; password] => connect_account session name password t_check t_now t_fail
    | _ => say (nl +:+ cr +:+ " Usage (without <>): connect <name> <password>")
    end.


(** [CmdUnconnectedScreenreader.func]; the command does not test for a
    missing session. *)
Definition CmdUnconnectedScreenreader_func (self : Command) : M State unit :=
match session self with
| None => raise (AttributeError "protocol_flags")
| Some _ =>
    flag ← gets (fun st => protocol_flags st !! "SCREENREADER");
    let new_setting := negb (truthy_flag flag) in
    set_flag "SCREENREADER" (FBool new_setting);;
    emit (SessionMsg ("Screenreader mode turned |w"
                      +:+ (if new_setting then "on" else "off") +:+ "|n."));;
    emit PortalSync
end.

End Commands.

End Login.

(** ** Sample worlds

    Concrete settings, framework behaviour and states, on which the
    definitions above can be run. *)

Module Samples.

Import Prelogin.

Definition limbo : Place := {| place_id := 2; place_key := "Limbo" |}.

Definition settings : Settings :=
{| GUEST_ENABLED := true;
   GUEST_LIST := ["Guest1"; "Guest2"; "Guest3"];
   GUEST_HOME := 2;
   PERMISSION_GUEST_DEFAULT := ["Guests"];
   BASE_CHARACTER_TYPECLASS := "typeclasses.characters.Character";
   BASE_GUEST_TYPECLASS := "typeclasses.accounts.Guest";
   ENCODINGS := ["utf-8"; "latin-1"; "ISO-8859-1"] |}.

(** A framework that refuses an account name already in use, as the account
    table does, and creates objects without a brief description. *)
Definition host : Framework :=
{| codec_known := fun c => bool_decide (c ∈ ["utf-8"; "latin-1"; "ISO-8859-1"; "ascii"]);
   address_banned := fun _ => false;
   getrandbits64 := 81985529216486895;
   get_id := fun i => if i =? 2 then Some limbo else None;
   create_account := fun st name _ _ _ _ =>
     if (count_iexact (AccountDB st) (Some name) =? 0)%nat then
       Ok {| acc_id := 0; username := name; FIRST_LOGIN := false;
             _playable_characters := []; _last_puppet := None |}
     else Raise (FrameworkError "An Account with this name already exists.");
   create_object := fun _ _ key home _ =>
     Ok {| id := 0; Prelogin.key := key; home := home; location := home;
           home_room := None; desc_brief := None; locks := [] |};
   channel_connect := fun _ => true;
   move_to_ok := fun _ _ => true |}.

Definition guest1 : Account :=
{| acc_id := 1; username := "guest1"; FIRST_LOGIN := false;
   _playable_characters := []; _last_puppet := None |}.

Definition guest2 : Account :=
{| acc_id := 2; username := "Guest2"; FIRST_LOGIN := false;
   _playable_characters := []; _last_puppet := None |}.

(** A fresh connection; one guest name is taken. *)
Definition one_guest : State :=
{| protocol_flags := ∅; AccountDB := [guest1]; ObjectDB := []; trace := [] |}.

(** Every guest name of the settings is taken. *)
Definition all_guests : State :=
{| protocol_flags := ∅;
   AccountDB := [ guest1; guest2;
                  {| acc_id := 3; username := "GUEST3"; FIRST_LOGIN := false;
                     _playable_characters := []; _last_puppet := None |} ];
   ObjectDB := []; trace := [] |}.

Definition session0 : Session := {| address := AddrTuple "10.0.0.7" 4000 |}.

(** [encoding latin-1], typed at the login screen. *)
Definition encoding_latin1 : Command :=
{| session := Some session0; switches := []; args := "latin-1" |}.

End Samples.

Module ExitSamples.

Import Exits.

Definition room (key : string) : Obj :=
{| key := key; STYLE := "|y"; location := None; destination := None; home := None;
   db := ∅; ndb := ∅ |}.

Definition path (key : string) (from to : ObjRef) (attrs : gmap string Val) : Obj :=
{| key := key; STYLE := "|g"; location := Some from; destination := Some to; home := None;
   db := <["is_path" := VBool true]> attrs; ndb := ∅ |}.

Definition character (key : string) (location : option ObjRef) (attrs : gmap string Val) : Obj :=
{| key := key; STYLE := "|c"; location := location; destination := None; home := Some 1;
   db := attrs; ndb := ∅ |}.

(** Two rooms, a path each way (the one going east has its own error
    text), and three characters: Anna on the eastward path with no speed
    chosen, Bert nowhere, who was last in the harbor, and Cleo on the
    eastward path, running. *)
Definition world : World :=
{| objs := list_to_map
     [ (1, room "Plaza"); (2, room "Harbor");
       (5, path "east" 1 2 {[ "err_traverse" := VStr "The gate is barred." ]});
       (6, path "west" 2 1 ∅);
       (10, character "Anna" (Some 5) ∅);
       (11, character "Bert" None {[ "last_room" := VRef 2 ]});
       (12, character "Cleo" (Some 5) {[ "move_speed" := VStr "run" ]}) ];
   trace := [];
   next_handle := 0 |}.

Definition names (objs : gmap ObjRef Obj) (r : ObjRef) : string :=
match objs !! r with
| Some o => STYLE o +:+ key o +:+ "|n"
| None => "nothing"
end.

(** Every move succeeds. *)
Definition open_fw : Framework :=
{| move_to_ok := fun _ _ _ => true;
   at_before_move := fun _ _ _ => true;
   get_display_name := names |}.

(** No move succeeds. *)
Definition blocked_fw : Framework :=
{| move_to_ok := fun _ _ _ => false;
   at_before_move := fun _ _ _ => true;
   get_display_name := names |}.

End ExitSamples.

Module LoginSamples.

Import Prelogin Login.

Definition session0 : Session := {| address := AddrTuple "10.0.0.7" 4000 |}.

(** [encoding/clear] and [encoding], typed at the login screen. *)
Definition encoding_clear : Command :=
{| session := Some session0; switches := ["clear"]; args := "" |}.

Definition encoding_show : Command :=
{| session := Some session0; switches := []; args := "" |}.

Definition anna : Account :=
{| acc_id := 7; username := "Anna"; FIRST_LOGIN := false;
   _playable_characters := []; _last_puppet := None |}.

(** Accounts are found by name without regard to case; every account has
    the same password; one name is banned. *)
Definition auth : Auth :=
{| authenticate := fun db name password =>
     List.find (fun a => String.eqb (lower (username a)) (lower name)
                         && String.eqb password "c67jHL8p") db;
   get_account_from_name := fun db name =>
     List.find (fun a => String.eqb (lower (username a)) (lower name)) db;
   server_bans := [ {| ban_name := "mallory"; ban_ipregex := None |} ];
   PERMISSION_ACCOUNT_DEFAULT := ["Player"];
   DEFAULT_HOME := 2;
   MULTISESSION_MODE := 0 |}.

Definition database : State :=
{| protocol_flags := ∅; AccountDB := [anna]; ObjectDB := []; trace := [] |}.

(** No failed login on record. *)
Definition quiet : Server :=
{| session_state := database; failed_logins := ∅; hooks := [] |}.

(** Five recent failed logins of the address of [session0]. *)
Definition locked : Server :=
{| session_state := database;
   failed_logins := {[ "10.0.0.7" := [1000; 1010; 1020; 1030; 1040] ]};
   hooks := [] |}.

(** A framework that fails to create objects. *)
Definition no_objects : Framework :=
{| codec_known := codec_known Samples.host;
   address_banned := address_banned Samples.host;
   getrandbits64 := getrandbits64 Samples.host;
   get_id := get_id Samples.host;
   create_account := create_account Samples.host;
   create_object := fun _ _ _ _ _ => Raise (FrameworkError "typeclass not found");
   channel_connect := channel_connect Samples.host;
   move_to_ok := move_to_ok Samples.host |}.

(** A framework whose objects get the home they are created with, and no
    home room. *)
Definition homeless : Framework := Samples.host.

(** Guest logins are switched off. *)
Definition no_guests : Settings :=
{| GUEST_ENABLED := false;
   GUEST_LIST := GUEST_LIST Samples.settings;
   GUEST_HOME := GUEST_HOME Samples.settings;
   PERMISSION_GUEST_DEFAULT := PERMISSION_GUEST_DEFAULT Samples.settings;
   BASE_CHARACTER_TYPECLASS := BASE_CHARACTER_TYPECLASS Samples.settings;
   BASE_GUEST_TYPECLASS := BASE_GUEST_TYPECLASS Samples.settings;
   ENCODINGS := ENCODINGS Samples.settings |}.

(** Five guesses at Anna's password, ten seconds apart. *)
Definition guesses : list Attempt :=
[ ("Anna", "guess1", (1000, 1000, 1000)); ("Anna", "guess2", (1010, 1010, 1010));
  ("Anna", "guess3", (1020, 1020, 1020)); ("Anna", "guess4", (1030, 1030, 1030));
  ("Anna", "guess5", (1040, 1040, 1040)) ].

End LoginSamples.

Module MoveSamples.

Import Exits.

(** Dora is inside the eastward path, with a scheduled arrival. *)
Definition dora : Obj :=
{| key := "Dora"; STYLE := "|c"; location := Some 5; destination := None; home := Some 1;
   db := {[ "move_speed" := VStr "sprint" ]};
   ndb := {[ "currently_moving" := VDeferred 3 ]} |}.

(** Eve stands in the plaza and has chosen to run. *)
Definition eve : Obj :=
{| key := "Eve"; STYLE := "|c"; location := Some 1; destination := None; home := Some 1;
   db := {[ "move_speed" := VStr "run" ]}; ndb := ∅ |}.

(** The sample world with Dora and Eve in it. *)
Definition world : World :=
{| objs := <[13 := dora]> (<[14 := eve]> (objs ExitSamples.world));
   trace := [];
   next_handle := 4 |}.

(** Every move is possible, but the travellers' own hook says no. *)
Definition wary_fw : Framework :=
{| move_to_ok := fun _ _ _ => true;
   at_before_move := fun _ _ _ => false;
   get_display_name := ExitSamples.names |}.

(** An ordinary exit: one that is not marked as a path. *)
Definition door (key : string) (from to : ObjRef) : Obj :=
{| key := key; STYLE := "|g"; location := Some from; destination := Some to; home := None;
   db := ∅; ndb := ∅ |}.

(** Finn stands in the harbor and remembers the plaza as his last room. *)
Definition finn : Obj :=
{| key := "Finn"; STYLE := "|c"; location := Some 2; destination := None; home := Some 1;
   db := {[ "last_room" := VRef 1 ]}; ndb := ∅ |}.

(** The same world with Finn in it, and two more ways from the harbor to the
    plaza, one of them an ordinary exit, and a way from the harbor to
    itself. *)
Definition harbor_world : World :=
{| objs := <[15 := finn]> (<[7 := ExitSamples.path "gate" 2 1 ∅]>
             (<[8 := ExitSamples.path "pier" 2 2 ∅]>
                (<[9 := door "door" 2 1]> (objs world))));
   trace := [];
   next_handle := 4 |}.

End MoveSamples.

Module PoolSamples.

Import Procpool.

(** The configuration with another host. *)
Definition with_host (v : string) (cfg : Config) : Config :=
{| PROCPOOL_ENABLED := PROCPOOL_ENABLED cfg;
   PROCPOOL_DEBUG := PROCPOOL_DEBUG cfg;
   PROCPOOL_MIN_NPROC := PROCPOOL_MIN_NPROC cfg;
   PROCPOOL_MAX_NPROC := PROCPOOL_MAX_NPROC cfg;
   PROCPOOL_TIMEOUT := PROCPOOL_TIMEOUT cfg;
   PROCPOOL_IDLETIME := PROCPOOL_IDLETIME cfg;
   PROCPOOL_HOST := v;
   PROCPOOL_PORT := PROCPOOL_PORT cfg;
   PROCPOOL_INTERFACE := PROCPOOL_INTERFACE cfg;
   PROCPOOL_UID := PROCPOOL_UID cfg;
   PROCPOOL_GID := PROCPOOL_GID cfg;
   PROCPOOL_DIRECTORY := PROCPOOL_DIRECTORY cfg;
   SERVICE_NAME := SERVICE_NAME cfg |}.

(** The keyword argument [name] of a constructor call. *)
Definition kwarg (name : string) (a : Arg) : option Arg :=
list_find (λ p, p.1 = name) (kwargs_of a) ≫= λ found, Some found.2.2.

(** The process starter handed to the pool of a registered service. *)
Definition starter_of (s : Service) : option Arg :=
args_of (service s) !! 0%nat ≫= kwarg "starter".

End PoolSamples.

(** * Properties *)

(** ** Strings *)

Module PyProofs.

Lemma occurs_append (c : ascii) (s1 s2 : string) :
  occurs c (s1 +:+ s2) = occurs c s1 || occurs c s2.
Proof.
  induction s1 as [|d s1 IH]; simpl; [done|].
  rewrite IH. by rewrite orb_assoc.
Qed.

Lemma split_without_sep (sep : ascii) (s : string) :
  occurs sep s = false → split sep s = [s].
Proof.
  induction s as [|c s IH]; simpl; [done|].
  intros H. apply orb_false_iff in H as [Hc Hs].
  rewrite Hc. by rewrite (IH Hs).
Qed.

Lemma split_append (sep : ascii) (s r : string) :
  occurs sep s = false → split sep (s +:+ String sep r) = s :: split sep r.
Proof.
  induction s as [|c s IH]; simpl.
  - intros _. by rewrite Ascii.eqb_refl.
  - intros H. apply orb_false_iff in H as [Hc Hs].
    rewrite Hc. by rewrite (IH Hs).
Qed.

(** Splitting a joined list gives the list back when no part holds the
    separator. *)
Lemma split_join (sep : ascii) (parts : list string) :
  parts ≠ [] →
  Forall (fun p => occurs sep p = false) parts →
  split sep (join (String sep "") parts) = parts.
Proof.
  unfold join. induction parts as [|p parts IH]; [done|].
  intros _ Hall. apply Forall_cons in Hall as [Hp Hall].
  destruct parts as [|q parts].
  - simpl. by apply split_without_sep.
  - change (String.concat (String sep "") (p :: q :: parts))
      with (p +:+ String sep (String.concat (String sep "") (q :: parts))).
    rewrite split_append by done. by rewrite IH.
Qed.

Lemma digits_without_semicolon (d : Decimal.uint) :
  occurs ";" (NilEmpty.string_of_uint d) = false.
Proof. induction d; simpl; done. Qed.

Lemma str_of_int_without_semicolon (z : Z) : occurs ";" (str_of_int z) = false.
Proof.
  unfold str_of_int, NilZero.string_of_int, NilZero.string_of_uint.
  destruct (Z.to_int z) as [d|d]; destruct d; simpl;
    try done; apply digits_without_semicolon.
Qed.

(** *** [strip] leaves a report untouched *)

Lemma ends_solid_String (c : ascii) (s : string) : ends_solid s → ends_solid (String c s).
Proof.
  intros [Hs Hne]. split; [|done]. simpl. rewrite Hs.
  destruct (String.eqb_spec s ""); [done|]. by rewrite andb_false_r.
Qed.

Lemma ends_solid_append (a b : string) : ends_solid b → ends_solid (a +:+ b).
Proof.
  intros Hb. induction a as [|c a IH]; [done|]. by apply ends_solid_String.
Qed.

Lemma strip_solid (c : ascii) (a b : string) :
  is_space c = false → ends_solid b → strip (String c a +:+ b) = String c a +:+ b.
Proof.
  intros Hc Hb. unfold strip.
  change (String c a +:+ b) with (String c (a +:+ b)).
  simpl lstrip. rewrite Hc.
  apply (ends_solid_String c), (ends_solid_append a). exact Hb.
Qed.

(** *** Inversion of computations that returned *)

Lemma bind_ok {S A B} (m : M S A) (k : A → M S B) (s s' : S) (b : B) :
  (m ≫= k) s = (Ok b, s') → ∃ a s1, m s = (Ok a, s1) ∧ k a s1 = (Ok b, s').
Proof.
  unfold mbind, M_bind, mbind'. destruct (m s) as [[a|e] s1]; [eauto | done].
Qed.

Lemma mret_ok {S A} (a b : A) (s s' : S) :
  (mret a : M S A) s = (Ok b, s') → a = b ∧ s = s'.
Proof. unfold mret, M_ret, Py.mret. by intros [= -> ->]. Qed.

Lemma modify_ok {S} (f : S → S) (s s' : S) (u : unit) :
  modify f s = (Ok u, s') → s' = f s.
Proof. unfold modify. by intros [= <-]. Qed.

Lemma gets_ok {S A} (f : S → A) (s s' : S) (a : A) :
  gets f s = (Ok a, s') → a = f s ∧ s' = s.
Proof. unfold gets. by intros [= <- <-]. Qed.

End PyProofs.

(** ** The login throttle *)

Module PreloginProofs.

Import Prelogin.

Lemma fails_getitem (storage : gmap string (list Z)) (addr : string) :
  (getitem storage addr).1 = fails storage addr
  ∧ ∀ a, fails (getitem storage addr).2 a = fails storage a.
Proof.
  unfold getitem, fails. destruct (storage !! addr) as [l|] eqn:E; simpl.
  - done.
  - split; [done|]. intros a. destruct (decide (addr = a)) as [->|Hne].
    + by rewrite lookup_insert_eq, E.
    + by rewrite lookup_insert_ne.
Qed.

Lemma getitem_other (storage : gmap string (list Z)) (addr a : string) :
  a ≠ addr → (getitem storage addr).2 !! a = storage !! a.
Proof.
  intros Hne. unfold getitem. destruct (storage !! addr); simpl; [done|].
  by rewrite lookup_insert_ne.
Qed.

Lemma getitem_throttled_same (storage : gmap string (list Z)) (addr : string) :
  (getitem storage addr).1 ≠ [] → (getitem storage addr).2 = storage.
Proof. unfold getitem. by destruct (storage !! addr). Qed.

Example throttle_five_recent :
  _throttle {| address := AddrTuple "10.0.0.7" 4000 |} (Some 5) (Some 300) 1250 1250
    {[ "10.0.0.7" := [1000; 1001; 1002; 1003; 1004] ]}
  = Ok (true, {[ "10.0.0.7" := [1000; 1001; 1002; 1003; 1004] ]}).
Proof. reflexivity. Qed.

Example throttle_five_stale :
  _throttle {| address := AddrStr "10.0.0.7" |} (Some 5) (Some 300) 1304 1304
    {[ "10.0.0.7" := [1000; 1001; 1002; 1003; 1004] ]}
  = Ok (false, {[ "10.0.0.7" := [] ]}).
Proof. reflexivity. Qed.

Example throttle_record :
  _throttle {| address := AddrStr "10.0.0.7" |} None None 1304 1305 ∅
  = Ok (false, {[ "10.0.0.7" := [1305] ]}).
Proof. reflexivity. Qed.

(** C1. In check mode (limit and timeout given and non-zero, as in the calls
    with 5 and 300) the throttle answers "throttled" exactly when the
    address's fail list has at least [maxlim] entries and the newest one is
    less than [timeout] old, and then leaves the storage as it is; with at
    least [maxlim] entries whose newest is [timeout] or more old it empties
    the list and answers "not throttled"; with fewer than [maxlim] entries it
    answers "not throttled" and every fail list is as before.  In record
    mode it appends the clock reading to the address's list and answers
    "not throttled". *)
Theorem throttle_check_and_record
    (session : Session) (maxlim timeout now now' : Z) (storage : gmap string (list Z)) :
  maxlim ≠ 0 → timeout ≠ 0 →
  let addr := address_key session in
  let l := fails storage addr in
  (∃ b storage',
      _throttle session (Some maxlim) (Some timeout) now now' storage = Ok (b, storage')
      ∧ (b = true ↔ maxlim ≤ Z.of_nat (length l) ∧ ∃ t, last l = Some t ∧ now - t < timeout)
      ∧ (b = true → storage' = storage)
      ∧ (∀ t, maxlim ≤ Z.of_nat (length l) → last l = Some t → timeout ≤ now - t →
           b = false ∧ fails storage' addr = []
           ∧ ∀ a, a ≠ addr → storage' !! a = storage !! a)
      ∧ (Z.of_nat (length l) < maxlim → b = false ∧ ∀ a, fails storage' a = fails storage a))
  ∧ (∃ storage',
      _throttle session None None now now' storage = Ok (false, storage')
      ∧ fails storage' addr = l ++ [now']
      ∧ ∀ a, a ≠ addr → storage' !! a = storage !! a).
Proof.
  intros Hmax Htime addr l. split.
  - unfold _throttle, truthy_int. fold addr.
    destruct (Z.eqb_spec maxlim 0) as [|_]; [done|].
    destruct (Z.eqb_spec timeout 0) as [|_]; [done|]. simpl.
    destruct (fails_getitem storage addr) as [Hl Hrest].
    pose proof (getitem_other storage addr) as Hother.
    pose proof (getitem_throttled_same storage addr) as Hsame.
    destruct (getitem storage addr) as [latest_fails storage0]. simpl in *.
    fold l in Hl. subst latest_fails.
    destruct (bool_decide (l ≠ [])) eqn:Hne; simpl.
    + apply bool_decide_eq_true in Hne.
      destruct (Z.leb_spec maxlim (Z.of_nat (length l))) as [Hle|Hlt].
      * destruct (last l) as [newest|] eqn:Hlast.
        -- destruct (Z.ltb_spec (now - newest) timeout) as [Hsoon|Hlate].
           ++ exists true, storage0. split_and!; try done.
              ** split; [|done]. intros _. eauto.
              ** intros _. by apply Hsame.
              ** intros t _ [= <-] ?. lia.
              ** lia.
           ++ exists false, (<[addr := []]> storage0). split_and!; try done.
              ** split; [done|]. intros (_ & t & [= <-] & ?). lia.
              ** intros t _ _ _. split_and!; [done| |].
                 --- unfold fails. by rewrite lookup_insert_eq.
                 --- intros a Ha. rewrite lookup_insert_ne by done. by apply Hother.
              ** lia.
        -- apply last_None in Hlast. done.
      * exists false, storage0. split_and!; try done.
        -- split; [done|]. intros [? _]. lia.
        -- lia.
    + apply bool_decide_eq_false in Hne. assert (l = []) as Hnil.
      { destruct l; [done|]. exfalso. by apply Hne. }
      exists false, storage0. rewrite Hnil. split_and!; try done.
      split; [done|]. intros (_ & t & ? & _). done.
  - unfold _throttle. simpl. fold addr.
    destruct (fails_getitem storage addr) as [Hl Hrest].
    pose proof (getitem_other storage addr) as Hother.
    destruct (getitem storage addr) as [latest_fails storage0]. simpl in *.
    eexists. split; [done|]. split.
    + unfold fails at 1. rewrite lookup_insert_eq. simpl. by rewrite Hl.
    + intros a Ha. rewrite lookup_insert_ne by done. by apply Hother.
Qed.

(** *** Character provisioning *)

Lemma new_locks_rules (cid pid : Z) :
  split ";" (new_locks cid pid) =
  [ "puppet:id(" +:+ str_of_int cid +:+ ") or pid(" +:+ str_of_int pid +:+ ") or perm(immortal)";
    "edit:id(" +:+ str_of_int cid +:+ ") or pid(" +:+ str_of_int pid +:+ ") or perm(wizard)";
    "control:id(" +:+ str_of_int cid +:+ ") or pid(" +:+ str_of_int pid +:+ ") or perm(immortal)" ].
Proof.
  assert (∀ pre post, occurs ";" pre = false → occurs ";" post = false →
            occurs ";" (pre +:+ str_of_int cid +:+ ") or pid(" +:+ str_of_int pid +:+ post)
            = false) as Hrule.
  { intros pre post Hpre Hpost.
    rewrite !PyProofs.occurs_append, !PyProofs.str_of_int_without_semicolon, Hpre, Hpost.
    reflexivity. }
  unfold new_locks. apply (PyProofs.split_join ";"); [done|].
  repeat (apply Forall_cons; split; [by apply Hrule|]). apply Forall_nil_2.
Qed.

Lemma fresh_id_above (ids : list Z) (i : Z) : i ∈ ids → i < fresh_id ids.
Proof.
  unfold fresh_id. induction ids as [|j ids IH]; simpl.
  - intros H. by apply elem_of_nil in H.
  - intros [->|H]%elem_of_cons; [lia|]. specialize (IH H). lia.
Qed.

Lemma find_above (db : list Character) (k : Z) :
  (∀ i, i ∈ id <$> db → i < k) → List.find (fun x => id x =? k) db = None.
Proof.
  induction db as [|c db IH]; simpl; [done|].
  intros H. destruct (Z.eqb_spec (id c) k) as [E|_].
  - assert (id c < k) by (apply H; simpl; left). lia.
  - apply IH. intros i Hi. apply H. simpl. by right.
Qed.

Lemma find_append_none {A} (p : A → bool) (l1 l2 : list A) :
  List.find p l1 = None → List.find p (l1 ++ l2) = List.find p l2.
Proof.
  induction l1 as [|x l1 IH]; simpl; [done|].
  destruct (p x); [done | apply IH].
Qed.

Lemma find_fresh_character (db : list Character) (c : Character) :
  id c = fresh_id (id <$> db) →
  List.find (fun x => id x =? id c) db = None
  ∧ List.find (fun x => id x =? id c) (db ++ [c]) = Some c.
Proof.
  intros Hid.
  assert (List.find (fun x => id x =? id c) db = None) as Hnone.
  { apply find_above. intros i Hi. rewrite Hid. by apply fresh_id_above. }
  split; [done|]. rewrite find_append_none by done. simpl. by rewrite Z.eqb_refl.
Qed.

Lemma find_updated (db : list Character) (cid : Z) (f : Character → Character) :
  (∀ c, id (f c) = id c) →
  List.find (fun x => id x =? cid) (map (fun c => if id c =? cid then f c else c) db)
  = f <$> List.find (fun x => id x =? cid) db.
Proof.
  intros Hf. induction db as [|c db IH]; simpl; [done|].
  destruct (id c =? cid) eqn:E.
  - by rewrite Hf, E.
  - by rewrite E.
Qed.

Lemma get_account_ok (pid : Z) (st st' : State) (a : Account) :
  get_account pid st = (Ok a, st') → find_account pid st = Some a ∧ st' = st.
Proof. unfold get_account. destruct (find_account pid st); by intros [= <- <-]. Qed.

Lemma get_character_ok (cid : Z) (st st' : State) (c : Character) :
  get_character cid st = (Ok c, st') → find_character cid st = Some c ∧ st' = st.
Proof. unfold get_character. destruct (find_character cid st); by intros [= <- <-]. Qed.

Lemma find_account_id (pid : Z) (st : State) (a : Account) :
  find_account pid st = Some a → acc_id a = pid.
Proof.
  unfold find_account. intros H. apply find_some in H as [_ H]. by apply Z.eqb_eq.
Qed.

Lemma emit_ok (e : Event) (st st' : State) (u : unit) :
  emit e st = (Ok u, st') → ∀ cid, find_character cid st = find_character cid st'.
Proof. unfold emit. intros ->%PyProofs.modify_ok. done. Qed.

Lemma update_account_ok (pid : Z) (f : Account → Account) (st st' : State) (u : unit) :
  update_account pid f st = (Ok u, st') →
  ∀ cid, find_character cid st = find_character cid st'.
Proof. unfold update_account. intros ->%PyProofs.modify_ok. done. Qed.

Lemma update_character_ok (cid : Z) (f : Character → Character) (st st' : State) (u : unit) :
  update_character cid f st = (Ok u, st') →
  (∀ c, id (f c) = id c) →
  find_character cid st' = f <$> find_character cid st.
Proof.
  unfold update_character. intros ->%PyProofs.modify_ok Hf.
  unfold find_character. simpl. by apply find_updated.
Qed.

Lemma insert_character_ok (row c : Character) (st st' : State) :
  insert_character row st = (Ok c, st') →
  id c = fresh_id (id <$> ObjectDB st)
  ∧ locks c = locks row ∧ desc_brief c = desc_brief row
  ∧ find_character (id c) st = None
  ∧ find_character (id c) st' = Some c.
Proof.
  unfold insert_character. intros H.
  apply PyProofs.bind_ok in H as (db & s1 & Hdb & H).
  apply PyProofs.gets_ok in Hdb as [-> ->].
  apply PyProofs.bind_ok in H as (u & s1 & Hadd & H).
  apply PyProofs.modify_ok in Hadd as ->.
  apply PyProofs.mret_ok in H as [<- <-].
  pose proof (find_fresh_character (ObjectDB st)
                (set_id (fresh_id (id <$> ObjectDB st)) row) eq_refl) as [Hnone Hsome].
  split_and!; done.
Qed.

(** C7. Whenever the [try] block of the provisioning helper runs to its end,
    the helper returns without reporting an error, the new character (id
    [cid]) has had exactly three lock rules added, which are the puppet, edit
    and control rules written with [cid] and the account id [pid], and its
    brief description is set: to the default text if the created object had
    none. *)
Theorem create_character_locks_and_brief
    (fw : Framework) (pid : Z) (typeclass : string) (home : option Place)
    (permissions : list string) (st st' : State) :
  _create_character_body fw pid typeclass home permissions st = (Ok tt, st') →
  ∃ (acc : Account) (row ch : Character),
    find_account pid st = Some acc
    ∧ create_object fw st typeclass (username acc) home permissions = Ok row
    ∧ _create_character fw pid typeclass home permissions st = (Ok tt, st')
    ∧ let cid := fresh_id (id <$> ObjectDB st) in
      find_character cid st = None
      ∧ find_character cid st' = Some ch
      ∧ id ch = cid
      ∧ locks ch = locks row ++
          [ "puppet:id(" +:+ str_of_int cid +:+ ") or pid(" +:+ str_of_int pid
              +:+ ") or perm(immortal)";
            "edit:id(" +:+ str_of_int cid +:+ ") or pid(" +:+ str_of_int pid
              +:+ ") or perm(wizard)";
            "control:id(" +:+ str_of_int cid +:+ ") or pid(" +:+ str_of_int pid
              +:+ ") or perm(immortal)" ]
      ∧ (truthy_str (desc_brief row) = false →
           desc_brief ch = Some "It looks like a new creature on the block.")
      ∧ truthy_str (desc_brief ch) = true.
Proof.
  intros Hrun. pose proof Hrun as Hbody.
  unfold _create_character_body in Hrun.
  apply PyProofs.bind_ok in Hrun as (acc & s1 & Hacc & Hrun).
  apply get_account_ok in Hacc as [Hacc ->].
  apply PyProofs.bind_ok in Hrun as (row & s1 & Hrow & Hrun).
  injection Hrow as Hrow <-.
  apply PyProofs.bind_ok in Hrun as (c0 & s1 & Hins & Hrun).
  apply insert_character_ok in Hins as (Hid0 & Hlocks0 & Hdesc0 & Hnone & Hc0).
  set (cid := fresh_id (id <$> ObjectDB st)) in *.
  rewrite Hid0 in *.
  apply PyProofs.bind_ok in Hrun as (u & s2 & Hstep & Hrun).
  rewrite (update_account_ok _ _ _ _ _ Hstep cid) in Hc0. clear Hstep.
  apply PyProofs.bind_ok in Hrun as (u' & s3 & Hmove & Hrun).
  assert (∃ c1, find_character cid s3 = Some c1 ∧ id c1 = cid ∧ locks c1 = locks row
                ∧ desc_brief c1 = desc_brief row) as (c1 & Hc1 & Hid1 & Hlocks1 & Hdesc1).
  { destruct (home_room c0) as [room|].
    - apply PyProofs.bind_ok in Hmove as (? & s4 & Hstep & Hmove).
      apply update_character_ok in Hstep as Hc4; [|done]. rewrite Hc0 in Hc4. clear Hstep.
      apply PyProofs.bind_ok in Hmove as (? & s5 & Hstep & Hmove).
      rewrite (emit_ok _ _ _ _ Hstep cid) in Hc4. clear Hstep.
      destruct (move_to_ok fw c0 room).
      + apply update_character_ok in Hmove; [|done]. rewrite Hc4 in Hmove.
        eexists. split; [exact Hmove|]. simpl. done.
      + apply PyProofs.mret_ok in Hmove as [_ <-].
        eexists. split; [exact Hc4|]. simpl. done.
    - apply PyProofs.mret_ok in Hmove as [_ <-]. eauto. }
  clear Hmove Hc0.
  apply PyProofs.bind_ok in Hrun as (c1' & s4 & Hget & Hrun).
  apply get_character_ok in Hget as [Hget ->]. rewrite Hc1 in Hget. injection Hget as <-.
  apply PyProofs.bind_ok in Hrun as (acc' & s4 & Hget & Hrun).
  apply get_account_ok in Hget as [Hacc' ->].
  assert (acc_id acc' = pid) as Hpid by (by apply find_account_id in Hacc').
  rewrite Hpid in Hrun.
  apply PyProofs.bind_ok in Hrun as (? & s4 & Hstep & Hrun).
  rewrite (emit_ok _ _ _ _ Hstep cid) in Hc1. clear Hstep.
  apply PyProofs.bind_ok in Hrun as (home_key & s5 & Hhome & Hrun).
  assert (s5 = s4) as ->.
  { destruct (Prelogin.home c1); [|done]. by apply PyProofs.mret_ok in Hhome as [_ ->]. }
  clear Hhome.
  apply PyProofs.bind_ok in Hrun as (? & s5 & Hstep & Hrun).
  rewrite (emit_ok _ _ _ _ Hstep cid) in Hc1. clear Hstep.
  apply PyProofs.bind_ok in Hrun as (? & s6 & Hstep & Hrun).
  apply update_character_ok in Hstep as Hc6; [|done]. rewrite Hc1 in Hc6. clear Hstep.
  apply PyProofs.bind_ok in Hrun as (c2 & s7 & Hget & Hrun).
  apply get_character_ok in Hget as [Hget ->]. rewrite Hc6 in Hget. injection Hget as <-.
  apply PyProofs.bind_ok in Hrun as (? & s7 & Hdesc & Hrun).
  pose proof (update_account_ok _ _ _ _ _ Hrun cid) as Hlast.
  exists acc, row.
  assert (∃ ch, find_character cid s7 = Some ch ∧ id ch = cid
                ∧ locks ch = locks c1 ++ split ";" (new_locks cid pid)
                ∧ (truthy_str (desc_brief c1) = false →
                     desc_brief ch = Some "It looks like a new creature on the block.")
                ∧ truthy_str (desc_brief ch) = true) as (ch & Hch & Hidch & Hlocks & Hd1 & Hd2).
  { simpl in Hdesc. destruct (truthy_str (desc_brief c1)) eqn:Htruthy; simpl in Hdesc.
    - apply PyProofs.mret_ok in Hdesc as [_ <-].
      eexists. split; [exact Hc6|]. simpl. done.
    - apply update_character_ok in Hdesc; [|done]. rewrite Hc6 in Hdesc.
      eexists. split; [exact Hdesc|]. simpl. done. }
  exists ch. split; [done|]. split; [done|]. split.
  { unfold _create_character, try_except. by rewrite Hbody. }
  cbv zeta. fold cid. split_and!; try done.
  - by rewrite <- Hlast.
  - by rewrite Hlocks, Hlocks1, new_locks_rules.
  - rewrite <- Hdesc1. done.
Qed.

(** The theorem on the character made for the account with id 1. *)
Lemma create_character_locks_and_brief_witness :
  ∃ st' ch,
    _create_character_body Samples.host 1 "typeclasses.characters.Character"
      (Some Samples.limbo) ["Guests"] Samples.one_guest = (Ok tt, st')
    ∧ find_character 1 st' = Some ch
    ∧ locks ch = [ "puppet:id(1) or pid(1) or perm(immortal)";
                   "edit:id(1) or pid(1) or perm(wizard)";
                   "control:id(1) or pid(1) or perm(immortal)" ]
    ∧ desc_brief ch = Some "It looks like a new creature on the block.".
Proof.
  pose (st' := (_create_character_body Samples.host 1 "typeclasses.characters.Character"
                  (Some Samples.limbo) ["Guests"] Samples.one_guest).2).
  assert (_create_character_body Samples.host 1 "typeclasses.characters.Character"
            (Some Samples.limbo) ["Guests"] Samples.one_guest = (Ok tt, st')) as Hrun.
  { vm_compute. reflexivity. }
  destruct (create_character_locks_and_brief _ _ _ _ _ _ _ Hrun)
    as (acc & row & ch & Hacc & Hrow & _ & _ & Hch & _ & Hlocks & Hdesc & _).
  injection Hrow as <-.
  exists st', ch. split; [exact Hrun|]. split; [exact Hch|]. split; [exact Hlocks|].
  apply Hdesc. reflexivity.
Defined.

(** *** Guest login *)

(** The scan depends on the account table only through the count for the
    unset name; it never asks about a candidate. *)
Lemma find_guest_name_blind (count : option string → nat) (names : list string) :
  find_guest_name count None names =
  if (count None =? 0)%nat then head names else None.
Proof.
  induction names as [|name names IH]; simpl.
  - by destruct (count None =? 0)%nat.
  - destruct (count None =? 0)%nat; [done | exact IH].
Qed.

(** C3. The scan for a free guest name never looks at the candidate: the
    query is made for the still unset [accountname], counts no account, and
    the loop leaves with the first name of the list, whatever is registered.
    With [guest1] registered and the list [Guest1, Guest2, Guest3] the code
    tries to create [Guest1] again (here the account table refuses it) and
    [Guest2], the first free name, is not used; with all three names
    registered no message about guest slots is sent. *)
Theorem guest_scan_ignores_registry :
  (∀ db names, find_guest_name (count_iexact db) None names = head names)
  ∧ count_iexact (AccountDB Samples.one_guest) (Some "Guest1") = 1%nat
  ∧ count_iexact (AccountDB Samples.one_guest) (Some "Guest2") = 0%nat
  ∧ (let run := create_guest_account Samples.host Samples.settings Samples.session0
                  Samples.one_guest in
     run.1 = Ok (true, None)
     ∧ AccountDB run.2 = [Samples.guest1]
     ∧ trace run.2 =
         [ SessionMsg ("There was an error creating the Account:" +:+ nl
                       +:+ "An Account with this name already exists." +:+ nl
                       +:+ " If this problem persists, contact an admin.");
           LogTrace ])
  ∧ (let run := create_guest_account Samples.host Samples.settings Samples.session0
                  Samples.all_guests in
     run.1 = Ok (true, None)
     ∧ SessionMsg "All guest accounts are in use. Please try again later." ∉ trace run.2).
Proof.
  split; [intros db names; by rewrite find_guest_name_blind|].
  split; [reflexivity|]. split; [reflexivity|]. split.
  - vm_compute. done.
  - split; [vm_compute; reflexivity|].
    rewrite list_elem_of_In. vm_compute. intros [H|[H|[]]]; discriminate.
Qed.

(** *** The encoding command *)

(** C8. For a command that has a session: with an argument and without the
    clear switch, an encoding that the codec registry does not know leaves
    the flags as they are, reports the rejection and triggers no
    synchronisation, and a known encoding is stored under [ENCODING],
    reported, and followed by a session-portal synchronisation; with the
    clear switch the flag is set to utf-8 and the synchronisation is
    triggered, whatever the argument. *)
Theorem encoding_change_and_clear
    (fw : Framework) (settings : Settings) (self : Command) (s : Session) (st : State) :
  session self = Some s →
  let old := protocol_flags st !! "ENCODING" in
  let encoding := args self in
  ("clear" ∉ switches self → encoding ≠ "" →
     (codec_known fw encoding = false →
        CmdUnconnectedEncoding_func fw settings self st =
        (Ok tt,
         with_trace st
           [ SessionMsg ("|rThe encoding '|w" +:+ encoding
                         +:+ "|r' is invalid. Keeping the previous encoding '|w"
                         +:+ fmt_flag old +:+ "|r'.|n") ]))
     ∧ (codec_known fw encoding = true →
        CmdUnconnectedEncoding_func fw settings self st =
        (Ok tt,
         with_encoding st encoding
           [ PortalSync;
             SessionMsg ("Your custom text encoding was changed from '|w" +:+ fmt_flag old
                         +:+ "|n' to '|w" +:+ encoding +:+ "|n'.") ])))
  ∧ ("clear" ∈ switches self →
       CmdUnconnectedEncoding_func fw settings self st =
       (Ok tt,
        with_encoding st "utf-8"
          [ PortalSync;
            SessionMsg (if truthy_flag old then
                          "Your custom text encoding ('" +:+ fmt_flag old +:+ "') was cleared."
                        else "No custom encoding was set.") ])).
Proof.
  intros Hsession old encoding. unfold CmdUnconnectedEncoding_func. rewrite Hsession.
  split.
  - intros Hclear Harg.
    rewrite (bool_decide_eq_false_2 _ Hclear).
    destruct (String.eqb_spec (args self) "") as [E|_]; [done|].
    split; intros Hcodec.
    + unfold mbind, M_bind, mbind', gets, try_except, to_str_test, mret, M_ret, Py.mret.
      simpl. fold encoding. rewrite Hcodec. simpl.
      unfold emit, modify, with_trace. simpl.
      rewrite PyProofs.strip_solid; [done | done |].
      repeat apply PyProofs.ends_solid_append. done.
    + unfold mbind, M_bind, mbind', gets, try_except, to_str_test, mret, M_ret, Py.mret.
      simpl. fold encoding. rewrite Hcodec. simpl.
      unfold emit, set_flag, modify, with_encoding. simpl.
      rewrite PyProofs.strip_solid; [|done|].
      * by rewrite <- app_assoc.
      * repeat apply PyProofs.ends_solid_append. done.
  - intros Hclear. rewrite (bool_decide_eq_true_2 _ Hclear).
    unfold mbind, M_bind, mbind', gets, mret, M_ret, Py.mret. simpl.
    unfold emit, set_flag, modify, with_encoding. simpl. fold old.
    destruct (truthy_flag old).
    + rewrite PyProofs.strip_solid; [|done|].
      * by rewrite <- app_assoc.
      * repeat apply PyProofs.ends_solid_append. done.
    + by rewrite <- app_assoc.
Qed.

(** The theorem on [encoding latin-1], accepted by the codec registry. *)
Lemma encoding_change_and_clear_witness :
  session Samples.encoding_latin1 = Some Samples.session0
  ∧ CmdUnconnectedEncoding_func Samples.host Samples.settings Samples.encoding_latin1
      Samples.one_guest
    = (Ok tt,
       with_encoding Samples.one_guest "latin-1"
         [ PortalSync;
           SessionMsg "Your custom text encoding was changed from '|wNone|n' to '|wlatin-1|n'." ]).
Proof.
  split; [reflexivity|].
  destruct (encoding_change_and_clear Samples.host Samples.settings Samples.encoding_latin1
              Samples.session0 Samples.one_guest eq_refl) as [Harg _].
  destruct Harg as [_ Hknown].
  - simpl. rewrite elem_of_nil. tauto.
  - discriminate.
  - apply Hknown. reflexivity.
Defined.

(** The theorem at the call made on every authentication attempt: five
    fails, the newest 246 seconds old. *)
Lemma throttle_check_and_record_witness :
  (5 ≠ 0 ∧ 300 ≠ 0)
  ∧ ∃ storage',
      login_throttled {| address := AddrTuple "10.0.0.7" 4000 |} 1250
        {[ "10.0.0.7" := [1000; 1001; 1002; 1003; 1004] ]} = Ok (true, storage')
      ∧ storage' = {[ "10.0.0.7" := [1000; 1001; 1002; 1003; 1004] ]}.
Proof.
  split; [split; lia|].
  destruct (throttle_check_and_record {| address := AddrTuple "10.0.0.7" 4000 |}
              5 300 1250 1250 {[ "10.0.0.7" := [1000; 1001; 1002; 1003; 1004] ]})
    as [(b & storage' & Hrun & Hiff & Hsame & _) _]; [lia | lia |].
  assert (b = true) as Hb.
  { apply Hiff. split; [vm_compute; discriminate|].
    exists 1004. split; [reflexivity | lia]. }
  exists storage'. subst b. split; [exact Hrun | by apply Hsame].
Defined.

End PreloginProofs.

(** ** Exits and movement *)

Module ExitsProofs.

Import Exits.

Lemma get_obj_some (w : World) (r : ObjRef) (o : Obj) :
  objs w !! r = Some o → get_obj r w = (Ok o, w).
Proof. unfold get_obj. by intros ->. Qed.

(** The arrival callback after a failed move, in general: with a custom
    error text the lookup of [self.caller] raises before anything is sent;
    without one the failed-traversal hook is called. *)
Lemma move_callback_failed_move
    (fw : Framework) (w : World) (self traveller target : ObjRef) (exit t : Obj) :
  objs w !! self = Some exit →
  objs w !! traveller = Some t →
  move_to_ok fw w traveller (VRef target) = false →
  move_callback fw self traveller target w =
  if truthy (db_get exit "err_traverse") then
    (Raise (AttributeError "caller"), with_events w [MoveTo traveller (VRef target) true false])
  else
    (Ok tt, with_events w [MoveTo traveller (VRef target) true false;
                           FailedTraverse self traveller]).
Proof.
  intros Hexit Ht Hmove.
  unfold move_callback, mbind, M_bind, mbind'.
  rewrite (get_obj_some _ _ _ Ht).
  unfold move_to, mbind, M_bind, mbind', gets, emit, modify, mret, M_ret, Py.mret.
  simpl. rewrite Hmove. simpl.
  unfold get_obj. simpl. rewrite Hexit.
  destruct (truthy (db_get exit "err_traverse")); simpl.
  - reflexivity.
  - unfold with_events. simpl. by rewrite <- app_assoc.
Qed.

(** C4. On the eastward path, which stores its own error text, the arrival
    callback of a move that fails raises [AttributeError] for [self.caller]:
    the text is not delivered to the traveller, and the callback does not
    complete. *)
Theorem move_callback_custom_error_raises :
  db_get (ExitSamples.path "east" 1 2 {[ "err_traverse" := VStr "The gate is barred." ]})
    "err_traverse" = VStr "The gate is barred."
  ∧ move_callback ExitSamples.blocked_fw 5 10 2 ExitSamples.world =
    (Raise (AttributeError "caller"),
     with_events ExitSamples.world [MoveTo 10 (VRef 2) true false])
  ∧ move_callback ExitSamples.blocked_fw 6 10 1 ExitSamples.world =
    (Ok tt,
     with_events ExitSamples.world [MoveTo 10 (VRef 1) true false; FailedTraverse 6 10]).
Proof.
  split; [reflexivity|]. split.
  - rewrite (move_callback_failed_move ExitSamples.blocked_fw ExitSamples.world 5 10 2
               (ExitSamples.path "east" 1 2 {[ "err_traverse" := VStr "The gate is barred." ]})
               (ExitSamples.character "Anna" (Some 5) ∅)); reflexivity.
  - rewrite (move_callback_failed_move ExitSamples.blocked_fw ExitSamples.world 6 10 1
               (ExitSamples.path "west" 2 1 ∅)
               (ExitSamples.character "Anna" (Some 5) ∅)); reflexivity.
Qed.

(** The speed report, in general: a caller without a stored speed gets no
    report, the lookup of the number 8 raises; a caller with a named speed
    gets one report with the label. *)
Lemma speed_report (w : World) (caller : ObjRef) (c : Obj) :
  objs w !! caller = Some c →
  (db_get c "move_speed" = VNone →
     CmdSpeed_func caller "" w = (Raise (KeyError "8"), w))
  ∧ (∀ speed label, db_get c "move_speed" = VStr speed → SPEED_DESCS !! speed = Some label →
       CmdSpeed_func caller "" w =
       (Ok tt, with_events w [Msg caller ("You are set to move by " +:+ label +:+ ".")])).
Proof.
  intros Hc. unfold CmdSpeed_func. simpl.
  unfold mbind, M_bind, mbind'. rewrite (get_obj_some _ _ _ Hc).
  split.
  - intros ->. reflexivity.
  - intros speed label -> Hlabel.
    assert (speed ≠ "") as Hne by (intros ->; done).
    unfold py_or, truthy. destruct (String.eqb_spec speed ""); [done|]. simpl.
    unfold dict_getitem, dict_lookup. rewrite Hlabel. reflexivity.
Qed.

(** C5. For Anna, who has no stored move-speed, [speed] without argument
    looks the number 8 up in the table of labels, which raises [KeyError]:
    no report is sent.  For Cleo, who runs, one report is sent. *)
Theorem speed_report_without_preference_raises :
  CmdSpeed_func 10 "" ExitSamples.world = (Raise (KeyError "8"), ExitSamples.world)
  ∧ dict_lookup SPEED_DESCS (VInt 8) = None
  ∧ CmdSpeed_func 12 "" ExitSamples.world =
    (Ok tt, with_events ExitSamples.world [Msg 12 "You are set to move by running."]).
Proof.
  split; [|split; [reflexivity|]].
  - apply (speed_report ExitSamples.world 10 (ExitSamples.character "Anna" (Some 5) ∅));
      reflexivity.
  - destruct (speed_report ExitSamples.world 12
                (ExitSamples.character "Cleo" (Some 5) {[ "move_speed" := VStr "run" ]})
                eq_refl) as [_ Hnamed].
    apply (Hnamed "run" "running"); reflexivity.
Qed.



Lemma at_after_traverse_ok (w : World) (self traveller r : ObjRef) :
  is_Some (objs w !! r) →
  ∃ w', at_after_traverse self traveller (VRef r) w = (Ok tt, w') ∧ trace w' = trace w.
Proof.
  intros Hr. unfold at_after_traverse, mbind, M_bind, mbind', update_obj, modify. simpl.
  unfold destination_of, mbind, M_bind, mbind', get_obj. simpl.
  assert (is_Some (alter (set_ndb "last_location" (VRef r)) traveller (objs w) !! r))
    as [o Ho].
  { rewrite lookup_alter. case_decide; [subst; by apply fmap_is_Some | done]. }
  rewrite Ho. unfold mret, M_ret, Py.mret. simpl.
  destruct (bool_decide (is_Some (destination o))); simpl; eauto.
Qed.

(** C10. For a caller standing in an exit that leads somewhere, not already
    moving: if the stored move-speed is one of the five named speeds,
    [continue] finds its label and announces the departure with it; if no
    move-speed is stored the lookup raises [KeyError], after the other
    occupants have been told and before the caller is.  The traversal of
    that same exit by that same caller, in contrast, goes at a walk, with
    a delay of 8. *)
Theorem continue_speed_lookup_has_no_fallback
    (fw : Framework) (w : World) (caller here dest : ObjRef) (c h : Obj) :
  objs w !! caller = Some c →
  location c = Some here →
  objs w !! here = Some h →
  destination h = Some dest →
  truthy (ndb_get c "currently_moving") = false →
  let names := get_display_name fw (objs w) in
  let announce :=
    MsgContents here (names caller +:+ " is going to " +:+ names dest +:+ ".") caller in
  (∀ speed, speed ∈ named_speeds → db_get c "move_speed" = VStr speed →
     ∃ label w' rest,
       SPEED_DESCS !! speed = Some label
       ∧ CmdContinue_func fw caller w = (Ok tt, w')
       ∧ trace w' = trace w ++
           announce :: Msg caller ("You begin " +:+ label +:+ " toward " +:+ names dest +:+ ".")
           :: rest)
  ∧ (db_get c "move_speed" = VNone →
       CmdContinue_func fw caller w = (Raise (KeyError "None"), with_events w [announce]))
  ∧ (db_get c "move_speed" = VNone →
     truthy (db_get h "is_path") = true →
     at_before_move fw w caller dest = true →
     dest ≠ here →
     ∃ w', at_traverse fw here caller dest w = (Ok VNone, w')
           ∧ trace w' = trace w ++
               [ Msg caller ("You start moving " +:+ key h +:+ " at a walk.");
                 Delay 8 (next_handle w) ]).
Proof.
  intros Hc Hloc Hh Hdest Hstill names announce. split_and!.
  - intros speed Hnamed Hspeed.
    assert (∃ label, SPEED_DESCS !! speed = Some label) as [label Hlabel].
    { unfold named_speeds in Hnamed.
      repeat (apply elem_of_cons in Hnamed as [->|Hnamed]); try (by eexists).
      by apply elem_of_nil in Hnamed. }
    exists label.
    unfold CmdContinue_func, mbind, M_bind, mbind'.
    rewrite (get_obj_some _ _ _ Hc), Hloc. simpl.
    unfold mbind, M_bind, mbind'. rewrite (get_obj_some _ _ _ Hh), Hdest. simpl.
    rewrite Hstill, Hspeed. simpl. unfold dict_getitem, dict_lookup. rewrite Hlabel. simpl.
    fold names.
    unfold move_to, mbind, M_bind, mbind', gets, emit, modify, mret, M_ret, Py.mret. simpl.
    match goal with
    | |- context [move_to_ok fw ?w1 caller (VRef dest)] =>
        destruct (move_to_ok fw w1 caller (VRef dest))
    end; simpl.
    + match goal with
      | |- context [at_after_traverse ?a ?b (VRef ?r) ?w2] =>
          destruct (at_after_traverse_ok w2 a b r) as (w' & Hrun & Htrace)
      end.
      { simpl. unfold update_obj, modify. simpl.
        rewrite lookup_alter. case_decide; [subst; rewrite Hc; by eexists | by rewrite Hh]. }
      rewrite Hrun. exists w'. eexists. split; [done|]. split; [done|].
      rewrite Htrace. simpl. rewrite <- !app_assoc. simpl. reflexivity.
    + eexists. eexists. split; [done|]. split; [done|].
      simpl. rewrite <- !app_assoc. simpl. reflexivity.
  - intros Hspeed.
    unfold CmdContinue_func, mbind, M_bind, mbind'.
    rewrite (get_obj_some _ _ _ Hc), Hloc. simpl.
    unfold mbind, M_bind, mbind'. rewrite (get_obj_some _ _ _ Hh), Hdest. simpl.
    rewrite Hstill, Hspeed. reflexivity.
  - intros Hspeed Hpath Hbefore Hne.
    unfold at_traverse, mbind, M_bind, mbind'.
    rewrite (get_obj_some _ _ _ Hc), Hstill. rewrite (get_obj_some _ _ _ Hh).
    unfold gets. rewrite Hbefore. simpl.
    unfold py_or at 1. rewrite Hpath. simpl. rewrite Hpath. simpl.
    rewrite (get_obj_some _ _ _ Hc), Hloc.
    rewrite bool_decide_eq_false_2 by congruence.
    rewrite Hspeed. simpl.
    rewrite bool_decide_eq_false_2 by (intros Hcontra; by apply Hcontra).
    simpl. eexists. split; [reflexivity|]. simpl. by rewrite <- !app_assoc.
Qed.

(** The theorem on the eastward path, for Cleo, who runs. *)
Lemma continue_speed_lookup_has_no_fallback_witness :
  (objs ExitSamples.world !! 12
     = Some (ExitSamples.character "Cleo" (Some 5) {[ "move_speed" := VStr "run" ]})
   ∧ objs ExitSamples.world !! 5
     = Some (ExitSamples.path "east" 1 2 {[ "err_traverse" := VStr "The gate is barred." ]}))
  ∧ ∃ w' rest,
      CmdContinue_func ExitSamples.open_fw 12 ExitSamples.world = (Ok tt, w')
      ∧ trace w' =
          MsgContents 5 "|cCleo|n is going to |yHarbor|n." 12
          :: Msg 12 "You begin running toward |yHarbor|n." :: rest.
Proof.
  split; [split; reflexivity|].
  destruct (continue_speed_lookup_has_no_fallback ExitSamples.open_fw ExitSamples.world
              12 5 2
              (ExitSamples.character "Cleo" (Some 5) {[ "move_speed" := VStr "run" ]})
              (ExitSamples.path "east" 1 2 {[ "err_traverse" := VStr "The gate is barred." ]})
              eq_refl eq_refl eq_refl eq_refl eq_refl) as [Hnamed _].
  destruct (Hnamed "run") as (label & w' & rest & Hlabel & Hrun & Htrace).
  - unfold named_speeds. set_solver.
  - reflexivity.
  - injection Hlabel as <-. exists w', rest. split; [exact Hrun | exact Htrace].
Defined.

End ExitsProofs.

(** ** The character command bundle *)

Module CmdsetsProofs.

Import Cmdsets.

Lemma bound_to_add (k : string) (c : Cmd) (cs : list Cmd) :
  bound_to k (add c cs) = if String.eqb (key c) k then 1%nat else bound_to k cs.
Proof.
  unfold bound_to, add. rewrite List.filter_app, length_app. simpl.
  destruct (String.eqb_spec (key c) k) as [<-|Hne]; simpl.
  - assert (List.filter (fun x => String.eqb (key x) (key c))
              (List.filter (fun old => negb (same_key c old)) cs) = []) as ->; [|done].
    induction cs as [|x cs IH]; simpl; [done|].
    unfold same_key at 1. destruct (String.eqb_spec (key c) (key x)) as [E|E]; simpl; [done|].
    destruct (String.eqb_spec (key x) (key c)); [congruence | done].
  - rewrite Nat.add_0_r. f_equal.
    induction cs as [|x cs IH]; simpl; [done|].
    unfold same_key at 1. destruct (String.eqb_spec (key c) (key x)) as [E|E]; simpl.
    + destruct (String.eqb_spec (key x) k); [congruence | done].
    + by rewrite IH.
Qed.

Lemma in_add_self (c : Cmd) (cs : list Cmd) : In c (add c cs).
Proof. unfold add. apply in_or_app. right. by left. Qed.

Lemma in_add_other (x c : Cmd) (cs : list Cmd) :
  same_key c x = false → In x cs → In x (add c cs).
Proof.
  intros Hkey Hin. unfold add. apply in_or_app. left.
  apply filter_In. by rewrite Hkey.
Qed.

Lemma in_add_inv (x c : Cmd) (cs : list Cmd) : In x (add c cs) → x = c ∨ In x cs.
Proof.
  unfold add. intros [Hin|[->|[]]]%in_app_or; [|by left].
  right. by apply filter_In in Hin as [Hin _].
Qed.

Lemma in_remove_inv (x c : Cmd) (cs : list Cmd) :
  In x (remove c cs) → In x cs ∧ key x ≠ key c.
Proof.
  unfold remove. intros [Hin Hkey]%filter_In. split; [done|].
  unfold same_key in Hkey. destruct (String.eqb_spec (key c) (key x)); [done | congruence].
Qed.

(** The exit module as it would be if the speed command were bound under
    the name that the bundle module imports. *)
Lemma character_bundle_when_import_resolves (u : Unseen) :
  let ns := <["CmdSetSpeed" := BCmd (Exits.exits_cmd "CmdSpeed" "speed" [])]>
              Exits.module_namespace in
  ∃ cs, load_CharacterCmdSet ns u = Ok cs
        ∧ (∀ k, k ∈ compass_keys → bound_to k cs = 1%nat)
        ∧ (∀ k, k ∈ ["stop"; "speed"; "continue"; "back"] →
             ∃ c, In c cs ∧ key c = k ∧ module_ c = "typeclasses.exits")
        ∧ (∀ c, In c cs → module_ c = "evennia.default_cmds" →
             key c ≠ "access" ∧ key c ≠ "get" ∧ key c ≠ "drop").
Proof.
  intros ns. eexists. split; [reflexivity|]. split_and!.
  - intros k Hk. unfold compass_keys in Hk.
    unfold CharacterCmdSet_at_cmdset_creation.
    repeat (apply elem_of_cons in Hk as [->|Hk]);
      try (by apply elem_of_nil in Hk);
      do 8 rewrite bound_to_add; reflexivity.
  - intros k Hk. unfold CharacterCmdSet_at_cmdset_creation.
    repeat (apply elem_of_cons in Hk as [->|Hk]); try (by apply elem_of_nil in Hk).
    + exists (Exits.exits_cmd "CmdStop" "stop" []). split; [|split; reflexivity].
      do 11 (apply in_add_other; [reflexivity|]). apply in_add_self.
    + exists (Exits.exits_cmd "CmdSpeed" "speed" []). split; [|split; reflexivity].
      do 10 (apply in_add_other; [reflexivity|]). apply in_add_self.
    + exists (Exits.exits_cmd "CmdContinue" "continue" ["move"; "go"]).
      split; [|split; reflexivity].
      do 9 (apply in_add_other; [reflexivity|]). apply in_add_self.
    + exists (Exits.exits_cmd "CmdBack" "back" ["return"; "u-turn"]).
      split; [|split; reflexivity].
      do 8 (apply in_add_other; [reflexivity|]). apply in_add_self.
  - intros c Hin Hmod. unfold CharacterCmdSet_at_cmdset_creation in Hin.
    repeat (apply in_add_inv in Hin as [->|Hin]; [simpl in Hmod; discriminate|]).
    apply in_remove_inv in Hin as [Hin Hdrop].
    apply in_remove_inv in Hin as [Hin Hget].
    apply in_remove_inv in Hin as [Hin Haccess].
    done.
Qed.


End CmdsetsProofs.

(** ** The worker-pool plugin *)

Module ProcpoolProofs.

Import Procpool.

(** C9. With the module's constants the plugin prints its banner and
    registers one service, named PythonProcPool, on port 5001 and interface
    0.0.0.0, whose pool is built with min=5, max=20, recycleAfter=500 and
    timeout=15 (besides its name, child class and starter); neither the pool
    nor the starter nor the service gets an argument for the idle-prune
    time, and what the plugin does is the same for every value of
    [PROCPOOL_IDLETIME]. *)
Theorem pool_parameters_without_idletime (e : Env) :
  (∃ starter,
     start_plugin_services module_config e =
     [ Print "  amp (Process Pool): 5001";
       AddService
         {| service :=
              AObj "ampoule_service.AMPouleService"
                [ AObj "ampoule_pool.ProcessPool" []
                    [ ("name", AStr "PythonProcPool");
                      ("min", AInt 5);
                      ("max", AInt 20);
                      ("recycleAfter", AInt 500);
                      ("timeout", AInt 15);
                      ("ampChild", AClass "PythonProcPoolChild");
                      ("starter", starter) ];
                  AClass "PythonProcPoolChild"; AInt 5001; AStr "0.0.0.0" ] [];
            service_name := "PythonProcPool" |} ]
     ∧ args_of starter = []
     ∧ (kwargs_of starter).*1 =
         ["packages"; "env"; "path"; "uid"; "gid"; "bootstrap"; "childReactor"])
  ∧ PROCPOOL_IDLETIME module_config = 20
  ∧ ∀ (cfg : Config) (v : Z),
      start_plugin_services (with_idletime v cfg) e = start_plugin_services cfg e.
Proof.
  split_and!.
  - eexists. split_and!; reflexivity.
  - reflexivity.
  - intros cfg v. reflexivity.
Qed.

End ProcpoolProofs.

(** ** The login screen *)

Module LoginProofs.

Import Prelogin Login.

(** *** The throttle, call after call *)

Lemma throttle_check (session : Session) (maxlim timeout now now' : Z)
    (storage : gmap string (list Z)) :
  maxlim ≠ 0 → timeout ≠ 0 →
  let l := fails storage (address_key session) in
  ∃ storage',
    _throttle session (Some maxlim) (Some timeout) now now' storage
    = Ok (over_limit maxlim timeout now l, storage')
    ∧ fails storage' (address_key session) =
        (if over_limit maxlim timeout now l then l
         else if maxlim <=? Z.of_nat (length l) then [] else l)
    ∧ ∀ a, a ≠ address_key session → fails storage' a = fails storage a.
Proof.
  intros Hmax Htime l. unfold _throttle, truthy_int, over_limit.
  destruct (Z.eqb_spec maxlim 0) as [|_]; [done|].
  destruct (Z.eqb_spec timeout 0) as [|_]; [done|]. simpl.
  destruct (PreloginProofs.fails_getitem storage (address_key session)) as [Hl Hrest].
  destruct (getitem storage (address_key session)) as [latest_fails storage0].
  simpl in *. fold l in Hl. subst latest_fails.
  destruct (last l) as [newest|] eqn:Hlast.
  - assert (l ≠ []) as Hne.
    { intros E. apply (f_equal last) in E. rewrite Hlast in E. done. }
    rewrite (bool_decide_eq_true_2 _ Hne). simpl.
    destruct (maxlim <=? Z.of_nat (length l)); simpl.
    + destruct (now - newest <? timeout).
      * exists storage0. split_and!; [done | by rewrite Hrest | intros; by rewrite Hrest].
      * eexists. split_and!; [done | |].
        -- unfold fails. by rewrite lookup_insert_eq.
        -- intros a Ha. unfold fails at 1. rewrite lookup_insert_ne by done. apply Hrest.
    + exists storage0. split_and!; [done | by rewrite Hrest | intros; by rewrite Hrest].
  - apply last_None in Hlast. rewrite Hlast. simpl.
    exists storage0. split_and!.
    + done.
    + rewrite Hrest. fold l. rewrite Hlast. simpl. by destruct (maxlim <=? _).
    + intros a _. apply Hrest.
Qed.

Lemma throttle_records_reading (session : Session) (now now' : Z)
    (storage : gmap string (list Z)) :
  ∃ storage',
    _throttle session None None now now' storage = Ok (false, storage')
    ∧ fails storage' (address_key session) = fails storage (address_key session) ++ [now']
    ∧ ∀ a, a ≠ address_key session → fails storage' a = fails storage a.
Proof.
  unfold _throttle. simpl.
  destruct (PreloginProofs.fails_getitem storage (address_key session)) as [Hl Hrest].
  destruct (getitem storage (address_key session)) as [latest_fails storage0].
  simpl in *. eexists. split_and!; [done | |].
  - unfold fails at 1. rewrite lookup_insert_eq. simpl. by rewrite Hl.
  - intros a Ha. unfold fails at 1. rewrite lookup_insert_ne by done. apply Hrest.
Qed.

Lemma record_failures_fails (session : Session) (times : list Z)
    (storage : gmap string (list Z)) :
  fails (record_failures session times storage) (address_key session)
  = fails storage (address_key session) ++ times
  ∧ ∀ a, a ≠ address_key session →
      fails (record_failures session times storage) a = fails storage a.
Proof.
  revert storage. induction times as [|t times IH]; intros storage; simpl.
  - by rewrite app_nil_r.
  - destruct (throttle_records_reading session t t storage) as (storage' & -> & Hl & Hrest).
    destruct (IH storage') as [IHl IHrest]. split.
    + rewrite IHl, Hl. by rewrite <- app_assoc.
    + intros a Ha. rewrite IHrest by done. by apply Hrest.
Qed.

(** After failed logins at the readings [times], starting from any table,
    the next check of that address says "throttled" exactly when the
    address has [maxlim] or more fails on record, old and new, and the
    newest is less than [timeout] before [now]; the fails of every other
    address are what they were. *)
Theorem lockout_after_failures (session : Session) (maxlim timeout now : Z)
    (times : list Z) (storage : gmap string (list Z)) :
  maxlim ≠ 0 → timeout ≠ 0 →
  let record := fails storage (address_key session) ++ times in
  ∃ b storage',
    _throttle session (Some maxlim) (Some timeout) now now
      (record_failures session times storage) = Ok (b, storage')
    ∧ (b = true ↔ maxlim ≤ Z.of_nat (length record)
                  ∧ ∃ newest, last record = Some newest ∧ now - newest < timeout)
    ∧ ∀ a, a ≠ address_key session → fails storage' a = fails storage a.
Proof.
  intros Hmax Htime record.
  destruct (record_failures_fails session times storage) as [Hl Hrest].
  destruct (throttle_check session maxlim timeout now now
              (record_failures session times storage) Hmax Htime)
    as (storage' & Hrun & _ & Hother).
  rewrite Hl in Hrun. fold record in Hrun.
  eexists _, storage'. split; [exact Hrun|]. split.
  - unfold over_limit. destruct (last record) as [newest|].
    + rewrite andb_true_iff, Z.leb_le, Z.ltb_lt. split.
      * intros [? ?]. eauto.
      * intros (? & t & [= <-] & ?). done.
    + split; [done|]. intros (_ & t & ? & _). done.
  - intros a Ha. rewrite Hother by done. by apply Hrest.
Qed.

(** The theorem for five failures, the last one 60 seconds ago. *)
Lemma lockout_after_failures_witness :
  (5 ≠ 0 ∧ 300 ≠ 0)
  ∧ ∃ storage',
      _throttle LoginSamples.session0 (Some 5) (Some 300) 1100 1100
        (record_failures LoginSamples.session0 [1000; 1010; 1020; 1030; 1040] ∅)
      = Ok (true, storage').
Proof.
  split; [split; lia|].
  destruct (lockout_after_failures LoginSamples.session0 5 300 1100
              [1000; 1010; 1020; 1030; 1040] ∅) as (b & storage' & Hrun & Hiff & _);
    [lia | lia |].
  assert (b = true) as ->.
  { apply Hiff. split; [vm_compute; discriminate|]. exists 1040. split; [reflexivity|lia]. }
  by exists storage'.
Defined.

(** *** [create_normal_account] *)

Lemma throttle_on_server (session : Session) (maxlim timeout : option Z) (now now' : Z)
    (sv : Server) (b : bool) (storage' : gmap string (list Z)) :
  _throttle session maxlim timeout now now' (failed_logins sv) = Ok (b, storage') →
  throttle session maxlim timeout now now' sv =
  (Ok b, {| session_state := session_state sv; failed_logins := storage'; hooks := hooks sv |}).
Proof. unfold throttle. by intros ->. Qed.

Lemma over_limit_check (session : Session) (now : Z) (sv : Server) :
  over_limit 5 300 now (fails (failed_logins sv) (address_key session)) = true →
  throttle session (Some 5) (Some (5 * 60)) now now sv =
  (Ok true,
   {| session_state := session_state sv; failed_logins := failed_logins sv;
      hooks := hooks sv |}).
Proof.
  intros Hover.
  destruct (throttle_check session 5 (5 * 60) now now (failed_logins sv))
    as (storage' & Hrun & _ & _); [done | done |].
  change (5 * 60) with 300 in Hrun at 2. rewrite Hover in Hrun.
  assert (storage' = failed_logins sv) as ->.
  { unfold _throttle in Hrun. simpl in Hrun.
    pose proof (PreloginProofs.getitem_throttled_same (failed_logins sv)
                  (address_key session)) as Hsame.
    destruct (getitem (failed_logins sv) (address_key session)) as [l storage0].
    simpl in Hsame.
    destruct (bool_decide (l ≠ [])) eqn:Hne; simpl in Hrun; [|done].
    apply bool_decide_eq_true in Hne. specialize (Hsame Hne). subst storage0.
    destruct (5 <=? Z.of_nat (length l)); [|done].
    destruct (last l); [|done]. destruct (_ <? _); congruence. }
  by apply throttle_on_server.
Qed.

(** While the address is over the limit, a login attempt is turned away
    before the credentials are looked at: whatever name and password are
    given, right or wrong, no account is returned, the session is told to
    try again later, and nothing else happens: no failure is recorded, no
    hook is called, the table of fails is as before. *)
Theorem throttled_login_is_refused
    (auth : Auth) (session : Session) (name password : string)
    (t_check t_now t_fail : Z) (sv : Server) :
  over_limit 5 300 t_check (fails (failed_logins sv) (address_key session)) = true →
  create_normal_account auth session name password t_check t_now t_fail sv =
  (Ok None,
   {| session_state := with_trace (session_state sv) [SessionMsg too_many_attempts];
      failed_logins := failed_logins sv;
      hooks := hooks sv |}).
Proof.
  intros Hover. unfold create_normal_account, mbind, M_bind, mbind'.
  rewrite (over_limit_check session t_check sv Hover).
  reflexivity.
Qed.

(** The theorem for Anna, with her right password, after five failures. *)
Lemma throttled_login_is_refused_witness :
  over_limit 5 300 1100
    (fails (failed_logins LoginSamples.locked) (address_key LoginSamples.session0)) = true
  ∧ authenticate LoginSamples.auth (AccountDB LoginSamples.database) "Anna" "c67jHL8p"
    = Some LoginSamples.anna
  ∧ create_normal_account LoginSamples.auth LoginSamples.session0 "Anna" "c67jHL8p"
      1100 1100 1100 LoginSamples.locked =
    (Ok None,
     {| session_state := with_trace LoginSamples.database [SessionMsg too_many_attempts];
        failed_logins := failed_logins LoginSamples.locked;
        hooks := [] |}).
Proof.
  split; [reflexivity|]. split; [reflexivity|].
  apply (throttled_login_is_refused LoginSamples.auth LoginSamples.session0
           "Anna" "c67jHL8p" 1100 1100 1100 LoginSamples.locked).
  reflexivity.
Defined.

Lemma not_over_limit_check (session : Session) (now : Z) (sv : Server) :
  over_limit 5 300 now (fails (failed_logins sv) (address_key session)) = false →
  let l := fails (failed_logins sv) (address_key session) in
  ∃ storage',
    throttle session (Some 5) (Some (5 * 60)) now now sv =
    (Ok false,
     {| session_state := session_state sv; failed_logins := storage'; hooks := hooks sv |})
    ∧ fails storage' (address_key session) = (if 5 <=? Z.of_nat (length l) then [] else l)
    ∧ ∀ a, a ≠ address_key session → fails storage' a = fails (failed_logins sv) a.
Proof.
  intros Hover l.
  destruct (throttle_check session 5 (5 * 60) now now (failed_logins sv))
    as (storage' & Hrun & Hl & Hrest); [done | done |].
  change (5 * 60) with 300 in Hrun at 2. change (5 * 60) with 300 in Hl.
  rewrite Hover in Hrun, Hl.
  exists storage'. split; [by apply throttle_on_server | done].
Qed.

(** A login attempt that is not throttled and whose credentials do not
    match records exactly one failure for the address, the second clock
    reading, after the list that the check left (emptied if it held five
    stale entries); the session is told that the login information is
    incorrect, without saying which part; the failed-login hook is called
    exactly if an account of that name exists; no account is returned and
    the fails of other addresses stay as they are. *)
Theorem failed_login_is_recorded
    (auth : Auth) (session : Session) (name password : string)
    (t_check t_now t_fail : Z) (sv : Server) :
  over_limit 5 300 t_check (fails (failed_logins sv) (address_key session)) = false →
  authenticate auth (AccountDB (session_state sv)) name password = None →
  let l := fails (failed_logins sv) (address_key session) in
  ∃ storage',
    create_normal_account auth session name password t_check t_now t_fail sv =
    (Ok None,
     {| session_state :=
          with_trace (session_state sv) [SessionMsg "Incorrect login information given."];
        failed_logins := storage';
        hooks := hooks sv ++
                 match get_account_from_name auth (AccountDB (session_state sv)) name with
                 | Some account => [AtFailedLogin (acc_id account)]
                 | None => []
                 end |})
    ∧ fails storage' (address_key session) =
        (if 5 <=? Z.of_nat (length l) then [] else l) ++ [t_fail]
    ∧ ∀ a, a ≠ address_key session → fails storage' a = fails (failed_logins sv) a.
Proof.
  intros Hover Hauth l. unfold create_normal_account.
  destruct (not_over_limit_check session t_check sv Hover) as (storage1 & Hcheck & Hl1 & Hrest1).
  destruct (throttle_records_reading session t_now t_fail storage1)
    as (storage2 & Hrec & Hl2 & Hrest2).
  exists storage2. split_and!.
  - unfold mbind, M_bind, mbind'. rewrite Hcheck. unfold gets. simpl. rewrite Hauth.
    unfold say, on_session, emit, modify. simpl.
    unfold throttle. simpl. rewrite Hrec. simpl.
    destruct (get_account_from_name auth (AccountDB (session_state sv)) name); simpl.
    + reflexivity.
    + by rewrite app_nil_r.
  - by rewrite Hl2, Hl1.
  - intros a Ha. rewrite Hrest2 by done. by apply Hrest1.
Qed.

(** The theorem for a wrong password for Anna. *)
Lemma failed_login_is_recorded_witness :
  ∃ storage',
    create_normal_account LoginSamples.auth LoginSamples.session0 "anna" "guess"
      1000 1001 1002 LoginSamples.quiet =
    (Ok None,
     {| session_state :=
          with_trace LoginSamples.database [SessionMsg "Incorrect login information given."];
        failed_logins := storage';
        hooks := [AtFailedLogin 7] |})
    ∧ fails storage' "10.0.0.7" = [1002].
Proof.
  destruct (failed_login_is_recorded LoginSamples.auth LoginSamples.session0 "anna" "guess"
              1000 1001 1002 LoginSamples.quiet eq_refl eq_refl)
    as (storage' & Hrun & Hfails & _).
  exists storage'. split; [exact Hrun | exact Hfails].
Defined.



(** The clock readings that a run of attempts records when each fails. *)
Lemma failed_attempts_accumulate (auth : Auth) (session : Session) (tries : list Attempt)
    (sv : Server) :
  (Z.of_nat (length (fails (failed_logins sv) (address_key session)))
   + Z.of_nat (length tries) ≤ 5) →
  (∀ name password clock, (name, password, clock) ∈ tries →
     authenticate auth (AccountDB (session_state sv)) name password = None) →
  ∃ sv',
    login_attempts auth session tries sv = (Ok tt, sv')
    ∧ AccountDB (session_state sv') = AccountDB (session_state sv)
    ∧ fails (failed_logins sv') (address_key session)
      = fails (failed_logins sv) (address_key session)
        ++ ((fun try : Attempt => try.2.2) <$> tries).
Proof.
  revert sv. induction tries as [|[[name password] [[t_check t_now] t_fail]] tries IH];
    intros sv Hlen Hauth.
  - exists sv. simpl. by rewrite app_nil_r.
  - simpl in Hlen.
    set (l := fails (failed_logins sv) (address_key session)) in *.
    assert (over_limit 5 300 t_check l = false) as Hover.
    { unfold over_limit. destruct (last l); [|done].
      destruct (Z.leb_spec 5 (Z.of_nat (length l))); [lia | done]. }
    destruct (not_over_limit_check session t_check sv Hover)
      as (storage1 & Hcheck & Hl1 & Hrest1).
    destruct (throttle_records_reading session t_now t_fail storage1)
      as (storage2 & Hrec & Hl2 & _).
    fold l in Hl1. destruct (Z.leb_spec 5 (Z.of_nat (length l))) as [|_]; [lia|].
    assert (authenticate auth (AccountDB (session_state sv)) name password = None) as Hnone.
    { apply (Hauth name password (t_check, t_now, t_fail)). left. }
    match type of Hrec with
    | _ = Ok (_, ?st2) =>
        destruct (IH {| session_state :=
                          with_trace (session_state sv)
                            [SessionMsg "Incorrect login information given."];
                        failed_logins := st2;
                        hooks := hooks sv ++
                          match get_account_from_name auth (AccountDB (session_state sv)) name
                          with
                          | Some account => [AtFailedLogin (acc_id account)]
                          | None => []
                          end |})
          as (sv' & Hrun & Hdb & Hfails)
    end.
    + simpl. rewrite Hl2, Hl1, length_app. simpl. lia.
    + intros n p c Hin. simpl. apply (Hauth n p c). by right.
    + exists sv'. split_and!.
      * simpl. unfold create_normal_account, mbind, M_bind, mbind'.
        rewrite Hcheck. unfold gets. simpl. rewrite Hnone.
        unfold say, on_session, emit, modify. simpl.
        unfold throttle. simpl. rewrite Hrec. simpl.
        destruct (get_account_from_name auth (AccountDB (session_state sv)) name); simpl.
        -- exact Hrun.
        -- rewrite app_nil_r in Hrun. exact Hrun.
      * by rewrite Hdb.
      * rewrite Hfails. simpl. rewrite Hl2, Hl1. by rewrite <- app_assoc.
Qed.

(** Failed attempts that bring the address's record to five lock the
    session out: if the last of them was less than 300 seconds before the
    check of the next attempt, that attempt is refused whatever name and
    password it carries, and is itself not recorded. *)
Theorem five_failures_lock_out
    (auth : Auth) (session : Session) (tries : list Attempt) (sv : Server)
    (name password : string) (t_check t_now t_fail newest : Z) :
  (length (fails (failed_logins sv) (address_key session)) + length tries = 5)%nat →
  (∀ n p clock, (n, p, clock) ∈ tries →
     authenticate auth (AccountDB (session_state sv)) n p = None) →
  last ((fun try : Attempt => try.2.2) <$> tries) = Some newest →
  t_check - newest < 300 →
  ∃ sv5,
    login_attempts auth session tries sv = (Ok tt, sv5)
    ∧ create_normal_account auth session name password t_check t_now t_fail sv5 =
      (Ok None,
       {| session_state := with_trace (session_state sv5) [SessionMsg too_many_attempts];
          failed_logins := failed_logins sv5;
          hooks := hooks sv5 |}).
Proof.
  intros Hlen Hauth Hlast Hrecent.
  destruct (failed_attempts_accumulate auth session tries sv) as (sv5 & Hrun & _ & Hfails);
    [lia | done |].
  exists sv5. split; [done|].
  assert (over_limit 5 300 t_check (fails (failed_logins sv5) (address_key session)) = true)
    as Hover.
  { rewrite Hfails. unfold over_limit.
    rewrite last_app, Hlast. rewrite length_app, length_fmap.
    apply andb_true_iff. split; [apply Z.leb_le; lia | apply Z.ltb_lt; lia]. }
  unfold create_normal_account, mbind, M_bind, mbind'.
  rewrite (over_limit_check session t_check sv5 Hover).
  reflexivity.
Qed.

(** The theorem for five guesses at Anna's password and then the right
    password, 60 seconds after the last guess. *)
Lemma five_failures_lock_out_witness :
  ∃ sv5,
    login_attempts LoginSamples.auth LoginSamples.session0 LoginSamples.guesses
      LoginSamples.quiet = (Ok tt, sv5)
    ∧ create_normal_account LoginSamples.auth LoginSamples.session0 "Anna" "c67jHL8p"
        1100 1100 1100 sv5 =
      (Ok None,
       {| session_state := with_trace (session_state sv5) [SessionMsg too_many_attempts];
          failed_logins := failed_logins sv5;
          hooks := hooks sv5 |}).
Proof.
  apply (five_failures_lock_out LoginSamples.auth LoginSamples.session0 LoginSamples.guesses
           LoginSamples.quiet "Anna" "c67jHL8p" 1100 1100 1100 1040).
  - reflexivity.
  - intros n p clock Hin. unfold LoginSamples.guesses in Hin.
    repeat (apply elem_of_cons in Hin as [[= -> -> ->]|Hin]; [reflexivity|]).
    by apply elem_of_nil in Hin.
  - reflexivity.
  - lia.
Defined.

(** *** Screen reader and encoding *)

Lemma strip_unchanged (s : string) : lstrip s = s → ends_solid s → strip s = s.
Proof. intros Hl [Hr _]. unfold strip. by rewrite Hl. Qed.

(** Flipping the screen-reader mode twice ends with the flag that says what
    the setting was worth before (an unset flag counts as off, so the first
    flip of a new session turns the mode on); every other flag keeps its
    value, and each flip is reported and followed by one synchronisation. *)
Theorem screenreader_flips_back (self : Command) (s : Session) (st : State) :
  session self = Some s →
  let was := truthy_flag (protocol_flags st !! "SCREENREADER") in
  ∃ st1 st2,
    CmdUnconnectedScreenreader_func self st = (Ok tt, st1)
    ∧ CmdUnconnectedScreenreader_func self st1 = (Ok tt, st2)
    ∧ protocol_flags st1 !! "SCREENREADER" = Some (FBool (negb was))
    ∧ protocol_flags st2 !! "SCREENREADER" = Some (FBool was)
    ∧ (∀ k, k ≠ "SCREENREADER" → protocol_flags st2 !! k = protocol_flags st !! k)
    ∧ trace st2 = trace st ++
        [ SessionMsg ("Screenreader mode turned |w" +:+ (if was then "off" else "on") +:+ "|n.");
          PortalSync;
          SessionMsg ("Screenreader mode turned |w" +:+ (if was then "on" else "off") +:+ "|n.");
          PortalSync ].
Proof.
  intros Hsession was. unfold CmdUnconnectedScreenreader_func. rewrite Hsession.
  unfold mbind, M_bind, mbind', gets, set_flag, emit, modify.
  eexists _, _. split; [reflexivity|].
  cbn [protocol_flags AccountDB ObjectDB trace]. rewrite !lookup_insert_eq.
  cbn [truthy_flag]. fold was. rewrite negb_involutive.
  split; [reflexivity|]. split; [done|].
  cbn [protocol_flags trace]. split; [by rewrite lookup_insert_eq|]. split.
  - intros k Hk. by rewrite !lookup_insert_ne.
  - rewrite <- !app_assoc. simpl. by destruct was.
Qed.

(** The theorem for a session that has not touched the mode yet. *)
Lemma screenreader_flips_back_witness :
  ∃ st2,
    (CmdUnconnectedScreenreader_func Samples.encoding_latin1
       ≫= fun _ => CmdUnconnectedScreenreader_func Samples.encoding_latin1) Samples.one_guest
    = (Ok tt, st2)
    ∧ protocol_flags st2 !! "SCREENREADER" = Some (FBool false).
Proof.
  destruct (screenreader_flips_back Samples.encoding_latin1 Samples.session0
              Samples.one_guest eq_refl)
    as (st1 & st2 & H1 & H2 & _ & Hflag & _).
  exists st2. split; [|exact Hflag].
  unfold mbind, M_bind, mbind'. by rewrite H1.
Defined.

(** A second [clear] in a row never says that no custom encoding was set:
    the first one stores utf-8 as the encoding, and the second one reports
    that very value as the custom encoding it cleared.  The flags are the
    same after both. *)
Theorem clear_twice_reports_utf8 (fw : Framework) (settings : Settings)
    (self : Command) (s : Session) (st : State) :
  session self = Some s →
  "clear" ∈ switches self →
  ∃ st1 text,
    CmdUnconnectedEncoding_func fw settings self st = (Ok tt, st1)
    ∧ protocol_flags st1 = <["ENCODING" := FStr "utf-8"]> (protocol_flags st)
    ∧ trace st1 = trace st ++ [PortalSync; SessionMsg text]
    ∧ CmdUnconnectedEncoding_func fw settings self st1 =
      (Ok tt,
       with_trace st1
         [PortalSync; SessionMsg "Your custom text encoding ('utf-8') was cleared."]).
Proof.
  intros Hsession Hclear. unfold CmdUnconnectedEncoding_func. rewrite Hsession.
  rewrite (bool_decide_eq_true_2 _ Hclear).
  unfold mbind, M_bind, mbind', gets, set_flag, emit, modify, mret, M_ret, Py.mret. simpl.
  eexists _, _. split; [reflexivity|]. simpl. split; [done|]. split.
  - rewrite <- app_assoc. reflexivity.
  - rewrite lookup_insert_eq. simpl. rewrite insert_insert_eq.
    unfold with_trace. simpl. rewrite <- !app_assoc. reflexivity.
Qed.

(** The theorem for [encoding/clear], typed twice. *)
Lemma clear_twice_reports_utf8_witness :
  ∃ st1 text,
    CmdUnconnectedEncoding_func Samples.host Samples.settings LoginSamples.encoding_clear
      Samples.one_guest = (Ok tt, st1)
    ∧ trace st1 = [PortalSync; SessionMsg text]
    ∧ CmdUnconnectedEncoding_func Samples.host Samples.settings LoginSamples.encoding_clear st1
      = (Ok tt,
         with_trace st1
           [PortalSync; SessionMsg "Your custom text encoding ('utf-8') was cleared."]).
Proof.
  destruct (clear_twice_reports_utf8 Samples.host Samples.settings
              LoginSamples.encoding_clear Samples.session0 Samples.one_guest eq_refl)
    as (st1 & text & H1 & _ & Htrace & H2).
  - simpl. set_solver.
  - exists st1, text. split; [exact H1|]. split; [exact Htrace | exact H2].
Defined.

Lemma encoding_accepted (fw : Framework) (settings : Settings) (self : Command)
    (s : Session) (st : State) :
  session self = Some s → "clear" ∉ switches self → args self ≠ "" →
  codec_known fw (args self) = true →
  CmdUnconnectedEncoding_func fw settings self st =
  (Ok tt,
   with_encoding st (args self)
     [ PortalSync;
       SessionMsg ("Your custom text encoding was changed from '|w"
                   +:+ fmt_flag (protocol_flags st !! "ENCODING")
                   +:+ "|n' to '|w" +:+ args self +:+ "|n'.") ]).
Proof.
  intros Hs Hnoclear Harg Hcodec. unfold CmdUnconnectedEncoding_func. rewrite Hs.
  rewrite (bool_decide_eq_false_2 _ Hnoclear).
  destruct (String.eqb_spec (args self) "") as [|_]; [done|].
  unfold mbind, M_bind, mbind', gets, try_except, to_str_test, mret, M_ret, Py.mret.
  simpl. rewrite Hcodec. simpl.
  unfold emit, set_flag, modify, with_encoding. simpl.
  rewrite PyProofs.strip_solid; [|done|].
  - by rewrite <- app_assoc.
  - repeat apply PyProofs.ends_solid_append. done.
Qed.

Lemma encoding_listed (fw : Framework) (settings : Settings) (self : Command)
    (s : Session) (st : State) (encoding : string) :
  session self = Some s → "clear" ∉ switches self → args self = "" →
  protocol_flags st !! "ENCODING" = Some (FStr encoding) → encoding ≠ "" →
  CmdUnconnectedEncoding_func fw settings self st =
  (Ok tt,
   with_trace st
     [ SessionMsg
         (let shown := "Default encoding: |g" +:+ encoding
                       +:+ "|n (change with |w@encoding <encoding>|n)" in
          if bool_decide (ENCODINGS settings ≠ []) then
            shown +:+ nl +:+ "Server's alternative encodings (tested in this order):"
                  +:+ nl +:+ "   |g" +:+ join ", " (ENCODINGS settings) +:+ "|n"
          else shown) ]).
Proof.
  intros Hs Hnoclear Harg Hflag Hne. unfold CmdUnconnectedEncoding_func. rewrite Hs.
  rewrite (bool_decide_eq_false_2 _ Hnoclear), Harg.
  change (String.eqb "" "") with true. cbv beta iota.
  unfold mbind, M_bind, mbind', gets, mret, M_ret, Py.mret. rewrite Hflag.
  cbn [truthy_flag fmt_flag]. destruct (String.eqb_spec encoding "") as [|_]; [done|].
  cbn [negb]. change ("" +:+ ?x) with x.
  unfold emit, modify, with_trace. cbv zeta.
  destruct (bool_decide (ENCODINGS settings ≠ [])).
  - match goal with
    | |- context [String.eqb ?m ""] => change (String.eqb m "") with false
    end.
    cbv beta iota.
    match goal with
    | |- context [strip ?m] =>
        rewrite (strip_unchanged m);
          [| reflexivity | repeat apply PyProofs.ends_solid_append; done]
    end.
    reflexivity.
  - match goal with
    | |- context [String.eqb ?m ""] => change (String.eqb m "") with false
    end.
    cbv beta iota.
    match goal with
    | |- context [strip ?m] =>
        rewrite (strip_unchanged m);
          [| reflexivity | repeat apply PyProofs.ends_solid_append; done]
    end.
    reflexivity.
Qed.

(** After an encoding has been accepted, [encoding] without argument shows
    it as the session's encoding, followed by the server's list if there is
    one; showing changes no flag and triggers no synchronisation. *)
Theorem accepted_encoding_is_listed (fw : Framework) (settings : Settings)
    (change list_ : Command) (s s' : Session) (st : State) :
  session change = Some s → "clear" ∉ switches change → args change ≠ "" →
  codec_known fw (args change) = true →
  session list_ = Some s' → "clear" ∉ switches list_ → args list_ = "" →
  ∃ st1,
    CmdUnconnectedEncoding_func fw settings change st = (Ok tt, st1)
    ∧ CmdUnconnectedEncoding_func fw settings list_ st1 =
      (Ok tt,
       with_trace st1
         [ SessionMsg
             (let shown := "Default encoding: |g" +:+ args change
                           +:+ "|n (change with |w@encoding <encoding>|n)" in
              if bool_decide (ENCODINGS settings ≠ []) then
                shown +:+ nl +:+ "Server's alternative encodings (tested in this order):"
                      +:+ nl +:+ "   |g" +:+ join ", " (ENCODINGS settings) +:+ "|n"
              else shown) ]).
Proof.
  intros Hs Hnoclear Harg Hcodec Hs' Hnoclear' Harg'.
  eexists. split; [by apply (encoding_accepted fw settings change s)|].
  apply (encoding_listed fw settings list_ s'); try done.
  unfold with_encoding. cbn [protocol_flags]. apply lookup_insert_eq.
Qed.

(** The theorem for [encoding latin-1] followed by [encoding]. *)
Lemma accepted_encoding_is_listed_witness :
  ∃ st1,
    CmdUnconnectedEncoding_func Samples.host Samples.settings Samples.encoding_latin1
      Samples.one_guest = (Ok tt, st1)
    ∧ CmdUnconnectedEncoding_func Samples.host Samples.settings LoginSamples.encoding_show st1 =
      (Ok tt,
       with_trace st1
         [ SessionMsg
             (("Default encoding: |glatin-1|n (change with |w@encoding <encoding>|n)"
               +:+ nl +:+ "Server's alternative encodings (tested in this order):")
              +:+ nl +:+ "   |gutf-8, latin-1, ISO-8859-1|n") ]).
Proof.
  destruct (accepted_encoding_is_listed Samples.host Samples.settings
              Samples.encoding_latin1 LoginSamples.encoding_show
              Samples.session0 Samples.session0 Samples.one_guest)
    as (st1 & H1 & H2); try reflexivity.
  - simpl. set_solver.
  - discriminate.
  - simpl. set_solver.
  - exists st1. split; [exact H1 | exact H2].
Defined.

(** *** Account and character provisioning *)

Lemma find_append_some {A} (p : A → bool) (l1 l2 : list A) (a : A) :
  List.find p l1 = Some a → List.find p (l1 ++ l2) = Some a.
Proof.
  induction l1 as [|x l1 IH]; simpl; [done|].
  destruct (p x); [done | apply IH].
Qed.

Lemma find_account_above (db : list Account) (k : Z) :
  (∀ i, i ∈ acc_id <$> db → i < k) → List.find (fun x => acc_id x =? k) db = None.
Proof.
  induction db as [|a db IH]; simpl; [done|].
  intros H. destruct (Z.eqb_spec (acc_id a) k) as [E|_].
  - assert (acc_id a < k) by (apply H; simpl; left). lia.
  - apply IH. intros i Hi. apply H. simpl. by right.
Qed.

Lemma find_account_updated (db : list Account) (pid p : Z) (f : Account → Account) :
  (∀ a, acc_id (f a) = acc_id a) →
  List.find (fun x => acc_id x =? p) (map (fun a => if acc_id a =? pid then f a else a) db)
  = (fun a => if acc_id a =? pid then f a else a) <$> List.find (fun x => acc_id x =? p) db.
Proof.
  intros Hf. induction db as [|a db IH]; simpl; [done|].
  destruct (acc_id a =? pid) eqn:E.
  - rewrite Hf. destruct (acc_id a =? p); [simpl; by rewrite E | exact IH].
  - destruct (acc_id a =? p); [simpl; by rewrite E | exact IH].
Qed.

Lemma create_account_refused (fw : Framework) (accountname password : string)
    (permissions : list string) (typeclass email : option string) (st : State) (e : Exn) :
  create_account fw st accountname email password permissions typeclass = Raise e →
  _create_account fw accountname password permissions typeclass email st =
  (Ok None,
   with_trace st
     [ SessionMsg ("There was an error creating the Account:" +:+ nl +:+ exn_message e
                   +:+ nl +:+ " If this problem persists, contact an admin.");
       LogTrace ]).
Proof.
  intros Hrow. unfold _create_account, mbind, M_bind, mbind', try_except. rewrite Hrow.
  unfold emit, modify, with_trace, mret, M_ret, Py.mret. simpl. by rewrite <- app_assoc.
Qed.

(** What creating an account leaves behind.  If the framework refuses, the
    helper returns no account, tells the session why and logs the trace,
    and the tables are untouched.  If the framework delivers, the account
    is stored under the next free id with its first-login mark set, all
    other accounts and all objects are as before, and the id is returned
    also when the public channel could not be joined: that only writes a
    line to the error log. *)
Theorem create_account_outcome (fw : Framework) (accountname password : string)
    (permissions : list string) (typeclass email : option string) (st : State) :
  let pid := fresh_id (acc_id <$> AccountDB st) in
  match create_account fw st accountname email password permissions typeclass with
  | Raise e =>
      _create_account fw accountname password permissions typeclass email st =
      (Ok None,
       with_trace st
         [ SessionMsg ("There was an error creating the Account:" +:+ nl +:+ exn_message e
                       +:+ nl +:+ " If this problem persists, contact an admin.");
           LogTrace ])
  | Ok row =>
      let new_account := set_acc_id pid row in
      ∃ st',
        _create_account fw accountname password permissions typeclass email st
        = (Ok (Some pid), st')
        ∧ find_account pid st = None
        ∧ find_account pid st' = Some (set_FIRST_LOGIN true new_account)
        ∧ (∀ p, p ≠ pid → find_account p st' = find_account p st)
        ∧ ObjectDB st' = ObjectDB st
        ∧ trace st' = trace st ++
            (if channel_connect fw new_account then []
             else [LogErr ("New account '" +:+ username new_account
                           +:+ "' could not connect to public channel!")])
  end.
Proof.
  intros pid.
  destruct (create_account fw st accountname email password permissions typeclass)
    as [row|e] eqn:Hrow.
  - intros new_account.
    assert (find_account pid st = None) as Hfresh.
    { unfold find_account. apply find_account_above. intros i Hi.
      by apply PreloginProofs.fresh_id_above. }
    unfold _create_account, mbind, M_bind, mbind', try_except. rewrite Hrow.
    unfold insert_account, mbind, M_bind, mbind', gets, add_account, update_account,
      emit, modify, mret, M_ret, Py.mret.
    cbn [AccountDB ObjectDB trace protocol_flags acc_id set_acc_id]. fold pid new_account.
    assert (∀ p, List.find (fun x => acc_id x =? p)
                   (map (fun a => if acc_id a =? pid then set_FIRST_LOGIN true a else a)
                      (AccountDB st ++ [new_account]))
                 = if decide (p = pid) then Some (set_FIRST_LOGIN true new_account)
                   else find_account p st) as Hfind.
    { intros p. rewrite find_account_updated by done.
      unfold find_account in *. case_decide as Hp.
      - subst p. rewrite PreloginProofs.find_append_none by done. simpl.
        rewrite Z.eqb_refl. simpl. subst new_account. simpl. by rewrite Z.eqb_refl.
      - destruct (List.find (fun x => acc_id x =? p) (AccountDB st)) as [a|] eqn:Hfound.
        + rewrite (find_append_some _ _ _ _ Hfound). simpl.
          apply find_some in Hfound as [_ Hid%Z.eqb_eq].
          destruct (Z.eqb_spec (acc_id a) pid); [congruence | done].
        + rewrite PreloginProofs.find_append_none by done. simpl.
          destruct (Z.eqb_spec pid p); [congruence | done]. }
    destruct (channel_connect fw new_account); cbn [negb];
      (eexists; split; [reflexivity|]);
      cbn [AccountDB ObjectDB trace protocol_flags]; unfold find_account;
      (split; [exact Hfresh|]);
      (split; [rewrite Hfind; by rewrite decide_True|]);
      (split; [intros p Hp; rewrite Hfind; by rewrite decide_False|]);
      (split; [done|]).
    + by rewrite app_nil_r.
    + done.
  - by apply create_account_refused.
Qed.

Lemma get_account_found (pid : Z) (st : State) (a : Account) :
  find_account pid st = Some a → get_account pid st = (Ok a, st).
Proof. unfold get_account. by intros ->. Qed.

(** If the framework cannot create the object, the character helper stores
    nothing: it returns normally, the tables are as before, and the session
    is told what went wrong, with the text of the error, before the trace is
    logged. *)
Theorem create_character_failure_is_told
    (fw : Framework) (pid : Z) (typeclass : string) (home : option Place)
    (permissions : list string) (st : State) (acc : Account) (e : Exn) :
  find_account pid st = Some acc →
  create_object fw st typeclass (username acc) home permissions = Raise e →
  _create_character fw pid typeclass home permissions st =
  (Ok tt,
   with_trace st
     [ SessionMsg ("There was an error creating the Character:" +:+ nl +:+ exn_message e
                   +:+ nl +:+ " If this problem persists, contact an admin.");
       LogTrace ]).
Proof.
  intros Hacc Hrow.
  unfold _create_character, try_except, _create_character_body, mbind, M_bind, mbind'.
  rewrite (get_account_found _ _ _ Hacc), Hrow.
  unfold emit, modify, with_trace. simpl. by rewrite <- app_assoc.
Qed.

(** The theorem for a framework that knows no typeclass. *)
Lemma create_character_failure_is_told_witness :
  _create_character LoginSamples.no_objects 7 "typeclasses.characters.Character"
    (Some Samples.limbo) ["Player"] LoginSamples.database =
  (Ok tt,
   with_trace LoginSamples.database
     [ SessionMsg ("There was an error creating the Character:" +:+ nl
                   +:+ "typeclass not found"
                   +:+ nl +:+ " If this problem persists, contact an admin.");
       LogTrace ]).
Proof.
  apply (create_character_failure_is_told LoginSamples.no_objects 7
           "typeclasses.characters.Character" (Some Samples.limbo) ["Player"]
           LoginSamples.database LoginSamples.anna (FrameworkError "typeclass not found"));
    reflexivity.
Defined.

(** A character that comes out of creation without a home and without a
    home room is left half made: the helper stumbles over the missing home
    after it has stored the character and entered it in the account's list
    of playable characters, and before it sets the locks.  The character is
    in the table with the locks it was created with and no others, the
    account lists it but has no new last puppet, and the session is told of an error. *)
Theorem character_without_home_is_half_made
    (fw : Framework) (pid : Z) (typeclass : string) (home : option Place)
    (permissions : list string) (st : State) (acc : Account) (row : Character) :
  find_account pid st = Some acc →
  create_object fw st typeclass (username acc) home permissions = Ok row →
  home_room row = None →
  Prelogin.home row = None →
  let cid := fresh_id (id <$> ObjectDB st) in
  ∃ st' reason,
    _create_character fw pid typeclass home permissions st = (Ok tt, st')
    ∧ find_character cid st' = Some (set_id cid row)
    ∧ find_account pid st' = Some (append_playable cid acc)
    ∧ trace st' = trace st ++
        [ Print ("New character " +:+ key row +:+ " created with account "
                 +:+ username acc +:+ ".");
          SessionMsg ("There was an error creating the Character:" +:+ nl +:+ reason
                      +:+ nl +:+ " If this problem persists, contact an admin.");
          LogTrace ].
Proof.
  intros Hacc Hrow Hroom Hhome cid.
  pose proof (PreloginProofs.find_account_id _ _ _ Hacc) as Hpid.
  pose proof (PreloginProofs.find_fresh_character (ObjectDB st) (set_id cid row) eq_refl)
    as [_ Hfound]. cbn [id set_id] in Hfound.
  assert (List.find (fun x => acc_id x =? pid)
            (map (fun a => if acc_id a =? pid then append_playable cid a else a)
               (AccountDB st)) = Some (append_playable cid acc)) as Hacc'.
  { rewrite find_account_updated by done. unfold find_account in Hacc. rewrite Hacc.
    simpl. rewrite Hpid. by rewrite Z.eqb_refl. }
  unfold _create_character, try_except, _create_character_body, mbind, M_bind, mbind'.
  rewrite (get_account_found _ _ _ Hacc), Hrow.
  unfold insert_character, mbind, M_bind, mbind', gets, add_character, update_account,
    modify, mret, M_ret, Py.mret.
  cbn [AccountDB ObjectDB trace protocol_flags id set_id home_room]. fold cid.
  rewrite Hroom.
  unfold get_character, find_character. cbn [AccountDB ObjectDB trace protocol_flags].
  rewrite Hfound.
  unfold get_account, find_account. cbn [AccountDB ObjectDB trace protocol_flags].
  rewrite Hacc'.
  unfold emit, modify. cbn [AccountDB ObjectDB trace protocol_flags Prelogin.home set_id].
  rewrite Hhome. unfold raise.
  eexists _, (exn_message (AttributeError "key")). split; [reflexivity|].
  cbn [AccountDB ObjectDB trace protocol_flags].
  split; [exact Hfound|]. split; [exact Hacc'|].
  rewrite <- !app_assoc. reflexivity.
Qed.

(** The theorem for Anna's character, created without a home. *)
Lemma character_without_home_is_half_made_witness :
  ∃ st',
    _create_character LoginSamples.homeless 7 "typeclasses.characters.Character"
      None ["Player"] LoginSamples.database = (Ok tt, st')
    ∧ (locks <$> find_character 1 st') = Some []
    ∧ (_playable_characters <$> find_account 7 st') = Some [1]
    ∧ (_last_puppet <$> find_account 7 st') = Some None.
Proof.
  destruct (character_without_home_is_half_made LoginSamples.homeless 7
              "typeclasses.characters.Character" None ["Player"] LoginSamples.database
              LoginSamples.anna
              {| id := 0; key := "Anna"; home := None; location := None;
                 home_room := None; desc_brief := None; locks := [] |}
              eq_refl eq_refl eq_refl eq_refl)
    as (st' & reason & Hrun & Hchar & Hacc & _).
  exists st'. split; [exact Hrun|].
  change (fresh_id (id <$> ObjectDB LoginSamples.database)) with 1 in Hchar, Hacc.
  rewrite Hchar, Hacc. done.
Defined.

(** *** The arguments of [connect] *)









(** [connect guest] logs nobody in when guests are switched off or the
    address is banned.  With guests off the command goes on as for any
    single word and answers with its usage line; with a banned address the
    session gets the ban notice and is disconnected.  In both cases no
    account is made, no hook is called and no failed login is recorded. *)
Theorem connect_guest_turned_away
    (fw : Framework) (settings : Settings) (auth : Auth) (session : Session)
    (args word guest : string) (t_connect t_check t_now t_fail : Z) (sv : Server) :
  quoted_parts args = [word] → split_ws1 word = [guest] → lower guest = "guest" →
  GUEST_ENABLED settings = false ∨ address_banned fw session = true →
  over_limit 5 300 t_connect (fails (failed_logins sv) (address_key session)) = false →
  let l := fails (failed_logins sv) (address_key session) in
  ∃ storage',
    fails storage' (address_key session) = (if 5 <=? Z.of_nat (length l) then [] else l)
    ∧ CmdUnconnectedConnect_func fw settings auth session args
        t_connect t_check t_now t_fail sv =
      (Ok tt,
       {| session_state :=
            with_trace (session_state sv)
              (if GUEST_ENABLED settings then
                 [SessionMsg ban_notice; Disconnect "Good bye! Disconnecting."]
               else [SessionMsg (nl +:+ cr +:+ " Usage (without <>): connect <name> <password>")]);
          failed_logins := storage';
          hooks := hooks sv |}).
Proof.
  intros Hparts Hword Hguest Hoff Hover l.
  destruct (not_over_limit_check session t_connect sv Hover) as (storage' & Hcheck & Hl & _).
  exists storage'. split; [exact Hl|].
  unfold CmdUnconnectedConnect_func, mbind, M_bind, mbind'. rewrite Hcheck.
  rewrite Hparts. simpl. rewrite Hword. simpl. rewrite Hguest. simpl.
  unfold on_session, create_guest_account. cbn [session_state failed_logins hooks].
  destruct (GUEST_ENABLED settings) eqn:Henabled; simpl.
  - destruct Hoff as [|Hban]; [done|]. rewrite Hban.
    unfold mbind, M_bind, mbind', emit, modify, mret, M_ret, Py.mret, with_trace. simpl.
    by rewrite <- app_assoc.
  - unfold say, on_session, emit, modify, with_trace. simpl. reflexivity.
Qed.

(** The theorem for [connect Guest] with guests switched off. *)
Lemma connect_guest_turned_away_witness :
  ∃ storage',
    CmdUnconnectedConnect_func Samples.host LoginSamples.no_guests LoginSamples.auth
      LoginSamples.session0 " Guest" 1000 1000 1000 1000 LoginSamples.quiet =
    (Ok tt,
     {| session_state :=
          with_trace LoginSamples.database
            [SessionMsg (nl +:+ cr +:+ " Usage (without <>): connect <name> <password>")];
        failed_logins := storage';
        hooks := [] |}).
Proof.
  destruct (connect_guest_turned_away Samples.host LoginSamples.no_guests LoginSamples.auth
              LoginSamples.session0 " Guest" "Guest" "Guest"
              1000 1000 1000 1000 LoginSamples.quiet)
    as (storage' & _ & Hrun); try reflexivity.
  - by left.
  - exists storage'. exact Hrun.
Defined.

(** *** [create] *)




End LoginProofs.

(** ** Traversal, step by step *)

Module MovementProofs.

Import Exits.

Lemma table_delay (v : Val) : 1 ≤ dict_get MOVE_DELAY v 8 ≤ 16.
Proof.
  unfold dict_get, dict_lookup. destruct v as [| | |s| |]; simpl; try lia.
  destruct (MOVE_DELAY !! s) as [d|] eqn:Hd; simpl; [|lia].
  unfold MOVE_DELAY in Hd. apply elem_of_list_to_map_2 in Hd.
  repeat (apply elem_of_cons in Hd as [[= -> ->]|Hd]; [lia|]).
  by apply elem_of_nil in Hd.
Qed.

(** A traversal is turned down without any effect on the world in two
    cases.  A traveller who is already on the move is told where to, and
    nothing else happens: no hook is asked, no move is tried, nothing is
    scheduled.  A traveller whose [at_before_move] hook says no gets [False]
    back and not even a message. *)
Theorem traversal_turned_down
    (fw : Framework) (w : World) (self traveller target : ObjRef) (t tg : Obj) :
  objs w !! traveller = Some t →
  objs w !! target = Some tg →
  (truthy (ndb_get t "currently_moving") = true →
     at_traverse fw self traveller target w =
     (Ok VNone,
      with_events w
        [Msg traveller ("You are already moving toward " +:+ STYLE tg +:+ key tg +:+ "|n.")]))
  ∧ (truthy (ndb_get t "currently_moving") = false →
     is_Some (objs w !! self) →
     at_before_move fw w traveller target = false →
     at_traverse fw self traveller target w = (Ok (VBool false), w)).
Proof.
  intros Ht Htg. split.
  - intros Hmoving. unfold at_traverse, mbind, M_bind, mbind'.
    rewrite (ExitsProofs.get_obj_some _ _ _ Ht), Hmoving.
    rewrite (ExitsProofs.get_obj_some _ _ _ Htg). reflexivity.
  - intros Hstill [exit Hexit] Hveto. unfold at_traverse, mbind, M_bind, mbind'.
    rewrite (ExitsProofs.get_obj_some _ _ _ Ht), Hstill.
    rewrite (ExitsProofs.get_obj_some _ _ _ Hexit).
    unfold gets. by rewrite Hveto.
Qed.

(** The theorem for Dora, who is on her way along the eastward path, and
    for Eve, whose hook says no. *)
Lemma traversal_turned_down_witness :
  at_traverse ExitSamples.open_fw 6 13 1 MoveSamples.world =
    (Ok VNone,
     with_events MoveSamples.world [Msg 13 "You are already moving toward |yPlaza|n."])
  ∧ at_traverse MoveSamples.wary_fw 5 14 2 MoveSamples.world =
    (Ok (VBool false), MoveSamples.world).
Proof.
  split.
  - destruct (traversal_turned_down ExitSamples.open_fw MoveSamples.world 6 13 1
                MoveSamples.dora (ExitSamples.room "Plaza") eq_refl eq_refl) as [Hmoving _].
    apply Hmoving. reflexivity.
  - destruct (traversal_turned_down MoveSamples.wary_fw MoveSamples.world 5 14 2
                MoveSamples.eve (ExitSamples.room "Harbor") eq_refl eq_refl) as [_ Hveto].
    apply Hveto; [reflexivity | by eexists | reflexivity].
Defined.

(** *** The pieces of a traversal, as state transformers *)

Lemma move_to_moved (fw : Framework) (w : World) (who d : ObjRef) (use_destination : bool) :
  move_to_ok fw w who (VRef d) = true →
  move_to fw who (VRef d) use_destination w =
  (Ok true,
   {| objs := alter (set_location
                       (Some (if use_destination then default d (objs w !! d ≫= destination)
                              else d))) who (objs w);
      trace := trace w ++ [MoveTo who (VRef d) use_destination true];
      next_handle := next_handle w |}).
Proof.
  intros Hok. unfold move_to, mbind, M_bind, mbind', gets, emit, update_obj, modify,
    mret, M_ret, Py.mret.
  cbn [objs trace next_handle]. rewrite Hok. reflexivity.
Qed.

Lemma move_to_stayed (fw : Framework) (w : World) (who : ObjRef) (dest : Val)
    (use_destination : bool) :
  move_to_ok fw w who dest = false →
  move_to fw who dest use_destination w =
  (Ok false, with_events w [MoveTo who dest use_destination false]).
Proof.
  intros Hok. unfold move_to, mbind, M_bind, mbind', gets, emit, modify, mret, M_ret, Py.mret.
  cbn [objs trace next_handle]. rewrite Hok. reflexivity.
Qed.

Lemma at_after_traverse_run (w : World) (self traveller src : ObjRef) (s : Obj) :
  objs w !! src = Some s →
  at_after_traverse self traveller (VRef src) w =
  (Ok tt,
   {| objs := alter (fun o =>
                       (if destination s is None then set_db "last_room" (VRef src) else id)
                         (set_ndb "last_location" (VRef src) o)) traveller (objs w);
      trace := trace w;
      next_handle := next_handle w |}).
Proof.
  intros Hsrc.
  unfold at_after_traverse, mbind, M_bind, mbind', update_obj, modify, destination_of.
  cbn [objs trace next_handle].
  unfold mbind, M_bind, mbind', get_obj. cbn [objs trace next_handle].
  assert (∃ s', alter (set_ndb "last_location" (VRef src)) traveller (objs w) !! src = Some s'
                ∧ destination s' = destination s) as (s' & -> & Hdest).
  { rewrite lookup_alter. case_decide.
    - subst. rewrite Hsrc. by eexists.
    - eauto. }
  unfold mret, M_ret, Py.mret. rewrite Hdest.
  destruct (destination s) as [d|].
  - rewrite bool_decide_eq_true_2 by eauto. simpl. reflexivity.
  - rewrite bool_decide_eq_false_2 by (intros [? ?]; done). simpl.
    by rewrite alter_alter_eq.
Qed.

Lemma msg_run (w : World) (to : ObjRef) (text : string) :
  msg to text w = (Ok tt, with_events w [Msg to text]).
Proof. reflexivity. Qed.

(** Setting out on a path and stopping again.  A traveller who is not yet
    moving and not yet inside the path is told of the start at the chosen
    speed (a walk if none is chosen), moved into the path, and the arrival is
    scheduled with a delay between 1 and 16; the handle is kept on the
    traveller.  [stop] then cancels that very handle and takes the mark off:
    the traveller is left inside the path, knowing where it came from and no
    longer moving. *)
Theorem path_traversal_then_stop
    (fw : Framework) (w : World) (self traveller target src : ObjRef) (exit t s : Obj) :
  objs w !! self = Some exit →
  objs w !! traveller = Some t →
  location t = Some src →
  objs w !! src = Some s →
  src ≠ self → src ≠ target →
  truthy (ndb_get t "currently_moving") = false →
  truthy (db_get exit "is_path") = true →
  at_before_move fw w traveller target = true →
  let speed := py_or (db_get t "move_speed") (VStr "walk") in
  let start :=
    Msg traveller ("You start moving " +:+ key exit +:+ " at a " +:+ str_of_val speed +:+ ".") in
  move_to_ok fw (with_events w [start]) traveller (VRef self) = true →
  let seconds := dict_get MOVE_DELAY speed 8 in
  ∃ w1 w2 t1 t2,
    at_traverse fw self traveller target w = (Ok VNone, w1)
    ∧ trace w1 = trace w ++
        [start; MoveTo traveller (VRef self) false true; Delay seconds (next_handle w)]
    ∧ 1 ≤ seconds ≤ 16
    ∧ objs w1 !! traveller = Some t1
    ∧ ndb_get t1 "currently_moving" = VDeferred (next_handle w)
    ∧ CmdStop_func traveller w1 = (Ok tt, w2)
    ∧ trace w2 = trace w1 ++ [Cancel (next_handle w); Msg traveller "You stop moving."]
    ∧ objs w2 !! traveller = Some t2
    ∧ location t2 = Some self
    ∧ ndb_get t2 "currently_moving" = VNone
    ∧ ndb_get t2 "last_location" = VRef src.
Proof.
  intros Hexit Ht Hloc Hsrc Hns Hnt Hstill Hpath Hbefore speed start Hmove seconds.
  unfold at_traverse, mbind, M_bind, mbind'.
  rewrite (ExitsProofs.get_obj_some _ _ _ Ht), Hstill.
  rewrite (ExitsProofs.get_obj_some _ _ _ Hexit).
  unfold gets. rewrite Hbefore. cbn [negb].
  unfold py_or at 1. rewrite Hpath. cbn [truthy negb]. rewrite Hpath. cbn [negb].
  rewrite (ExitsProofs.get_obj_some _ _ _ Ht), Hloc.
  rewrite bool_decide_eq_false_2 by congruence.
  fold speed. fold start. rewrite msg_run.
  rewrite bool_decide_eq_true_2 by congruence.
  unfold mbind, M_bind, mbind'.
  rewrite (move_to_moved fw _ _ _ _ Hmove).
  assert (∃ s', alter (set_location (Some self)) traveller (objs w) !! src = Some s'
                ∧ destination s' = destination s) as (s' & Hsrc' & Hdest).
  { rewrite lookup_alter. case_decide.
    - subst. rewrite Hsrc. by eexists.
    - eauto. }
  rewrite (at_after_traverse_run _ self traveller src s') by exact Hsrc'.
  rewrite Hdest.
  unfold mret, M_ret, Py.mret. cbn [negb].
  unfold delay, mbind, M_bind, mbind', gets, modify, emit, update_obj, modify,
    mret, M_ret, Py.mret.
  cbn [objs trace next_handle with_events]. fold seconds.
  eexists _, _, _, _. split; [reflexivity|].
  cbn [objs trace next_handle].
  split; [by rewrite <- !app_assoc|].
  split; [apply table_delay|].
  rewrite !alter_alter_eq. rewrite lookup_alter_eq, Ht. cbn [fmap option_fmap option_map].
  split; [reflexivity|].
  split.
  { unfold ndb_get. cbn [ndb set_ndb compose]. by rewrite lookup_insert_eq. }
  unfold CmdStop_func, mbind, M_bind, mbind', get_obj. cbn [objs trace next_handle].
  rewrite lookup_alter_eq, Ht. cbn [fmap option_fmap option_map].
  unfold ndb_get at 1. cbn [ndb set_ndb compose]. rewrite lookup_insert_eq.
  cbn [default truthy].
  unfold ndb_get at 1. cbn [ndb set_ndb compose]. rewrite lookup_insert_eq.
  cbn [default].
  unfold emit, update_obj, modify, msg, emit, modify. cbn [objs trace next_handle].
  split; [reflexivity|].
  cbn [objs trace next_handle].
  split; [by rewrite <- !app_assoc|].
  rewrite alter_alter_eq, lookup_alter_eq, Ht. cbn [fmap option_fmap option_map].
  split; [reflexivity|].
  destruct (destination s); cbn [compose id]; (split; [reflexivity|]); unfold ndb_get;
    cbn [ndb remove_ndb set_ndb set_db set_location];
    rewrite lookup_delete_eq; (split; [reflexivity|]);
    rewrite lookup_delete_ne by done; rewrite lookup_insert_ne by done;
    by rewrite lookup_insert_eq.
Qed.

(** The theorem for Eve, who runs east from the plaza. *)
Lemma path_traversal_then_stop_witness :
  ∃ w1 w2,
    at_traverse ExitSamples.open_fw 5 14 2 MoveSamples.world = (Ok VNone, w1)
    ∧ trace w1 = [ Msg 14 "You start moving east at a run.";
                   MoveTo 14 (VRef 5) false true; Delay 4 4 ]
    ∧ CmdStop_func 14 w1 = (Ok tt, w2)
    ∧ trace w2 = trace w1 ++ [Cancel 4; Msg 14 "You stop moving."].
Proof.
  destruct (path_traversal_then_stop ExitSamples.open_fw MoveSamples.world 5 14 2 1
              (ExitSamples.path "east" 1 2 {[ "err_traverse" := VStr "The gate is barred." ]})
              MoveSamples.eve (ExitSamples.room "Plaza"))
    as (w1 & w2 & t1 & t2 & Hgo & Htrace & _ & _ & _ & Hstop & Htrace' & _);
    try reflexivity; try discriminate.
  exists w1, w2. split; [exact Hgo|]. split; [exact Htrace|]. split; [exact Hstop|].
  exact Htrace'.
Defined.

(** [stop] works once.  For a traveller with a scheduled arrival it cancels
    the arrival, takes the mark off and says so; used again right away it
    only says that the traveller is not moving and changes nothing: no second
    cancel is sent. *)
Theorem stop_cancels_once (w : World) (caller : ObjRef) (c : Obj) (handle : Z) :
  objs w !! caller = Some c →
  ndb_get c "currently_moving" = VDeferred handle →
  ∃ w1,
    CmdStop_func caller w = (Ok tt, w1)
    ∧ objs w1 = <[caller := remove_ndb "currently_moving" c]> (objs w)
    ∧ trace w1 = trace w ++ [Cancel handle; Msg caller "You stop moving."]
    ∧ CmdStop_func caller w1 = (Ok tt, with_events w1 [Msg caller "You are not moving."]).
Proof.
  intros Hc Hmoving.
  unfold CmdStop_func, mbind, M_bind, mbind'.
  rewrite (ExitsProofs.get_obj_some _ _ _ Hc), Hmoving. cbn [truthy].
  unfold emit, update_obj, msg, emit, modify. cbn [objs trace next_handle].
  eexists. split; [reflexivity|]. cbn [objs trace next_handle].
  assert (alter (remove_ndb "currently_moving") caller (objs w)
          = <[caller := remove_ndb "currently_moving" c]> (objs w)) as Halter.
  { apply map_eq. intros r. rewrite lookup_alter, lookup_insert.
    case_decide; [subst; by rewrite Hc | done]. }
  split; [exact Halter|]. split; [by rewrite <- app_assoc|].
  unfold get_obj. cbn [objs trace next_handle]. rewrite Halter, lookup_insert_eq.
  unfold ndb_get. cbn [ndb remove_ndb]. rewrite lookup_delete_eq. reflexivity.
Qed.

(** The theorem for Dora, on her way along the eastward path. *)
Lemma stop_cancels_once_witness :
  ∃ w1,
    CmdStop_func 13 MoveSamples.world = (Ok tt, w1)
    ∧ trace w1 = [Cancel 3; Msg 13 "You stop moving."]
    ∧ CmdStop_func 13 w1 = (Ok tt, with_events w1 [Msg 13 "You are not moving."]).
Proof.
  destruct (stop_cancels_once MoveSamples.world 13 MoveSamples.dora 3 eq_refl eq_refl)
    as (w1 & Hstop & _ & Htrace & Hagain).
  exists w1. split; [exact Hstop|]. split; [exact Htrace | exact Hagain].
Defined.

(** An arrival that fails leaves the traveller marked as moving.  When the
    scheduled move into the destination fails on a path without an error
    text of its own, the failed-traversal hook is called and the callback
    ends; the mark of the scheduled arrival stays on the traveller, so that
    every further traversal is refused with "You are already moving". *)
Theorem failed_arrival_keeps_traveller_moving
    (fw : Framework) (w : World) (self traveller target next_exit next_target : ObjRef)
    (exit t tg : Obj) :
  objs w !! self = Some exit →
  objs w !! traveller = Some t →
  objs w !! next_target = Some tg →
  truthy (db_get exit "err_traverse") = false →
  truthy (ndb_get t "currently_moving") = true →
  move_to_ok fw w traveller (VRef target) = false →
  ∃ w1,
    move_callback fw self traveller target w = (Ok tt, w1)
    ∧ objs w1 = objs w
    ∧ trace w1 = trace w ++ [MoveTo traveller (VRef target) true false;
                             FailedTraverse self traveller]
    ∧ at_traverse fw next_exit traveller next_target w1 =
      (Ok VNone,
       with_events w1
         [Msg traveller ("You are already moving toward " +:+ STYLE tg +:+ key tg +:+ "|n.")]).
Proof.
  intros Hexit Ht Htg Herr Hmoving Hmove.
  rewrite (ExitsProofs.move_callback_failed_move fw w self traveller target exit t)
    by done.
  rewrite Herr. eexists. split; [reflexivity|]. split; [done|]. split; [done|].
  unfold at_traverse, mbind, M_bind, mbind'.
  rewrite (ExitsProofs.get_obj_some (with_events w _) _ _ Ht), Hmoving.
  rewrite (ExitsProofs.get_obj_some (with_events w _) _ _ Htg). reflexivity.
Qed.

(** The theorem for Dora on the westward path, which has no error text. *)
Lemma failed_arrival_keeps_traveller_moving_witness :
  ∃ w1,
    move_callback ExitSamples.blocked_fw 6 13 1 MoveSamples.world = (Ok tt, w1)
    ∧ at_traverse ExitSamples.blocked_fw 5 13 2 w1 =
      (Ok VNone, with_events w1 [Msg 13 "You are already moving toward |yHarbor|n."]).
Proof.
  destruct (failed_arrival_keeps_traveller_moving ExitSamples.blocked_fw MoveSamples.world
              6 13 1 5 2 (ExitSamples.path "west" 2 1 ∅) MoveSamples.dora
              (ExitSamples.room "Harbor"))
    as (w1 & Hback & _ & _ & Hrefused); try reflexivity.
  exists w1. split; [exact Hback | exact Hrefused].
Defined.

(** An arrival that succeeds ends the move.  The traveller is put where the
    target leads (the target itself when it leads nowhere), the mark of the
    scheduled arrival is taken off, the place the traveller came from is
    remembered as the last location, and it replaces the remembered last
    room only when it is not itself an exit; nothing is said to anyone and
    nothing new is scheduled.  [stop] afterwards finds nothing to stop. *)
Theorem arrival_completes_the_move
    (fw : Framework) (w : World) (self traveller target src : ObjRef) (t s : Obj) :
  objs w !! traveller = Some t →
  location t = Some src →
  objs w !! src = Some s →
  move_to_ok fw w traveller (VRef target) = true →
  ∃ w1 t1,
    move_callback fw self traveller target w = (Ok tt, w1)
    ∧ trace w1 = trace w ++ [MoveTo traveller (VRef target) true true]
    ∧ next_handle w1 = next_handle w
    ∧ objs w1 !! traveller = Some t1
    ∧ location t1 = Some (default target (objs w !! target ≫= destination))
    ∧ ndb_get t1 "currently_moving" = VNone
    ∧ ndb_get t1 "last_location" = VRef src
    ∧ db_get t1 "last_room" =
        (if destination s is None then VRef src else db_get t "last_room")
    ∧ CmdStop_func traveller w1 =
        (Ok tt, with_events w1 [Msg traveller "You are not moving."]).
Proof.
  intros Ht Hloc Hsrc Hmove.
  unfold move_callback, mbind, M_bind, mbind'.
  rewrite (ExitsProofs.get_obj_some _ _ _ Ht), Hloc. cbn [ref_val].
  rewrite (move_to_moved fw _ _ _ _ Hmove).
  unfold update_obj, modify. cbn [objs trace next_handle].
  set (there := default target (objs w !! target ≫= destination)).
  assert (∃ s', alter (remove_ndb "currently_moving") traveller
                  (alter (set_location (Some there)) traveller (objs w)) !! src = Some s'
                ∧ destination s' = destination s) as (s' & Hsrc' & Hdest).
  { rewrite alter_alter_eq, lookup_alter. case_decide.
    - subst. rewrite Hsrc. by eexists.
    - eauto. }
  rewrite (at_after_traverse_run _ self traveller src s') by exact Hsrc'.
  rewrite Hdest. cbn [objs trace next_handle].
  eexists _, _. split; [reflexivity|]. cbn [objs trace next_handle].
  split; [reflexivity|]. split; [reflexivity|].
  rewrite !alter_alter_eq, lookup_alter_eq, Ht. cbn [fmap option_fmap option_map].
  split; [reflexivity|].
  assert (∀ o : Obj,
            ndb_get ((if destination s is None then set_db "last_room" (VRef src) else id)
                       (set_ndb "last_location" (VRef src) o)) "currently_moving"
            = ndb_get o "currently_moving") as Hmark.
  { intros o. unfold ndb_get.
    destruct (destination s); cbn [ndb set_db set_ndb id]; by rewrite lookup_insert_ne. }
  split_and!.
  - by destruct (destination s).
  - cbn [compose]. rewrite Hmark. unfold ndb_get. cbn [ndb remove_ndb].
    by rewrite lookup_delete_eq.
  - unfold ndb_get. destruct (destination s); cbn [compose id ndb set_db set_ndb];
      by rewrite lookup_insert_eq.
  - unfold db_get. destruct (destination s); cbn [compose id db set_db set_ndb];
      [done | by rewrite lookup_insert_eq].
  - unfold CmdStop_func, mbind, M_bind, mbind', get_obj. cbn [objs trace next_handle].
    rewrite lookup_alter_eq, Ht. cbn [fmap option_fmap option_map compose].
    rewrite Hmark. unfold ndb_get. cbn [ndb remove_ndb]. rewrite lookup_delete_eq.
    reflexivity.
Qed.

(** The theorem for Dora, who arrives in the harbor from the eastward path
    with the plaza still remembered as her last room. *)
Lemma arrival_completes_the_move_witness :
  ∃ w1 t1,
    move_callback ExitSamples.open_fw 5 13 2 MoveSamples.world = (Ok tt, w1)
    ∧ trace w1 = [MoveTo 13 (VRef 2) true true]
    ∧ objs w1 !! 13 = Some t1
    ∧ location t1 = Some 2
    ∧ ndb_get t1 "last_location" = VRef 5
    ∧ db_get t1 "last_room" = VNone.
Proof.
  destruct (arrival_completes_the_move ExitSamples.open_fw MoveSamples.world 5 13 2 5
              MoveSamples.dora
              (ExitSamples.path "east" 1 2 {[ "err_traverse" := VStr "The gate is barred." ]})
              eq_refl eq_refl eq_refl eq_refl)
    as (w1 & t1 & Hrun & Htrace & _ & Ht1 & Hloc & _ & Hlast & Hroom & _).
  exists w1, t1. split_and!; [exact Hrun | exact Htrace | exact Ht1 | exact Hloc
                             | exact Hlast | exact Hroom].
Defined.

(** The speeds that have a description are the five named ones, and each of
    them has a delay. *)
Lemma described_speed (speed label : string) :
  SPEED_DESCS !! speed = Some label →
  speed ∈ named_speeds ∧ is_Some (MOVE_DELAY !! speed).
Proof.
  intros H. apply elem_of_list_to_map_2 in H.
  repeat (apply elem_of_cons in H as [[= -> ->]|H];
          [split; [set_solver | by eexists]|]).
  by apply elem_of_nil in H.
Qed.

Lemma described_speed_not_empty (label : string) : SPEED_DESCS !! "" ≠ Some label.
Proof. by vm_compute. Qed.

(** Choosing a speed and asking for it.  An argument that, in lower case and
    without the blanks around it, is one of the described speeds is stored as
    the preference (or found to be stored already); asking for the speed
    right afterwards reports the very description that the choice was
    answered with, and the stored speed has an entry in the table of delays. *)
Theorem speed_choice_round_trip
    (w : World) (caller : ObjRef) (c : Obj) (args label : string) :
  objs w !! caller = Some c →
  SPEED_DESCS !! strip (lower args) = Some label →
  let speed := strip (lower args) in
  let answer :=
    if bool_decide (db_get c "move_speed" = VStr speed)
    then "You are already set to move by " +:+ label +:+ "."
    else "You will now move by " +:+ label +:+ "." in
  ∃ w1 c1,
    CmdSpeed_func caller args w = (Ok tt, w1)
    ∧ trace w1 = trace w ++ [Msg caller answer]
    ∧ objs w1 !! caller = Some c1
    ∧ db_get c1 "move_speed" = VStr speed
    ∧ is_Some (dict_lookup MOVE_DELAY (db_get c1 "move_speed"))
    ∧ CmdSpeed_func caller "" w1 =
        (Ok tt, with_events w1 [Msg caller ("You are set to move by " +:+ label +:+ ".")]).
Proof.
  intros Hc Hlabel speed answer. subst answer.
  assert (args ≠ "") as Hargs.
  { intros ->. by apply (described_speed_not_empty label). }
  destruct (described_speed _ _ Hlabel) as [_ Hdelay].
  unfold CmdSpeed_func. fold speed.
  destruct (String.eqb_spec args "") as [|_]; [done|].
  rewrite bool_decide_eq_true_2 by (fold speed in Hlabel; by rewrite Hlabel).
  cbn [negb]. unfold mbind, M_bind, mbind'.
  rewrite (ExitsProofs.get_obj_some _ _ _ Hc).
  assert (∀ w' c', objs w' !! caller = Some c' → db_get c' "move_speed" = VStr speed →
            CmdSpeed_func caller "" w' =
            (Ok tt, with_events w' [Msg caller ("You are set to move by " +:+ label +:+ ".")]))
    as Hreport.
  { intros w' c' Hc' Hset. unfold CmdSpeed_func. cbn [String.eqb].
    unfold mbind, M_bind, mbind'. rewrite (ExitsProofs.get_obj_some _ _ _ Hc'), Hset.
    assert (truthy (VStr speed) = true) as Htruthy.
    { cbn [truthy]. destruct (String.eqb_spec speed "") as [E|]; [|done].
      fold speed in Hlabel. rewrite E in Hlabel.
      by destruct (described_speed_not_empty label). }
    unfold py_or. rewrite Htruthy. unfold dict_getitem. cbn [dict_lookup].
    fold speed in Hlabel. rewrite Hlabel. reflexivity. }
  fold speed in Hlabel, Hdelay.
  case_bool_decide as Hsame.
  - unfold dict_getitem. cbn [dict_lookup]. rewrite Hlabel.
    exists (with_events w [Msg caller ("You are already set to move by " +:+ label +:+ ".")]), c.
    split_and!; try done.
    + by rewrite Hsame.
    + by apply (Hreport _ c).
  - unfold update_obj, modify, dict_getitem. cbn [dict_lookup]. rewrite Hlabel.
    eexists _, (set_db "move_speed" (VStr speed) c).
    split; [reflexivity|]. cbn [objs trace next_handle].
    assert (db_get (set_db "move_speed" (VStr speed) c) "move_speed" = VStr speed) as Hset.
    { unfold db_get. cbn [db set_db]. by rewrite lookup_insert_eq. }
    split_and!; try done.
    + by rewrite lookup_alter_eq, Hc.
    + by rewrite Hset.
    + apply (Hreport _ (set_db "move_speed" (VStr speed) c)); [|done].
      cbn [objs]. by rewrite lookup_alter_eq, Hc.
Qed.

(** The theorem for Eve, who asks for a stroll in capitals and with blanks. *)
Lemma speed_choice_round_trip_witness :
  ∃ w1,
    CmdSpeed_func 14 "  STROLL " MoveSamples.world = (Ok tt, w1)
    ∧ trace w1 = [Msg 14 "You will now move by strolling."]
    ∧ CmdSpeed_func 14 "" w1 =
        (Ok tt, with_events w1 [Msg 14 "You are set to move by strolling."]).
Proof.
  destruct (speed_choice_round_trip MoveSamples.world 14 MoveSamples.eve "  STROLL "
              "strolling" eq_refl eq_refl)
    as (w1 & c1 & Hset & Htrace & _ & _ & _ & Hreport).
  exists w1. split_and!; [exact Hset | exact Htrace | exact Hreport].
Defined.

(** What [speed] can store.  Whatever the argument, and whether the command
    ends normally or raises, the caller's preference afterwards is either
    what it was before or one of the five named speeds; nothing else about
    the caller and no other object is changed, and nothing is scheduled. *)
Theorem speed_preference_stays_named
    (w : World) (caller : ObjRef) (c : Obj) (args : string) :
  objs w !! caller = Some c →
  ∃ r w1 c1,
    CmdSpeed_func caller args w = (r, w1)
    ∧ objs w1 !! caller = Some c1
    ∧ (db_get c1 "move_speed" = db_get c "move_speed"
       ∨ ∃ speed, speed ∈ named_speeds ∧ db_get c1 "move_speed" = VStr speed)
    ∧ location c1 = location c ∧ ndb c1 = ndb c
    ∧ delete "move_speed" (db c1) = delete "move_speed" (db c)
    ∧ delete caller (objs w1) = delete caller (objs w)
    ∧ next_handle w1 = next_handle w.
Proof.
  intros Hc. unfold CmdSpeed_func.
  destruct (String.eqb_spec args "") as [_|_].
  { unfold mbind, M_bind, mbind'. rewrite (ExitsProofs.get_obj_some _ _ _ Hc).
    unfold dict_getitem.
    destruct (dict_lookup SPEED_DESCS _) as [label|];
      eexists _, _, c; (split; [reflexivity|]); cbn [objs next_handle]; by eauto 10. }
  destruct (SPEED_DESCS !! strip (lower args)) as [label|] eqn:Hlabel.
  2: { rewrite bool_decide_eq_false_2 by (intros [? ?]; done). cbn [negb].
       eexists _, _, c. split; [reflexivity|]. cbn [objs next_handle]. by eauto 10. }
  rewrite bool_decide_eq_true_2 by eauto. cbn [negb].
  unfold mbind, M_bind, mbind'. rewrite (ExitsProofs.get_obj_some _ _ _ Hc).
  unfold dict_getitem. cbn [dict_lookup]. rewrite Hlabel.
  case_bool_decide as Hsame.
  { eexists _, _, c. split; [reflexivity|]. cbn [objs next_handle]. by eauto 10. }
  unfold update_obj, modify. cbn [objs trace next_handle].
  eexists _, _, (set_db "move_speed" (VStr (strip (lower args))) c).
  split; [reflexivity|]. cbn [objs next_handle]. split_and!; try done.
  - by rewrite lookup_alter_eq, Hc.
  - right. eexists. split; [exact (proj1 (described_speed _ _ Hlabel))|].
    unfold db_get. cbn [db set_db]. by rewrite lookup_insert_eq.
  - cbn [db set_db]. by rewrite delete_insert_eq.
  - apply map_eq. intros r. rewrite !lookup_delete. case_decide; [done|].
    by rewrite lookup_alter_ne.
Qed.

(** The theorem for Eve and a speed that does not exist. *)
Lemma speed_preference_stays_named_witness :
  ∃ w1 c1,
    CmdSpeed_func 14 "gallop" MoveSamples.world = (Ok tt, w1)
    ∧ objs w1 !! 14 = Some c1
    ∧ db_get c1 "move_speed" = VStr "run".
Proof.
  destruct (speed_preference_stays_named MoveSamples.world 14 MoveSamples.eve "gallop" eq_refl)
    as (r & w1 & c1 & Hrun & Hc1 & Hspeed & _).
  assert (CmdSpeed_func 14 "gallop" MoveSamples.world =
          (Ok tt, with_events MoveSamples.world
                    [Msg 14 "Usage: speed stroll||walk||run||sprint||scamper"])) as Hrun'
    by reflexivity.
  rewrite Hrun' in Hrun. injection Hrun as <- <-.
  exists (with_events MoveSamples.world
            [Msg 14 "Usage: speed stroll||walk||run||sprint||scamper"]), c1.
  split; [reflexivity|]. split; [exact Hc1|].
  cbn [objs with_events] in Hc1. vm_compute in Hc1. injection Hc1 as <-. reflexivity.
Defined.

Lemma with_events_app (w : World) (es1 es2 : list Event) :
  with_events (with_events w es1) es2 = with_events w (es1 ++ es2).
Proof. unfold with_events. cbn [objs trace next_handle]. by rewrite app_assoc. Qed.

Lemma emit_run (w : World) (e : Event) : emit e w = (Ok tt, with_events w [e]).
Proof. reflexivity. Qed.






(** Going on along a path.  A character who stands still inside an exit and
    whose preference is a described speed is announced to the others there,
    told of the start, and moved at once to where the exit leads: nothing is
    scheduled and no mark of a move is set.  After a successful move the exit
    is remembered as the last location, and the remembered last room stays
    what it was. *)
Theorem continue_leaves_the_path
    (fw : Framework) (w : World) (caller here there : ObjRef) (c h : Obj) (label : string) :
  objs w !! caller = Some c →
  location c = Some here →
  objs w !! here = Some h →
  destination h = Some there →
  truthy (ndb_get c "currently_moving") = false →
  dict_lookup SPEED_DESCS (db_get c "move_speed") = Some label →
  let names := get_display_name fw (objs w) in
  let said :=
    [ MsgContents here (names caller +:+ " is going to " +:+ names there +:+ ".") caller;
      Msg caller ("You begin " +:+ label +:+ " toward " +:+ names there +:+ ".") ] in
  move_to_ok fw (with_events w said) caller (VRef there) = true →
  ∃ w1 c1,
    CmdContinue_func fw caller w = (Ok tt, w1)
    ∧ trace w1 = trace w ++ said ++ [MoveTo caller (VRef there) true true]
    ∧ next_handle w1 = next_handle w
    ∧ objs w1 !! caller = Some c1
    ∧ location c1 = Some (default there (objs w !! there ≫= destination))
    ∧ truthy (ndb_get c1 "currently_moving") = false
    ∧ ndb_get c1 "last_location" = VRef here
    ∧ db c1 = db c.
Proof.
  intros Hc Hloc Hh Hdest Hstill Hlabel names said Hmove.
  unfold CmdContinue_func, mbind, M_bind, mbind'.
  rewrite (ExitsProofs.get_obj_some _ _ _ Hc), Hloc. cbn [ref_val destination_of].
  unfold mbind, M_bind, mbind'.
  rewrite (ExitsProofs.get_obj_some _ _ _ Hh). unfold mret at 1, M_ret, Py.mret.
  rewrite Hdest, Hstill. unfold gets. fold names.
  rewrite emit_run. unfold dict_getitem. rewrite Hlabel.
  unfold mret at 1, M_ret, Py.mret. rewrite msg_run, with_events_app.
  change ([MsgContents here (names caller +:+ " is going to " +:+ names there +:+ ".") caller]
          ++ [Msg caller ("You begin " +:+ label +:+ " toward " +:+ names there +:+ ".")])
    with said.
  rewrite (move_to_moved fw _ _ _ _ Hmove). cbn [objs trace next_handle with_events].
  set (place := default there (objs w !! there ≫= destination)).
  assert (∃ h', alter (set_location (Some place)) caller (objs w) !! here = Some h'
                ∧ destination h' = destination h) as (h' & Hh' & Hdest').
  { rewrite lookup_alter. case_decide.
    - subst. rewrite Hh. by eexists.
    - eauto. }
  rewrite (at_after_traverse_run _ here caller here h') by exact Hh'.
  rewrite Hdest', Hdest. cbn [objs trace next_handle].
  eexists _, _. split; [reflexivity|]. cbn [objs trace next_handle].
  rewrite alter_alter_eq, lookup_alter_eq, Hc. cbn [fmap option_fmap option_map compose id].
  split_and!; try done.
  - by rewrite <- app_assoc.
  - unfold ndb_get in *. cbn [ndb set_ndb set_location].
    by rewrite lookup_insert_ne.
  - unfold ndb_get. cbn [ndb set_ndb]. by rewrite lookup_insert_eq.
Qed.

(** The theorem for Cleo, who runs on along the eastward path. *)
Lemma continue_leaves_the_path_witness :
  ∃ w1 c1,
    CmdContinue_func ExitSamples.open_fw 12 ExitSamples.world = (Ok tt, w1)
    ∧ trace w1 = [ MsgContents 5 "|cCleo|n is going to |yHarbor|n." 12;
                   Msg 12 "You begin running toward |yHarbor|n.";
                   MoveTo 12 (VRef 2) true true ]
    ∧ objs w1 !! 12 = Some c1
    ∧ location c1 = Some 2
    ∧ ndb_get c1 "last_location" = VRef 5.
Proof.
  destruct (continue_leaves_the_path ExitSamples.open_fw ExitSamples.world 12 5 2
              (ExitSamples.character "Cleo" (Some 5) {[ "move_speed" := VStr "run" ]})
              (ExitSamples.path "east" 1 2 {[ "err_traverse" := VStr "The gate is barred." ]})
              "running" eq_refl eq_refl eq_refl eq_refl eq_refl eq_refl eq_refl)
    as (w1 & c1 & Hrun & Htrace & _ & Hc1 & Hplace & _ & Hlast & _).
  exists w1, c1. split_and!; [exact Hrun | exact Htrace | exact Hc1 | exact Hplace | exact Hlast].
Defined.

(** An ordinary exit moves the traveller at once.  Through an exit that is
    not marked as a path, a traveller who is not on the move and whose hook
    agrees is moved right away: nothing is said by the exit, nothing is
    scheduled, no mark of a move is set, and the outcome of the move is what
    the traversal returns.  After a successful move the traveller is where
    the exit leads and remembers where it came from; after a failed one no
    object has changed. *)
Theorem plain_exit_moves_at_once
    (fw : Framework) (w : World) (self traveller target src : ObjRef) (exit t s : Obj) :
  objs w !! self = Some exit →
  objs w !! traveller = Some t →
  location t = Some src →
  objs w !! src = Some s →
  truthy (ndb_get t "currently_moving") = false →
  truthy (db_get exit "is_path") = false →
  at_before_move fw w traveller target = true →
  let moved := move_to_ok fw w traveller (VRef self) in
  ∃ w1 t1,
    at_traverse fw self traveller target w = (Ok (VBool moved), w1)
    ∧ trace w1 = trace w ++ [MoveTo traveller (VRef self) true moved]
    ∧ next_handle w1 = next_handle w
    ∧ objs w1 !! traveller = Some t1
    ∧ truthy (ndb_get t1 "currently_moving") = false
    ∧ (if moved then
         location t1 = Some (default self (destination exit))
         ∧ ndb_get t1 "last_location" = VRef src
         ∧ db_get t1 "last_room" =
             (if destination s is None then VRef src else db_get t "last_room")
       else objs w1 = objs w).
Proof.
  intros Hexit Ht Hloc Hsrc Hstill Hplain Hbefore moved.
  unfold at_traverse, mbind, M_bind, mbind'.
  rewrite (ExitsProofs.get_obj_some _ _ _ Ht), Hstill.
  rewrite (ExitsProofs.get_obj_some _ _ _ Hexit).
  unfold gets. rewrite Hbefore. cbn [negb].
  unfold py_or at 1. rewrite Hplain. cbn [truthy negb].
  destruct moved eqn:Hmoved; subst moved.
  - rewrite (move_to_moved fw _ _ _ _ Hmoved). rewrite Hloc. cbn [ref_val].
    rewrite Hexit. cbn [mbind option_bind].
    set (there := default self (destination exit)).
    assert (∃ s', alter (set_location (Some there)) traveller (objs w) !! src = Some s'
                  ∧ destination s' = destination s) as (s' & Hsrc' & Hdest).
    { rewrite lookup_alter. case_decide.
      - subst. rewrite Hsrc. by eexists.
      - eauto. }
    rewrite (at_after_traverse_run _ self traveller src s') by exact Hsrc'.
    rewrite Hdest. unfold mret, M_ret, Py.mret.
    eexists _, _. split; [reflexivity|]. cbn [objs trace next_handle].
    rewrite alter_alter_eq, lookup_alter_eq, Ht. cbn [fmap option_fmap option_map compose].
    split_and!; try done.
    + unfold ndb_get in *. destruct (destination s); cbn [id ndb set_db set_ndb set_location];
        by rewrite lookup_insert_ne.
    + by destruct (destination s).
    + unfold ndb_get. destruct (destination s); cbn [id ndb set_db set_ndb];
        by rewrite lookup_insert_eq.
    + unfold db_get. destruct (destination s); cbn [id db set_db set_ndb set_location];
        [done | by rewrite lookup_insert_eq].
  - rewrite (move_to_stayed fw _ _ _ _ Hmoved). unfold mret, M_ret, Py.mret.
    eexists _, t. split; [reflexivity|]. cbn [objs trace next_handle with_events].
    split_and!; done.
Qed.

(** The theorem for Finn, who takes the door from the harbor to the plaza. *)
Lemma plain_exit_moves_at_once_witness :
  ∃ w1 t1,
    at_traverse ExitSamples.open_fw 9 15 1 MoveSamples.harbor_world = (Ok (VBool true), w1)
    ∧ trace w1 = [MoveTo 15 (VRef 9) true true]
    ∧ objs w1 !! 15 = Some t1
    ∧ location t1 = Some 1
    ∧ ndb_get t1 "last_location" = VRef 2
    ∧ db_get t1 "last_room" = VRef 2.
Proof.
  destruct (plain_exit_moves_at_once ExitSamples.open_fw MoveSamples.harbor_world 9 15 1 2
              (MoveSamples.door "door" 2 1) MoveSamples.finn (ExitSamples.room "Harbor")
              eq_refl eq_refl eq_refl eq_refl eq_refl eq_refl eq_refl)
    as (w1 & t1 & Hrun & Htrace & _ & Ht1 & _ & Hplace & Hlast & Hroom).
  exists w1, t1. split_and!; [exact Hrun | exact Htrace | exact Ht1 | exact Hplace
                             | exact Hlast | exact Hroom].
Defined.

End MovementProofs.

(** ** contrib/procpools/python_procpool_plugin.py, further properties *)

Module PoolProofs.

Import Procpool PoolSamples.

(** The switch, the children's environment and the unused host.  A disabled
    plugin prints and registers nothing.  An enabled one prints the port and
    registers exactly one service, under the name it also gives to the pool;
    the processes it starts get the name of the default database, or the
    older [DATABASE_NAME] setting when the default database has no name or
    an empty one, and the [select] reactor on [nt] only.  The host setting
    plays no part in any of this. *)
Theorem plugin_switch_and_child_environment (cfg : Config) (e : Env) :
  (if PROCPOOL_ENABLED cfg then
     ∃ svc pool starter,
       start_plugin_services cfg e =
         [ Print ("  amp (Process Pool): " +:+ str_of_int (PROCPOOL_PORT cfg));
           AddService svc ]
       ∧ service_name svc = SERVICE_NAME cfg
       ∧ args_of (service svc) !! 0%nat = Some pool
       ∧ kwarg "name" pool = Some (AStr (SERVICE_NAME cfg))
       ∧ starter_of svc = Some starter
       ∧ kwarg "env" starter =
           Some (ADict [ ("DJANGO_SETTINGS_MODULE", "settings");
                         ("DATABASE_NAME",
                          match DATABASES_default_NAME e with
                          | Some name => if String.eqb name "" then DATABASE_NAME e else name
                          | None => DATABASE_NAME e
                          end) ])
       ∧ kwarg "childReactor" starter =
           Some (AStr (if String.eqb (os_name e) "nt" then "select" else "epoll"))
   else start_plugin_services cfg e = [])
  ∧ ∀ host, start_plugin_services (with_host host cfg) e = start_plugin_services cfg e.
Proof.
  split; [|reflexivity].
  unfold start_plugin_services.
  destruct (PROCPOOL_ENABLED cfg); [|reflexivity]. cbn [negb].
  eexists _, _, _. split; [reflexivity|]. cbn [service service_name args_of].
  split; [reflexivity|]. split; [reflexivity|]. split; [reflexivity|].
  split; [reflexivity|]. split; [|reflexivity].
  unfold kwarg. cbn. do 3 f_equal.
  destruct (DATABASES_default_NAME e) as [name|]; [|reflexivity].
  cbn. by destruct (String.eqb name "").
Qed.

End PoolProofs.
